(** * Hand gesture volume controller: classification, smoothing and mapping

    A shallow embedding of [gesture_manager.py], [volume_controller.py] and
    [config_manager.py].

    Python floats are IEEE binary64 numbers: they are modelled by Rocq's
    primitive floats, whose [+], [-], [*], [/], [sqrt] and comparisons are the
    binary64 operations.  Python raises where binary64 would return a special
    value: an index out of range raises [IndexError], [/] by zero raises
    [ZeroDivisionError], [**] raises [OverflowError] when a finite operand has
    an infinite power, [int] raises on infinities and NaN.  Each is written
    out below. *)

From Stdlib Require Import Floats ZArith List String Bool Lia.
Import ListNotations.

Set Warnings "-inexact-float".
Set Implicit Arguments.

(** ** Python runtime *)

Module Py.

Inductive exn : Type :=
| IndexError
| ZeroDivisionError
| OverflowError
| ValueError
| TypeError.

Inductive outcome (A : Type) : Type :=
| Ok (a : A)
| Raise (e : exn).

Arguments Ok {A} a.
Arguments Raise {A} e.

(** A computation over a mutable store [S]: it returns or raises, and leaves
    the store as it was at that point. *)
Definition M (S A : Type) : Type := S -> outcome A * S.

Definition ret {S A : Type} (a : A) : M S A := fun s => (Ok a, s).

Definition bind {S A B : Type} (m : M S A) (f : A -> M S B) : M S B :=
  fun s =>
    match m s with
    | (Ok a, s') => f a s'
    | (Raise e, s') => (Raise e, s')
    end.

Definition lift {S A : Type} (o : outcome A) : M S A := fun s => (o, s).

Definition gets {S A : Type} (f : S -> A) : M S A := fun s => (Ok (f s), s).

Definition modify {S : Type} (f : S -> S) : M S unit := fun s => (Ok tt, f s).

(** [try: m except Exception: pass] *)
Definition try_except {S : Type} (m : M S unit) : M S unit :=
  fun s =>
    match m s with
    | (Ok u, s') => (Ok u, s')
    | (Raise _, s') => (Ok tt, s')
    end.

Declare Scope py_scope.
Delimit Scope py_scope with py.

Notation "x <- m ;; k" := (bind m (fun x => k))
  (at level 61, m at next level, right associativity) : py_scope.
Notation "m ;;; k" := (bind m (fun _ => k))
  (at level 61, right associativity) : py_scope.

Open Scope py_scope.

(** [a and b] and [not a] over computations: [b] is run only when [a] is
    true. *)
Definition andM {S : Type} (a b : M S bool) : M S bool :=
  v <- a ;; if v then b else ret false.

Definition notM {S : Type} (a : M S bool) : M S bool :=
  v <- a ;; ret (negb v).

(** [for x in xs: acc = body(acc, x)] *)
Fixpoint for_each {S A B : Type} (xs : list B) (body : A -> B -> M S A) (acc : A)
  : M S A :=
  match xs with
  | [] => ret acc
  | x :: rest => acc' <- body acc x ;; for_each rest body acc'
  end.

(** [sum] of a list of booleans: the number of true ones. *)
Definition sum_bools (bs : list bool) : nat :=
  List.length (List.filter (fun b => b) bs).

(** *** Floats *)

Open Scope float_scope.

Definition is_inf (x : float) : bool := abs x =? infinity.

Definition is_nan (x : float) : bool := negb (x =? x).

(** [x ** 2]: the correctly rounded square; CPython's [float_pow] raises
    [OverflowError] when the power of a finite number is infinite. *)
Definition pow2 (x : float) : outcome float :=
  let r := x * x in
  if is_inf r && negb (is_inf x) then Raise OverflowError else Ok r.

(** [x / y] *)
Definition truediv (x y : float) : outcome float :=
  if y =? 0 then Raise ZeroDivisionError else Ok (x / y).

(** The builtins [min(a, b)] and [max(a, b)]: the first argument is kept
    unless the second is strictly smaller (greater). *)
Definition min (a b : float) : float := if b <? a then b else a.
Definition max (a b : float) : float := if a <? b then b else a.

(** [float(n)] for a length or a frame dimension. *)
Definition of_nat (n : nat) : float :=
  PrimFloat.of_uint63 (Uint63.of_Z (Z.of_nat n)).

(** [sum(xs)]: the items added from left to right, starting from 0. *)
Definition sum (xs : list float) : float := fold_left PrimFloat.add xs 0.

(** [sum(xs)] from CPython 3.12 on: the same additions, with the rounding
    errors collected on the side and added at the end. *)
Definition sum_step (acc : float * float) (v : float) : float * float :=
  let '(total, c) := acc in
  let t := total + v in
  if abs v <=? abs total
  then (t, c + ((total - t) + v))
  else (t, c + ((v - t) + total)).

Definition sum_compensated (xs : list float) : float :=
  let '(total, c) := fold_left sum_step xs (0, 0) in
  if (c =? 0) || is_inf c || is_nan c then total else total + c.

(** [int(x)]: truncation towards zero; [OverflowError] on an infinity,
    [ValueError] on NaN. *)
Definition int (x : float) : outcome Z :=
  match Prim2SF x with
  | S754_zero _ => Ok 0%Z
  | S754_infinity _ => Raise OverflowError
  | S754_nan => Raise ValueError
  | S754_finite s m e =>
      let v := if (0 <=? e)%Z then (Zpos m * 2 ^ e)%Z
               else Z.quot (Zpos m) (2 ^ (- e)) in
      Ok (if s then (- v)%Z else v)
  end.

(** *** [collections.deque] with [maxlen] *)

Record deque (A : Type) : Type := mkDeque {
  items : list A;
  maxlen : nat
}.

Definition deque_new (A : Type) (n : nat) : deque A := mkDeque [] n.

Definition deque_len {A : Type} (d : deque A) : nat := List.length (items d).

(** [d.append(v)]: a full deque drops its oldest item; a deque of maximal
    length 0 stays empty. *)
Definition deque_append {A : Type} (d : deque A) (v : A) : deque A :=
  match maxlen d with
  | O => d
  | S _ =>
      if Nat.ltb (deque_len d) (maxlen d)
      then mkDeque (items d ++ [v]) (maxlen d)
      else mkDeque (List.tl (items d) ++ [v]) (maxlen d)
  end.

(** [seq[i]] for a non-negative literal [i] *)
Definition getitem {A : Type} (xs : list A) (i : nat) : outcome A :=
  match nth_error xs i with
  | Some v => Ok v
  | None => Raise IndexError
  end.

End Py.

Import Py.
Open Scope py_scope.
Open Scope float_scope.

(** ** gesture_manager.py *)

Module Gesture.

Inductive GestureType : Type :=
| PINCH
| OPEN_HAND
| PEACE
| THUMBS_UP
| ROCK
| OK_SIGN
| PALM
| SWIPE_LEFT
| SWIPE_RIGHT
| SWIPE_UP
| SWIPE_DOWN
| POINT
| FIST
| UNKNOWN.

(** A MediaPipe landmark: normalized image coordinates. *)
Record point : Type := mkPoint { x : float; y : float }.

(** A hand centre [(x, y)]. *)
Definition position : Type := (float * float)%type.

Record GestureManager : Type := mkGestureManager {
  history_length : nat;
  hand_positions : deque position;
  gesture_confidence : list (string * float);
  swipe_threshold : float;
  min_gesture_frames : nat
}.

(** [GestureManager.__init__] *)
Definition init (history_length : nat) : GestureManager :=
  {| history_length := history_length;
     hand_positions := deque_new position history_length;
     gesture_confidence := [];
     swipe_threshold := 0.1;
     min_gesture_frames := 3 |}.

(** The objects a call can reach: the manager, the list passed as
    [history_positions], and (as a record of what the call did) the landmark
    indices it read, oldest first. *)
Record heap : Type := mkHeap {
  self : GestureManager;
  history_positions : list position;
  reads : list nat
}.

Definition G (A : Type) : Type := M heap A.

(** [landmarks[i]] *)
Definition landmark (landmarks : list point) (i : nat) : G point :=
  fun h =>
    (getitem landmarks i,
     {| self := self h;
        history_positions := history_positions h;
        reads := reads h ++ [i] |}).

Definition calculate_distance (point1 point2 : point) : outcome float :=
  match pow2 (x point1 - x point2) with
  | Raise e => Raise e
  | Ok dx2 =>
      match pow2 (y point1 - y point2) with
      | Raise e => Raise e
      | Ok dy2 => Ok (sqrt (dx2 + dy2))
      end
  end.

Section Angle.

(** The C library's arc cosine on [-1, 1], and [math.degrees]. *)
Variable acos : float -> float.
Variable degrees : float -> float.

(** [math.acos]: [ValueError] outside [-1, 1]; NaN is passed through. *)
Definition math_acos (v : float) : outcome float :=
  if (v <? -1) || (1 <? v) then Raise ValueError else Ok (acos v).

Definition calculate_angle (point1 point2 point3 : point) : outcome float :=
  match calculate_distance point1 point2 with Raise e => Raise e | Ok a =>
  match calculate_distance point2 point3 with Raise e => Raise e | Ok b =>
  match calculate_distance point1 point3 with Raise e => Raise e | Ok c =>
  if (a =? 0) || (b =? 0) then Ok 0
  else
    match pow2 a with Raise e => Raise e | Ok a2 =>
    match pow2 b with Raise e => Raise e | Ok b2 =>
    match pow2 c with Raise e => Raise e | Ok c2 =>
    match truediv (a2 + b2 - c2) (2 * a * b) with Raise e => Raise e | Ok cos_angle =>
    let cos_angle := max (-1) (min 1 cos_angle) in
    match math_acos cos_angle with Raise e => Raise e | Ok angle =>
    Ok (degrees angle)
    end end end end end
  end end end.

End Angle.

Definition is_finger_raised (finger_tip finger_pip : point) : bool :=
  y finger_tip <? y finger_pip.

(** [self.is_finger_raised(landmarks[tip], landmarks[pip])] *)
Definition raised (landmarks : list point) (tip pip : nat) : G bool :=
  t <- landmark landmarks tip ;;
  p <- landmark landmarks pip ;;
  ret (is_finger_raised t p).

(** [[e1, e2, ...]]: the items evaluated in order. *)
Fixpoint list_of (ms : list (G bool)) : G (list bool) :=
  match ms with
  | [] => ret []
  | m :: rest => b <- m ;; bs <- list_of rest ;; ret (b :: bs)
  end.

Definition count_raised_fingers (landmarks : list point) (handedness : string)
  : G nat :=
  let finger_tips := [4; 8; 12; 16; 20]%nat in
  let finger_pips := [3; 6; 10; 14; 18]%nat in
  for_each (seq 0 5)
    (fun raised_count i =>
       b <- raised landmarks (nth i finger_tips 0%nat) (nth i finger_pips 0%nat) ;;
       ret (if b then S raised_count else raised_count))
    0%nat.

Definition detect_peace_sign (landmarks : list point) (handedness : string)
  : G bool :=
  andM (raised landmarks 8 6)
    (andM (raised landmarks 12 10)
       (andM (notM (raised landmarks 16 14))
          (notM (raised landmarks 20 18)))).

Definition detect_thumbs_up (landmarks : list point) : G bool :=
  thumb_tip <- landmark landmarks 4 ;;
  thumb_pip <- landmark landmarks 3 ;;
  middle_finger_mcp <- landmark landmarks 9 ;;
  if y thumb_tip <? y thumb_pip then
    if y thumb_tip <? y middle_finger_mcp then
      d <- lift (calculate_distance thumb_tip thumb_pip) ;;
      ret (0.05 <? d)
    else ret false
  else ret false.

Definition detect_rock_gesture (landmarks : list point) : G bool :=
  andM (raised landmarks 8 6)
    (andM (raised landmarks 20 18)
       (andM (notM (raised landmarks 12 10))
          (notM (raised landmarks 16 14)))).

Definition detect_ok_sign (landmarks : list point) : G bool :=
  p4 <- landmark landmarks 4 ;;
  p8 <- landmark landmarks 8 ;;
  thumb_index_distance <- lift (calculate_distance p4 p8) ;;
  bs <- list_of [raised landmarks 12 10;
                 raised landmarks 16 14;
                 raised landmarks 20 18] ;;
  let other_fingers_up := Nat.leb 2 (sum_bools bs) in
  ret ((thumb_index_distance <? 0.05) && other_fingers_up).

Definition detect_pointing (landmarks : list point) : G bool :=
  andM (raised landmarks 8 6)
    (andM (notM (raised landmarks 12 10))
       (andM (notM (raised landmarks 16 14))
          (notM (raised landmarks 20 18)))).

(** [landmarks[4].y < landmarks[3].y] *)
Definition thumb_above_pip (landmarks : list point) : G bool :=
  p4 <- landmark landmarks 4 ;;
  p3 <- landmark landmarks 3 ;;
  ret (y p4 <? y p3).

Definition detect_palm_open (landmarks : list point) : G bool :=
  bs <- list_of [raised landmarks 8 6;
                 raised landmarks 12 10;
                 raised landmarks 16 14;
                 raised landmarks 20 18;
                 thumb_above_pip landmarks] ;;
  ret (Nat.leb 4 (sum_bools bs)).

Definition detect_fist (landmarks : list point) : G bool :=
  bs <- list_of [raised landmarks 8 6;
                 raised landmarks 12 10;
                 raised landmarks 16 14;
                 raised landmarks 20 18] ;;
  ret (Nat.eqb (sum_bools bs) 0).

(** The classification of a normalized displacement (lines 187-195). *)
Definition classify_displacement (threshold displacement_x displacement_y : float)
  : option GestureType :=
  if (threshold <? abs displacement_x) && (abs displacement_y <? abs displacement_x)
  then Some (if 0 <? displacement_x then SWIPE_RIGHT else SWIPE_LEFT)
  else if (threshold <? abs displacement_y) && (abs displacement_x <? abs displacement_y)
  then Some (if displacement_y <? 0 then SWIPE_UP else SWIPE_DOWN)
  else None.

Definition detect_swipe (current_position : position) (frame_width : float)
  : G (option GestureType) :=
  n <- gets (fun h => List.length (history_positions h)) ;;
  min_frames <- gets (fun h => min_gesture_frames (self h)) ;;
  if Nat.ltb n min_frames then ret None
  else
    oldest_position <- (fun h => (getitem (history_positions h) 0, h)) ;;
    let displacement_x := fst current_position - fst oldest_position in
    let displacement_y := snd current_position - snd oldest_position in
    displacement_x <- lift (truediv displacement_x frame_width) ;;
    displacement_y <- lift (truediv displacement_y frame_width) ;;
    threshold <- gets (fun h => swipe_threshold (self h)) ;;
    ret (classify_displacement threshold displacement_x displacement_y).

Definition recognize_gesture (landmarks : list point) (handedness : string)
  (hand_center : position) (frame_width : float) : G GestureType :=
  b <- detect_thumbs_up landmarks ;;
  if b then ret THUMBS_UP else
  b <- detect_peace_sign landmarks handedness ;;
  if b then ret PEACE else
  b <- detect_rock_gesture landmarks ;;
  if b then ret ROCK else
  b <- detect_ok_sign landmarks ;;
  if b then ret OK_SIGN else
  b <- detect_pointing landmarks ;;
  if b then ret POINT else
  b <- detect_palm_open landmarks ;;
  if b then ret PALM else
  b <- detect_fist landmarks ;;
  if b then ret FIST else
  swipe <- detect_swipe hand_center frame_width ;;
  match swipe with
  | Some g => ret g
  | None =>
      p4 <- landmark landmarks 4 ;;
      p8 <- landmark landmarks 8 ;;
      thumb_index_dist <- lift (calculate_distance p4 p8) ;;
      if thumb_index_dist <? 0.05 then ret PINCH
      else if 0.15 <? thumb_index_dist then ret OPEN_HAND
      else ret UNKNOWN
  end.

(** The precedence of section 4.4 as an ordered rule list, for comparison
    with [recognize_gesture]: the first rule whose predicate holds gives the
    label, then the swipe check, then the thumb-index distance. *)
Definition cascade (landmarks : list point) (handedness : string)
  : list (G bool * GestureType) :=
  [ (detect_thumbs_up landmarks, THUMBS_UP);
    (detect_peace_sign landmarks handedness, PEACE);
    (detect_rock_gesture landmarks, ROCK);
    (detect_ok_sign landmarks, OK_SIGN);
    (detect_pointing landmarks, POINT);
    (detect_palm_open landmarks, PALM);
    (detect_fist landmarks, FIST) ].

Fixpoint first_match (rules : list (G bool * GestureType)) : G (option GestureType) :=
  match rules with
  | [] => ret None
  | (predicate, label) :: rest =>
      b <- predicate ;;
      if b then ret (Some label) else first_match rest
  end.

Definition distance_fallback (landmarks : list point) : G GestureType :=
  p4 <- landmark landmarks 4 ;;
  p8 <- landmark landmarks 8 ;;
  thumb_index_dist <- lift (calculate_distance p4 p8) ;;
  ret (if thumb_index_dist <? 0.05 then PINCH
       else if 0.15 <? thumb_index_dist then OPEN_HAND
       else UNKNOWN).

Definition recognize_by_precedence (landmarks : list point) (handedness : string)
  (hand_center : position) (frame_width : float) : G GestureType :=
  pose <- first_match (cascade landmarks handedness) ;;
  match pose with
  | Some g => ret g
  | None =>
      swipe <- detect_swipe hand_center frame_width ;;
      match swipe with
      | Some g => ret g
      | None => distance_fallback landmarks
      end
  end.

End Gesture.

(** ** volume_controller.py *)

Module Volume.

Import Gesture.

Record HandGestureVolumeController : Type := mkController {
  distance_history : deque float;
  fingers_history : deque nat;
  (** the levels [self.set_volume] was called with, oldest first *)
  set_volume_calls : list float
}.

(** [HandGestureVolumeController.__init__] *)
Definition init (smoothing_window : nat) : HandGestureVolumeController :=
  {| distance_history := deque_new float smoothing_window;
     fingers_history := deque_new nat smoothing_window;
     set_volume_calls := [] |}.

Definition V (A : Type) : Type := M HandGestureVolumeController A.

(** [self.set_volume(volume)]: the call to the platform's mixer. *)
Definition set_volume (volume : float) : V unit :=
  modify (fun c =>
    {| distance_history := distance_history c;
       fingers_history := fingers_history c;
       set_volume_calls := set_volume_calls c ++ [volume] |}).

Definition calculate_distance (point1 point2 : point) : outcome float :=
  match pow2 (x point1 - x point2) with
  | Raise e => Raise e
  | Ok dx2 =>
      match pow2 (y point1 - y point2) with
      | Raise e => Raise e
      | Ok dy2 => Ok (sqrt (dx2 + dy2))
      end
  end.

Definition count_fingers (hand_landmarks : list point) (handedness : string)
  : V nat :=
  let fingers_tips := [4; 8; 12; 16; 20]%nat in
  let fingers_pip := [3; 6; 10; 14; 18]%nat in
  (* Thumb *)
  tip <- lift (getitem hand_landmarks (nth 0 fingers_tips 0%nat)) ;;
  pip <- lift (getitem hand_landmarks (nth 0 fingers_pip 0%nat)) ;;
  let fingers_raised :=
    if String.eqb handedness "Right"
    then (if x tip <? x pip then 1%nat else 0%nat)
    else (if x pip <? x tip then 1%nat else 0%nat) in
  (* Other fingers *)
  for_each (seq 1 4)
    (fun fingers_raised i =>
       tip <- lift (getitem hand_landmarks (nth i fingers_tips 0%nat)) ;;
       pip <- lift (getitem hand_landmarks (nth i fingers_pip 0%nat)) ;;
       ret (if y tip <? y pip then S fingers_raised else fingers_raised))
    fingers_raised.

(** [sum(self.distance_history) / len(self.distance_history)]: a float
    divided by a length, which raises exactly when the length is 0. *)
Definition smooth (history : deque float) : outcome float :=
  match deque_len history with
  | O => Raise ZeroDivisionError
  | S _ => Ok (sum (items history) / of_nat (deque_len history))
  end.

(** Lines 172-178: the smoothed distance mapped from 0.02..0.3 to 0..100. *)
Definition map_distance_to_volume (smoothed_distance : float) : float :=
  max 0 (min 100 ((smoothed_distance - 0.02) / (0.3 - 0.02) * 100)).

(** What the perception service found in a frame: one landmark list and one
    list of classification labels per hand (an absent list is an empty
    one: both are false in the test of line 142). *)
Record results : Type := mkResults {
  multi_hand_landmarks : list (list point);
  multi_handedness : list (list string)
}.

(** Lines 153-178 of the loop body: the distance of thumb and index tips,
    its history, the finger count, the level. *)
Definition update_volume (hand_landmarks : list point) (handedness_info : list string)
  : V (point * point * nat * float) :=
  thumb_tip <- lift (getitem hand_landmarks 4) ;;
  index_tip <- lift (getitem hand_landmarks 8) ;;
  distance <- lift (calculate_distance thumb_tip index_tip) ;;
  modify (fun c =>
    {| distance_history := deque_append (distance_history c) distance;
       fingers_history := fingers_history c;
       set_volume_calls := set_volume_calls c |}) ;;;
  history <- gets distance_history ;;
  smoothed_distance <- lift (smooth history) ;;
  handedness_label <- lift (getitem handedness_info 0) ;;
  fingers_count <- count_fingers hand_landmarks handedness_label ;;
  modify (fun c =>
    {| distance_history := distance_history c;
       fingers_history := deque_append (fingers_history c) fingers_count;
       set_volume_calls := set_volume_calls c |}) ;;;
  ret (thumb_tip, index_tip, fingers_count, map_distance_to_volume smoothed_distance).

(** Lines 180-207: the pixel positions and the text drawn on the frame; the
    drawing itself leaves the controller alone, the conversions can raise. *)
Definition annotate (frame_height frame_width : nat) (thumb_tip index_tip : point)
  (volume_level : float) : outcome unit :=
  match int (x thumb_tip * of_nat frame_width) with Raise e => Raise e | Ok _ =>
  match int (y thumb_tip * of_nat frame_height) with Raise e => Raise e | Ok _ =>
  match int (x index_tip * of_nat frame_width) with Raise e => Raise e | Ok _ =>
  match int (y index_tip * of_nat frame_height) with Raise e => Raise e | Ok _ =>
  match int volume_level with Raise e => Raise e | Ok _ => Ok tt
  end end end end end.

(** The body of the loop over the detected hands. *)
Definition process_hand (frame_height frame_width : nat)
  (hand_landmarks : list point) (handedness_info : list string) : V float :=
  r <- update_volume hand_landmarks handedness_info ;;
  let '(thumb_tip, index_tip, fingers_count, volume_level) := r in
  lift (annotate frame_height frame_width thumb_tip index_tip volume_level) ;;;
  try_except (set_volume volume_level) ;;;
  ret volume_level.

Definition process_frame (frame_height frame_width : nat) (detected : results)
  : V (option float) :=
  match multi_hand_landmarks detected, multi_handedness detected with
  | [], _ | _, [] => ret None
  | _, _ =>
      for_each (combine (multi_hand_landmarks detected) (multi_handedness detected))
        (fun (volume_level : option float) hand =>
           v <- process_hand frame_height frame_width (fst hand) (snd hand) ;;
           ret (Some v))
        None
  end.

End Volume.

(** ** config_manager.py *)

Module Config.

(** A value read from the configuration file. *)
Inductive value : Type :=
| Int (z : Z)
| Float (f : float)
| Bool (b : bool)
| Strings (l : list string).

(** The keyword arguments of a constructor call. *)
Definition kwargs : Type := list (string * value).

Fixpoint lookup (key : string) (kw : kwargs) : option value :=
  match kw with
  | [] => None
  | (k, v) :: rest => if String.eqb k key then Some v else lookup key rest
  end.

Definition get (key : string) (default : value) (kw : kwargs) : value :=
  match lookup key kw with
  | Some v => v
  | None => default
  end.

(** A dataclass stores what it is given: the annotations are not enforced. *)
Record VolumeConfig : Type := mkVolumeConfig {
  min_distance : value;
  max_distance : value;
  smoothing_window : value;
  sensitivity : value;
  min_change_threshold : value
}.

Definition VolumeConfig_fields : list string :=
  ["min_distance"; "max_distance"; "smoothing_window"; "sensitivity";
   "min_change_threshold"]%string.

Definition known (fields : list string) (kw : kwargs) : bool :=
  forallb (fun kv => existsb (String.eqb (fst kv)) fields) kw.

(** [VolumeConfig] called on the unpacked dictionary [kw]: the generated
    [__init__] takes the five fields as keywords with their defaults, and
    raises [TypeError] on any other. *)
Definition VolumeConfig_new (kw : kwargs) : outcome VolumeConfig :=
  if known VolumeConfig_fields kw then
    Ok {| min_distance := get "min_distance" (Float 0.02) kw;
          max_distance := get "max_distance" (Float 0.3) kw;
          smoothing_window := get "smoothing_window" (Int 5) kw;
          sensitivity := get "sensitivity" (Float 1.0) kw;
          min_change_threshold := get "min_change_threshold" (Float 2.0) kw |}
  else Raise TypeError.

Record GestureConfig : Type := mkGestureConfig {
  enabled_gestures : value;
  confidence_threshold : value;
  history_length : value;
  swipe_threshold : value
}.

Definition GestureConfig_fields : list string :=
  ["enabled_gestures"; "confidence_threshold"; "history_length";
   "swipe_threshold"]%string.

Definition GestureConfig_new (kw : kwargs) : outcome GestureConfig :=
  if known GestureConfig_fields kw then
    Ok {| enabled_gestures :=
            get "enabled_gestures"
              (Strings ["pinch"; "peace"; "thumbs_up"; "rock"; "pointing";
                        "swipe"]%string) kw;
          confidence_threshold := get "confidence_threshold" (Float 0.7) kw;
          history_length := get "history_length" (Int 5) kw;
          swipe_threshold := get "swipe_threshold" (Float 0.1) kw |}
  else Raise TypeError.

Record ApplicationConfig : Type := mkApplicationConfig {
  volume : VolumeConfig;
  gesture : GestureConfig
}.

(** The sections of the file that configure the core. *)
Record config_dict : Type := mkConfigDict {
  volume_section : option kwargs;
  gesture_section : option kwargs
}.

(** [ConfigManager._update_config_from_dict], on the two sections above. *)
Definition update_config_from_dict (d : config_dict) : M ApplicationConfig unit :=
  match volume_section d with
  | Some kw =>
      v <- lift (VolumeConfig_new kw) ;;
      modify (fun c => {| volume := v; gesture := gesture c |})
  | None => ret tt
  end ;;;
  match gesture_section d with
  | Some kw =>
      g <- lift (GestureConfig_new kw) ;;
      modify (fun c => {| volume := volume c; gesture := g |})
  | None => ret tt
  end.

(** The bounds section 6 asks for: distances at least 0, the largest
    distance above the smallest, window sizes at least 1. *)
Definition to_float (v : value) : float :=
  match v with
  | Float f => f
  | Int z => if (z <? 0)%Z
             then - PrimFloat.of_uint63 (Uint63.of_Z (- z))
             else PrimFloat.of_uint63 (Uint63.of_Z z)
  | Bool b => if b then 1 else 0
  | Strings _ => nan
  end.

Definition volume_in_bounds (c : VolumeConfig) : bool :=
  (0 <=? to_float (min_distance c))
  && (0 <=? to_float (max_distance c))
  && (to_float (min_distance c) <? to_float (max_distance c))
  && (1 <=? to_float (smoothing_window c)).

Definition gesture_in_bounds (c : GestureConfig) : bool :=
  1 <=? to_float (history_length c).

End Config.

(** ** The specification's wording of the rules, for comparison *)

Module Spec.

Import Gesture.

(** Section 4.3: a swipe to the right (left) when the horizontal
    displacement exceeds the threshold and the vertical one and is positive
    (negative); up (down) when the vertical one exceeds the threshold and the
    horizontal one and is negative (positive); nothing otherwise. *)
Definition swipe (threshold dx dy : float) : option GestureType :=
  if (threshold <? abs dx) && (abs dy <? abs dx) && (0 <? dx) then Some SWIPE_RIGHT
  else if (threshold <? abs dx) && (abs dy <? abs dx) && (dx <? 0) then Some SWIPE_LEFT
  else if (threshold <? abs dy) && (abs dx <? abs dy) && (dy <? 0) then Some SWIPE_UP
  else if (threshold <? abs dy) && (abs dx <? abs dy) && (0 <? dy) then Some SWIPE_DOWN
  else None.

(** Section 4.2 on single digits.  [landmark_of l i] is [l[i]] on a list
    that has an index [i]. *)
Definition landmark_of (landmarks : list point) (i : nat) : point :=
  nth i landmarks (mkPoint 0 0).

(** A finger other than the thumb is raised when its tip is above its pip
    joint. *)
Definition up (landmarks : list point) (tip pip : nat) : bool :=
  y (landmark_of landmarks tip) <? y (landmark_of landmarks pip).

Definition four_fingers (landmarks : list point) : nat :=
  sum_bools [up landmarks 8 6; up landmarks 12 10; up landmarks 16 14;
             up landmarks 20 18].

(** The thumb by [x], mirrored by handedness. *)
Definition thumb_by_x (handedness : string) (landmarks : list point) : bool :=
  if String.eqb handedness "Right"
  then x (landmark_of landmarks 4) <? x (landmark_of landmarks 3)
  else x (landmark_of landmarks 3) <? x (landmark_of landmarks 4).

(** The thumb by [y], like the other fingers. *)
Definition thumb_by_y (landmarks : list point) : bool := up landmarks 4 3.

(** The image of an observation in a mirror: [x] negated, the other hand. *)
Definition mirror (landmarks : list point) : list point :=
  map (fun p => mkPoint (- x p) (y p)) landmarks.

Definition other_hand (handedness : string) : string :=
  if String.eqb handedness "Right" then "Left"%string else "Right"%string.

End Spec.

(** ** Calls, ranges and sample observations *)

Import Gesture.

(** [triple P R E m Q]: from a heap whose manager and history satisfy [P],
    the call [m] leaves the manager and the history as they are, reads only
    landmark indices in [R], raises only exceptions in [E], and returns only
    values in [Q]. *)
Definition triple (P : GestureManager -> list position -> Prop)
  (R : nat -> Prop) (E : exn -> Prop) {A : Type} (m : G A) (Q : A -> Prop)
  : Prop :=
  forall h, P (self h) (history_positions h) ->
    self (snd (m h)) = self h
    /\ history_positions (snd (m h)) = history_positions h
    /\ (exists tr, reads (snd (m h)) = reads h ++ tr /\ Forall R tr)
    /\ match fst (m h) with Ok a => Q a | Raise e => E e end.

(** The landmark indices the pose rules read. *)
Definition pose_indices : list nat := [3; 4; 6; 8; 9; 10; 12; 14; 16; 18; 20]%nat.

(** [detect_swipe] as a function of what it reads. *)
Definition swipe_outcome (manager : GestureManager) (history : list position)
  (current_position : position) (frame_width : float)
  : outcome (option GestureType) :=
  if Nat.ltb (List.length history) (min_gesture_frames manager) then Ok None
  else
    match getitem history 0 with
    | Raise e => Raise e
    | Ok oldest =>
        match truediv (fst current_position - fst oldest) frame_width with
        | Raise e => Raise e
        | Ok dx =>
            match truediv (snd current_position - snd oldest) frame_width with
            | Raise e => Raise e
            | Ok dy => Ok (classify_displacement (swipe_threshold manager) dx dy)
            end
        end
    end.

(** A level the mixer accepts. *)
Definition in_range (v : float) : Prop := (0 <=? v) = true /\ (v <=? 100) = true.

(** A finite number. *)
Definition finite (v : float) : bool := negb (is_inf v) && negb (is_nan v).

(** A thumb pointing up, the other landmarks on one spot. *)
Definition thumbs_up_hand : list point :=
  map (fun i => match i with
                | 3 => mkPoint 0.5 0.4
                | 4 => mkPoint 0.5 0.2
                | _ => mkPoint 0.5 0.5
                end%nat) (seq 0 21).

(** Finite coordinates, the thumb far to the right of the frame. *)
Definition far_thumb_hand : list point :=
  map (fun i => match i with
                | 4 => mkPoint 0x1p+600 0
                | _ => mkPoint 0 1
                end%nat) (seq 0 21).

(** Index, middle and ring finger up, the thumb tip straight above its pip
    joint. *)
Definition three_fingers_hand : list point :=
  map (fun i => match i with
                | 4 => mkPoint 0.5 0.3
                | 8 | 12 | 16 => mkPoint 0.5 0.2
                | _ => mkPoint 0.5 0.5
                end%nat) (seq 0 21).

(** Thumb and index tips [gap] apart, the hand closed. *)
Definition pinch_hand (gap : float) : list point :=
  map (fun i => match i with
                | 4 => mkPoint 0.5 0.5
                | 8 => mkPoint (0.5 + gap) 0.5
                | _ => mkPoint 0.5 0.6
                end%nat) (seq 0 21).

(** A manager as [__init__] builds it, no history yet, nothing read. *)
Definition fresh_heap : heap := mkHeap (Gesture.init 5) [] [].

(** The thumb tip at [x = 0] and the index tip at [x = gap], level with
    each other, the hand closed. *)
Definition span_hand (gap : float) : list point :=
  map (fun i => match i with
                | 4 => mkPoint 0 0.5
                | 8 => mkPoint gap 0.5
                | _ => mkPoint 0.5 0.6
                end%nat) (seq 0 21).

(** A controller built with [smoothing_window = n] whose distance window is
    full of samples [d]. *)
Definition constant_window (n : nat) (d : float)
  : Volume.HandGestureVolumeController :=
  {| Volume.distance_history := mkDeque (repeat d n) n;
     Volume.fingers_history := deque_new nat n;
     Volume.set_volume_calls := [] |}.



(** ** performance_monitor.py *)

Module Monitor.

(** How a call ends: it returns, it raises, or it waits for ever for a lock
    that is held (nothing in this class releases a lock it has not
    acquired). *)
Inductive completion (A : Type) : Type :=
| Done (a : A)
| Raised (e : exn)
| Blocked.

Arguments Done {A} a.
Arguments Raised {A} e.
Arguments Blocked {A}.

Record PerformanceMonitor : Type := mkMonitor {
  window_size : nat;
  frame_times : deque float;
  gesture_times : deque float;
  volume_times : deque float;
  start_time : float;
  frame_count : nat;
  (** whether [self.lock] is held *)
  locked : bool
}.

(** [PerformanceMonitor.__init__], [now] being what [time.time()] returns. *)
Definition init (window_size : nat) (now : float) : PerformanceMonitor :=
  {| window_size := window_size;
     frame_times := deque_new float window_size;
     gesture_times := deque_new float window_size;
     volume_times := deque_new float window_size;
     start_time := now;
     frame_count := 0;
     locked := false |}.

Definition T (A : Type) : Type := PerformanceMonitor -> completion A * PerformanceMonitor.

Definition set_locked (b : bool) (m : PerformanceMonitor) : PerformanceMonitor :=
  {| window_size := window_size m;
     frame_times := frame_times m;
     gesture_times := gesture_times m;
     volume_times := volume_times m;
     start_time := start_time m;
     frame_count := frame_count m;
     locked := b |}.

(** [with self.lock: body]: [threading.Lock] is not reentrant, so acquiring
    it while it is held waits; it is released when the body returns or
    raises. *)
Definition with_lock {A : Type} (body : T A) : T A :=
  fun m =>
    if locked m then (Blocked, m)
    else
      match body (set_locked true m) with
      | (Done a, m') => (Done a, set_locked false m')
      | (Raised e, m') => (Raised e, set_locked false m')
      | (Blocked, m') => (Blocked, m')
      end.

Definition pure {A : Type} (a : A) : T A := fun m => (Done a, m).

Definition then_ {A B : Type} (c : T A) (k : A -> T B) : T B :=
  fun m =>
    match c m with
    | (Done a, m') => k a m'
    | (Raised e, m') => (Raised e, m')
    | (Blocked, m') => (Blocked, m')
    end.

Definition of_outcome {A : Type} (o : outcome A) : T A :=
  fun m => match o with Ok a => (Done a, m) | Raise e => (Raised e, m) end.

Definition record_frame (duration : float) : T unit :=
  with_lock (fun m =>
    (Done tt,
     {| window_size := window_size m;
        frame_times := deque_append (frame_times m) duration;
        gesture_times := gesture_times m;
        volume_times := volume_times m;
        start_time := start_time m;
        frame_count := S (frame_count m);
        locked := locked m |})).

Definition record_gesture (duration : float) : T unit :=
  with_lock (fun m =>
    (Done tt,
     {| window_size := window_size m;
        frame_times := frame_times m;
        gesture_times := deque_append (gesture_times m) duration;
        volume_times := volume_times m;
        start_time := start_time m;
        frame_count := frame_count m;
        locked := locked m |})).

Definition record_volume_control (duration : float) : T unit :=
  with_lock (fun m =>
    (Done tt,
     {| window_size := window_size m;
        frame_times := frame_times m;
        gesture_times := gesture_times m;
        volume_times := deque_append (volume_times m) duration;
        start_time := start_time m;
        frame_count := frame_count m;
        locked := locked m |})).

(** [sum(times) / len(times)] *)
Definition average (times : deque float) : outcome float :=
  match deque_len times with
  | O => Raise ZeroDivisionError
  | S _ => Ok (sum (items times) / of_nat (deque_len times))
  end.

(** [if not times: return 0.0] and then [sum(times) / len(times)] *)
Definition average_or_zero (times : deque float) : T float :=
  match items times with
  | [] => pure 0
  | _ :: _ => of_outcome (average times)
  end.

Definition get_fps : T float :=
  with_lock (fun m =>
    match items (frame_times m) with
    | [] => pure 0 m
    | _ :: _ =>
        then_ (of_outcome (average (frame_times m)))
          (fun avg_frame_time =>
             if 0 <? avg_frame_time
             then of_outcome (truediv 1 avg_frame_time)
             else pure 0) m
    end).

Definition get_avg_frame_time : T float :=
  with_lock (fun m => average_or_zero (frame_times m) m).

Definition get_avg_gesture_time : T float :=
  with_lock (fun m => average_or_zero (gesture_times m) m).

Definition get_avg_volume_time : T float :=
  with_lock (fun m => average_or_zero (volume_times m) m).

Record summary : Type := mkSummary {
  fps : float;
  frame_time_ms : float;
  gesture_time_ms : float;
  volume_time_ms : float;
  total_frames : nat;
  uptime_seconds : float
}.

(** [get_performance_summary], [now] being what [time.time()] returns. *)
Definition get_performance_summary (now : float) : T summary :=
  with_lock
    (then_ get_fps (fun fps =>
     then_ get_avg_frame_time (fun frame_time =>
     then_ get_avg_gesture_time (fun gesture_time =>
     then_ get_avg_volume_time (fun volume_time =>
     fun m =>
       (Done {| fps := fps;
                frame_time_ms := frame_time * 1000;
                gesture_time_ms := gesture_time * 1000;
                volume_time_ms := volume_time * 1000;
                total_frames := frame_count m;
                uptime_seconds := now - start_time m |}, m)))))).

(** [print_performance_stats]: the summary, then the lines printed. *)
Definition print_performance_stats (now : float) : T summary :=
  then_ (get_performance_summary now) (fun stats => pure stats).

(** The calls that record or read without taking the summary. *)
Inductive call : Type :=
| RecordFrame (duration : float)
| RecordGesture (duration : float)
| RecordVolumeControl (duration : float)
| GetFps
| GetAvgFrameTime
| GetAvgGestureTime
| GetAvgVolumeTime.

Definition perform (c : call) : T unit :=
  match c with
  | RecordFrame d => record_frame d
  | RecordGesture d => record_gesture d
  | RecordVolumeControl d => record_volume_control d
  | GetFps => then_ get_fps (fun _ => pure tt)
  | GetAvgFrameTime => then_ get_avg_frame_time (fun _ => pure tt)
  | GetAvgGestureTime => then_ get_avg_gesture_time (fun _ => pure tt)
  | GetAvgVolumeTime => then_ get_avg_volume_time (fun _ => pure tt)
  end.

Fixpoint perform_all (cs : list call) : T unit :=
  match cs with
  | [] => pure tt
  | c :: rest => then_ (perform c) (fun _ => perform_all rest)
  end.

(** The durations a list of calls records for frames. *)
Fixpoint frame_durations (cs : list call) : list float :=
  match cs with
  | [] => []
  | RecordFrame d :: rest => d :: frame_durations rest
  | _ :: rest => frame_durations rest
  end.

End Monitor.

(** ** config_manager.py: the setters *)

Module ConfigUpdate.

Import Config.

(** [ConfigManager.update_volume_sensitivity] *)
Definition update_volume_sensitivity (new_sensitivity : float)
  : M ApplicationConfig unit :=
  modify (fun c =>
    {| volume :=
         {| min_distance := min_distance (volume c);
            max_distance := max_distance (volume c);
            smoothing_window := smoothing_window (volume c);
            sensitivity := Float (max 0.1 (min 2.0 new_sensitivity));
            min_change_threshold := min_change_threshold (volume c) |};
       gesture := gesture c |}).

(** [ConfigManager.update_gesture_confidence] *)
Definition update_gesture_confidence (threshold : float)
  : M ApplicationConfig unit :=
  modify (fun c =>
    {| volume := volume c;
       gesture :=
         {| enabled_gestures := enabled_gestures (gesture c);
            confidence_threshold := Float (max 0.0 (min 1.0 threshold));
            history_length := history_length (gesture c);
            swipe_threshold := swipe_threshold (gesture c) |} |}).

(** [asdict] of the two sections, as [save_config] calls it. *)
Definition asdict_volume (c : VolumeConfig) : kwargs :=
  [("min_distance", min_distance c);
   ("max_distance", max_distance c);
   ("smoothing_window", smoothing_window c);
   ("sensitivity", sensitivity c);
   ("min_change_threshold", min_change_threshold c)]%string.

Definition asdict_gesture (c : GestureConfig) : kwargs :=
  [("enabled_gestures", enabled_gestures c);
   ("confidence_threshold", confidence_threshold c);
   ("history_length", history_length c);
   ("swipe_threshold", swipe_threshold c)]%string.

(** The dictionary [save_config] hands to [json.dump], on the two
    sections. *)
Definition saved (c : ApplicationConfig) : config_dict :=
  {| volume_section := Some (asdict_volume (volume c));
     gesture_section := Some (asdict_gesture (gesture c)) |}.

End ConfigUpdate.

(** ** Numbers *)

Module Num.

(** A number as Python prints it: an integer is written without a
    fraction, a float with one. *)
Inductive number : Type :=
| Int (z : Z)
| Float (f : float).

(** [float(n)], for the small integers met here. *)
Definition of_Z (z : Z) : float :=
  if (z <? 0)%Z
  then - PrimFloat.of_uint63 (Uint63.of_Z (- z))
  else PrimFloat.of_uint63 (Uint63.of_Z z).

Definition to_float (n : number) : float :=
  match n with
  | Int z => of_Z z
  | Float f => f
  end.

(** [a < b] on numbers; the integers met here are exact as floats. *)
Definition lt (a b : number) : bool :=
  match a, b with
  | Int x, Int y => (x <? y)%Z
  | _, _ => to_float a <? to_float b
  end.

(** The builtins on numbers: the first argument is kept, with its type,
    unless the second is strictly smaller (greater). *)
Definition min (a b : number) : number := if lt b a then b else a.
Definition max (a b : number) : number := if lt a b then b else a.

(** [sum] of a list of integers. *)
Definition sum_int (xs : list Z) : Z := fold_left Z.add xs 0%Z.

(** [a / b] on integers: the quotient rounded to the nearest float.  Both
    integers are exact as floats wherever this is used, so that the division
    of the two floats is that quotient. *)
Definition truediv_int (a b : Z) : outcome float :=
  if (b =? 0)%Z then Raise ZeroDivisionError else Ok (of_Z a / of_Z b).

End Num.

(** ** volume_controller.py: the mixers *)

Module Mixer.

(** [max(0, min(100, volume))] *)
Definition clamp (volume : float) : Num.number :=
  Num.max (Num.Int 0) (Num.min (Num.Int 100) (Num.Float volume)).

(** What is handed to the operating system: the [osascript] and [amixer]
    command lines with the level written into them, the scalar given to the
    Windows endpoint, or the warning printed when [pycaw] is missing. *)
Inductive command : Type :=
| Osascript (level : Num.number)
| Amixer (level : Num.number)
| Endpoint (scalar : float)
| PycawWarning.

Definition set_volume_mac (volume : float) : command :=
  Osascript (clamp volume).

(** [pycaw] tells whether the import of [pycaw] succeeds. *)
Definition set_volume_windows (pycaw : bool) (volume : float) : command :=
  if pycaw then Endpoint (Num.to_float (clamp volume) / 100.0) else PycawWarning.

Definition set_volume_linux (volume : float) : command :=
  Amixer (clamp volume).

(** [setup_audio_control]: the mixer chosen for [platform.system()]. *)
Definition setup_audio_control (os_type : string) (pycaw : bool)
  : float -> command :=
  if String.eqb os_type "Darwin" then set_volume_mac
  else if String.eqb os_type "Windows" then set_volume_windows pycaw
  else set_volume_linux.

(** The level a command line carries. *)
Definition level_of (c : command) : option Num.number :=
  match c with
  | Osascript n | Amixer n => Some n
  | _ => None
  end.

End Mixer.

(** ** volume_controller.py: the frame rate shown by [run] *)

Module Run.

(** What the loop of [run] keeps for the frame rate it draws. *)
Record counters : Type := mkCounters {
  fps_counter : deque Z;
  frame_count : nat
}.

(** Lines 242-243 *)
Definition start : counters :=
  {| fps_counter := deque_new Z 30; frame_count := 0 |}.

(** [sum(fps_counter) / len(fps_counter) if fps_counter else 0] *)
Definition fps (fps_counter : deque Z) : outcome Num.number :=
  match items fps_counter with
  | [] => Ok (Num.Int 0)
  | _ :: _ =>
      match Num.truediv_int (Num.sum_int (items fps_counter))
              (Z.of_nat (deque_len fps_counter)) with
      | Ok q => Ok (Num.Float q)
      | Raise e => Raise e
      end
  end.

(** Lines 255-259: one frame counted, and the rate drawn on it. *)
Definition count_frame : M counters Num.number :=
  modify (fun s => {| fps_counter := fps_counter s;
                      frame_count := S (frame_count s) |}) ;;;
  n <- gets frame_count ;;
  (if Nat.eqb (n mod 30) 0
   then modify (fun s => {| fps_counter := deque_append (fps_counter s) 30%Z;
                            frame_count := frame_count s |})
   else ret tt) ;;;
  d <- gets fps_counter ;;
  lift (fps d).

(** The counters after [n] frames were read and shown. *)
Fixpoint after (n : nat) : counters :=
  match n with
  | O => start
  | S k => snd (count_frame (after k))
  end.

End Run.

(** ** logging_handler.py: the performance metrics *)

Module Logging.

(** A dictionary with string keys, in insertion order. *)
Definition dict (V : Type) : Type := list (string * V).

Fixpoint dict_get {V : Type} (key : string) (d : dict V) : option V :=
  match d with
  | [] => None
  | (k, v) :: rest => if String.eqb k key then Some v else dict_get key rest
  end.

(** [key in d] *)
Definition dict_mem {V : Type} (key : string) (d : dict V) : bool :=
  match dict_get key d with
  | Some _ => true
  | None => false
  end.

(** [d[key] = v]: a key of [d] keeps its place, a new key goes last. *)
Fixpoint dict_set {V : Type} (key : string) (v : V) (d : dict V) : dict V :=
  match d with
  | [] => [(key, v)]
  | (k, v') :: rest =>
      if String.eqb k key then (k, v) :: rest
      else (k, v') :: dict_set key v rest
  end.

(** [d[key].append(x)] for a key of [d]. *)
Fixpoint dict_append {V : Type} (key : string) (x : V) (d : dict (list V))
  : dict (list V) :=
  match d with
  | [] => []
  | (k, l) :: rest =>
      if String.eqb k key then (k, l ++ [x]) :: rest
      else (k, l) :: dict_append key x rest
  end.

(** The parts of the line [f"{metric_name}: {value:.2f}{unit}"]. *)
Record line : Type := mkLine {
  metric_name : string;
  value : float;
  unit_ : string
}.

(** The handler: its mode, the metrics, and the debug lines its logger has
    let through; the log files are left out. *)
Record LoggingHandler : Type := mkHandler {
  debug_mode : bool;
  performance_data : dict (list float);
  debug_lines : list line
}.

(** [LoggingHandler.__init__] *)
Definition init (debug_mode : bool) : LoggingHandler :=
  {| debug_mode := debug_mode; performance_data := []; debug_lines := [] |}.

Definition L (A : Type) : Type := M LoggingHandler A.

(** [LoggingHandler.debug]: the logger's level is [DEBUG] in debug mode and
    [INFO] otherwise, so that only debug mode lets the line through. *)
Definition debug (message : line) : L unit :=
  mode <- gets debug_mode ;;
  if mode
  then modify (fun h => {| debug_mode := debug_mode h;
                           performance_data := performance_data h;
                           debug_lines := debug_lines h ++ [message] |})
  else ret tt.

Definition set_performance_data (f : dict (list float) -> dict (list float))
  : L unit :=
  modify (fun h => {| debug_mode := debug_mode h;
                      performance_data := f (performance_data h);
                      debug_lines := debug_lines h |}).

(** [LoggingHandler.log_performance_metric] *)
Definition log_performance_metric (message : line) : L unit :=
  data <- gets performance_data ;;
  (if negb (dict_mem (metric_name message) data)
   then set_performance_data (dict_set (metric_name message) [])
   else ret tt) ;;;
  set_performance_data (dict_append (metric_name message) (value message)) ;;;
  mode <- gets debug_mode ;;
  if mode then debug message else ret tt.

(** One entry of the summary. *)
Record stats : Type := mkStats {
  avg : float;
  min : float;
  max : float;
  latest : float
}.

(** [sum(values) / len(values)] *)
Definition average (values : list float) : outcome float :=
  match values with
  | [] => Raise ZeroDivisionError
  | _ :: _ => Ok (sum values / of_nat (List.length values))
  end.

(** The builtins [min(values)] and [max(values)]: the first item is kept
    until a strictly smaller (greater) one is met. *)
Definition min_of (values : list float) : outcome float :=
  match values with
  | [] => Raise ValueError
  | v :: rest => Ok (fold_left Py.min rest v)
  end.

Definition max_of (values : list float) : outcome float :=
  match values with
  | [] => Raise ValueError
  | v :: rest => Ok (fold_left Py.max rest v)
  end.

(** [values[-1]] *)
Definition last_of (values : list float) : outcome float :=
  match rev values with
  | [] => Raise IndexError
  | v :: _ => Ok v
  end.

(** [LoggingHandler.get_performance_summary] *)
Definition get_performance_summary : L (dict stats) :=
  data <- gets performance_data ;;
  for_each data
    (fun summary item =>
       let '(metric, values) := item in
       match values with
       | [] => ret summary
       | _ :: _ =>
           a <- lift (average values) ;;
           lo <- lift (min_of values) ;;
           hi <- lift (max_of values) ;;
           l <- lift (last_of values) ;;
           ret (dict_set metric
                  {| avg := a; min := lo; max := hi; latest := l |} summary)
       end)
    [].

(** The metrics logged one after the other. *)
Definition log_all (messages : list line) : L unit :=
  for_each messages (fun _ message => log_performance_metric message) tt.

End Logging.

(** The values logged under a name, in the order of the calls. *)
Definition values_of (name : string) (messages : list Logging.line) : list float :=
  map Logging.value
    (filter (fun m => String.eqb (Logging.metric_name m) name) messages).

(** The names logged, each once, in the order of their first call. *)
Definition names_of (messages : list Logging.line) : list string :=
  fold_left
    (fun names m =>
       if existsb (String.eqb (Logging.metric_name m)) names then names
       else names ++ [Logging.metric_name m])
    messages [].

(** The entry of a non-empty list of values. *)
Definition entry_of (values : list float) : Logging.stats :=
  {| Logging.avg := sum values / of_nat (List.length values);
     Logging.min := fold_left Py.min (List.tl values) (List.hd 0 values);
     Logging.max := fold_left Py.max (List.tl values) (List.hd 0 values);
     Logging.latest := List.last values 0 |}.

(** The dictionary that gives each name of a list the value [g] has for
    it. *)
Definition tabulate (V : Type) (g : string -> V) (names : list string)
  : Logging.dict V :=
  map (fun n => (n, g n)) names.

Arguments tabulate : clear implicits.

(** The metrics a handler holds after the calls [cs]. *)
Definition data_of (cs : list Logging.line) : Logging.dict (list float) :=
  tabulate (list float) (fun n => values_of n cs) (names_of cs).

(** The last [n] items of a list. *)
Definition lastn {A : Type} (n : nat) (l : list A) : list A :=
  skipn (List.length l - n) l.

(** What [get_fps] returns on a window of frame times. *)
Definition fps_of (times : deque float) : float :=
  match items times with
  | [] => 0
  | _ :: _ =>
      let avg := sum (items times) / of_nat (deque_len times) in
      if 0 <? avg then 1 / avg else 0
  end.

(** What the three averages return. *)
Definition average_of (times : deque float) : float :=
  match items times with
  | [] => 0
  | _ :: _ => sum (items times) / of_nat (deque_len times)
  end.

(** The state a list of calls leads to. *)
Definition monitor_after (w : nat) (cs : list Monitor.call)
  (m : Monitor.PerformanceMonitor) : Prop :=
  Monitor.locked m = false
  /\ Monitor.window_size m = w
  /\ maxlen (Monitor.frame_times m) = w
  /\ items (Monitor.frame_times m) = lastn w (Monitor.frame_durations cs)
  /\ Monitor.frame_count m = List.length (Monitor.frame_durations cs).

(** The capacities of the two windows are kept, and a window within its
    capacity stays within it. *)
Definition windows_kept (c c' : Volume.HandGestureVolumeController) : Prop :=
  maxlen (Volume.distance_history c') = maxlen (Volume.distance_history c)
  /\ maxlen (Volume.fingers_history c') = maxlen (Volume.fingers_history c)
  /\ ((deque_len (Volume.distance_history c) <= maxlen (Volume.distance_history c))%nat ->
      (deque_len (Volume.distance_history c') <= maxlen (Volume.distance_history c'))%nat)
  /\ ((deque_len (Volume.fingers_history c) <= maxlen (Volume.fingers_history c))%nat ->
      (deque_len (Volume.fingers_history c') <= maxlen (Volume.fingers_history c'))%nat).

(** ** The pose rules as functions of an observation with 21 landmarks *)

Module Rules.

Import Gesture.

Definition index (l : list point) : bool := Spec.up l 8 6.
Definition middle (l : list point) : bool := Spec.up l 12 10.
Definition ring (l : list point) : bool := Spec.up l 16 14.
Definition pinky (l : list point) : bool := Spec.up l 20 18.

Definition thumbs_up (l : list point) : outcome bool :=
  if Spec.up l 4 3 && Spec.up l 4 9 then
    match calculate_distance (Spec.landmark_of l 4) (Spec.landmark_of l 3) with
    | Ok d => Ok (0.05 <? d)
    | Raise e => Raise e
    end
  else Ok false.

Definition peace (l : list point) : bool :=
  index l && middle l && negb (ring l) && negb (pinky l).

Definition rock (l : list point) : bool :=
  index l && pinky l && negb (middle l) && negb (ring l).

Definition ok_sign (l : list point) : outcome bool :=
  match calculate_distance (Spec.landmark_of l 4) (Spec.landmark_of l 8) with
  | Ok d => Ok ((d <? 0.05) && Nat.leb 2 (sum_bools [middle l; ring l; pinky l]))
  | Raise e => Raise e
  end.

Definition pointing (l : list point) : bool :=
  index l && negb (middle l) && negb (ring l) && negb (pinky l).

Definition palm_open (l : list point) : bool :=
  Nat.leb 4 (sum_bools [index l; middle l; ring l; pinky l; Spec.up l 4 3]).

Definition fist (l : list point) : bool :=
  Nat.eqb (sum_bools [index l; middle l; ring l; pinky l]) 0.

(** The first pose rule that holds, in the order of [recognize_gesture]. *)
Definition pose (l : list point) : outcome (option GestureType) :=
  match thumbs_up l with
  | Raise e => Raise e
  | Ok true => Ok (Some THUMBS_UP)
  | Ok false =>
      if peace l then Ok (Some PEACE)
      else if rock l then Ok (Some ROCK)
      else
        match ok_sign l with
        | Raise e => Raise e
        | Ok true => Ok (Some OK_SIGN)
        | Ok false =>
            if pointing l then Ok (Some POINT)
            else if palm_open l then Ok (Some PALM)
            else if fist l then Ok (Some FIST)
            else Ok None
        end
  end.

Definition fallback (l : list point) : outcome GestureType :=
  match calculate_distance (Spec.landmark_of l 4) (Spec.landmark_of l 8) with
  | Ok d => Ok (if d <? 0.05 then PINCH
                else if 0.15 <? d then OPEN_HAND
                else UNKNOWN)
  | Raise e => Raise e
  end.

(** The gesture, given what the swipe check gives. *)
Definition classify (l : list point) (swipe : outcome (option GestureType))
  : outcome GestureType :=
  match pose l with
  | Raise e => Raise e
  | Ok (Some g) => Ok g
  | Ok None =>
      match swipe with
      | Raise e => Raise e
      | Ok (Some g) => Ok g
      | Ok None => fallback l
      end
  end.

End Rules.

(** One finger up, thumb and index tips together. *)
Definition ring_pinch_hand : list point :=
  map (fun i => match i with
                | 3 => mkPoint 0.5 0.4
                | 4 | 8 => mkPoint 0.5 0.55
                | 16 => mkPoint 0.5 0.2
                | _ => mkPoint 0.5 0.5
                end%nat) (seq 0 21).

(** All joints on one spot. *)
Definition closed_hand : list point :=
  map (fun _ => mkPoint 0.5 0.5) (seq 0 21).

(** * Properties *)

Unset Implicit Arguments.

(** ** The order of binary64 numbers *)

Lemma SFcompare_swap (a b : spec_float) :
  SFcompare b a = option_map CompOpp (SFcompare a b).
Proof.
  destruct a as [sa|sa| |sa ma ea], b as [sb|sb| |sb mb eb]; simpl;
    try reflexivity;
    try (destruct sa; reflexivity);
    try (destruct sb; reflexivity);
    try (destruct sa, sb; reflexivity).
  rewrite (Z.compare_antisym ea eb).
  destruct sa, sb; try reflexivity;
    destruct (ea ?= eb)%Z; simpl; try reflexivity;
    rewrite (Pos.compare_cont_antisym ma mb Eq); reflexivity.
Qed.

Lemma SFcompare_refl (a : spec_float) :
  SFcompare a a = Some Eq \/ SFcompare a a = None.
Proof.
  destruct a as [sa|sa| |sa ma ea]; simpl; auto.
  - destruct sa; auto.
  - rewrite Z.compare_refl.
    fold (Pos.compare ma ma). rewrite Pos.compare_refl. destruct sa; auto.
Qed.

Lemma ltb_irrefl (a : float) : (a <? a) = false.
Proof.
  rewrite FloatAxioms.ltb_spec. unfold SFltb.
  destruct (SFcompare_refl (Prim2SF a)) as [H|H]; rewrite H; reflexivity.
Qed.

Lemma ltb_asym (a b : float) : (a <? b) = true -> (b <? a) = false.
Proof.
  rewrite !FloatAxioms.ltb_spec. unfold SFltb.
  rewrite (SFcompare_swap (Prim2SF a)).
  destruct (SFcompare (Prim2SF a) (Prim2SF b)) as [[]|]; simpl; congruence.
Qed.

Lemma ltb_leb (a b : float) : (a <? b) = true -> (a <=? b) = true.
Proof.
  rewrite FloatAxioms.ltb_spec, FloatAxioms.leb_spec. unfold SFltb, SFleb.
  destruct (SFcompare (Prim2SF a) (Prim2SF b)) as [[]|]; congruence.
Qed.

Lemma eqb_ltb (a b : float) :
  (a =? b) = true -> (a <? b) = false /\ (b <? a) = false.
Proof.
  rewrite FloatAxioms.eqb_spec, !FloatAxioms.ltb_spec. unfold SFeqb, SFltb.
  rewrite (SFcompare_swap (Prim2SF a)).
  destruct (SFcompare (Prim2SF a) (Prim2SF b)) as [[]|]; simpl;
    try congruence; auto.
Qed.

Lemma ltb_opp (a b : float) : (- a <? - b) = (b <? a).
Proof.
  rewrite !FloatAxioms.ltb_spec, !FloatAxioms.opp_spec. unfold SFltb.
  rewrite (SFcompare_swap (Prim2SF a) (Prim2SF b)).
  destruct (Prim2SF a) as [sa|sa| |sa ma ea], (Prim2SF b) as [sb|sb| |sb mb eb];
    simpl; try reflexivity;
    try (destruct sa; reflexivity);
    try (destruct sb; reflexivity);
    try (destruct sa, sb; reflexivity).
  destruct sa, sb; simpl; try reflexivity;
    destruct (ea ?= eb)%Z; simpl; try reflexivity;
    destruct (Pos.compare_cont Eq ma mb); reflexivity.
Qed.

Lemma Prim2SF_zero : Prim2SF 0 = S754_zero false.
Proof. reflexivity. Qed.

Lemma ltb_zero_neq (w : float) : (0 <? w) = true -> (w =? 0) = false.
Proof.
  intros H. destruct (w =? 0) eqn:E; [|reflexivity].
  apply eqb_ltb in E. destruct E as [_ E]. congruence.
Qed.

(** A number of larger magnitude than another is positive or negative. *)
Lemma abs_ltb_sign (a b : float) :
  (abs b <? abs a) = true ->
  ((0 <? a) = true /\ (a <? 0) = false) \/ ((a <? 0) = true /\ (0 <? a) = false).
Proof.
  rewrite !FloatAxioms.ltb_spec, !FloatAxioms.abs_spec, Prim2SF_zero.
  unfold SFltb.
  destruct (Prim2SF a) as [sa|sa| |sa ma ea], (Prim2SF b) as [sb|sb| |sb mb eb];
    simpl; try discriminate; destruct sa; simpl; auto.
Qed.

(** A number between 0 and 100 is a zero or a finite positive number. *)
Lemma leb_range_finite (v : float) :
  (0 <=? v) = true -> (v <=? 100) = true ->
  (exists s, Prim2SF v = S754_zero s)
  \/ (exists m e, Prim2SF v = S754_finite false m e).
Proof.
  rewrite !FloatAxioms.leb_spec, Prim2SF_zero.
  destruct (Prim2SF v) as [sa|sa| |sa ma ea]; intros H0 H100.
  - left. eauto.
  - destruct sa; [discriminate H0 | vm_compute in H100; discriminate H100].
  - discriminate H0.
  - destruct sa; [discriminate H0 | right; eauto].
Qed.

Lemma int_in_range (v : float) :
  (0 <=? v) = true -> (v <=? 100) = true -> exists z, Py.int v = Ok z.
Proof.
  intros H0 H100. unfold Py.int.
  destruct (leb_range_finite v H0 H100) as [[s H]|[m [e H]]]; rewrite H; eauto.
Qed.

(** ** The builtins [min] and [max] as a clamp *)

Lemma clamp_range (v : float) :
  (0 <=? Py.max 0 (Py.min 100 v)) = true /\ (Py.max 0 (Py.min 100 v) <=? 100) = true.
Proof.
  unfold Py.max, Py.min.
  destruct (v <? 100) eqn:Hhi.
  - destruct (0 <? v) eqn:Hlo.
    + split; apply ltb_leb; assumption.
    + split; reflexivity.
  - split; reflexivity.
Qed.

(** ** The swipe classifier *)

Lemma detect_swipe_short (c : position) (w : float) (h : heap) :
  (List.length (history_positions h) < min_gesture_frames (self h))%nat ->
  detect_swipe c w h = (Ok None, h).
Proof.
  intros H. apply Nat.ltb_lt in H.
  unfold detect_swipe, bind, gets. rewrite H. reflexivity.
Qed.

Lemma detect_swipe_long (c : position) (w : float) (h : heap)
  (oldest : position) (rest : list position) :
  history_positions h = oldest :: rest ->
  (min_gesture_frames (self h) <= List.length (history_positions h))%nat ->
  (w =? 0) = false ->
  detect_swipe c w h =
    (Ok (classify_displacement (swipe_threshold (self h))
           ((fst c - fst oldest) / w) ((snd c - snd oldest) / w)), h).
Proof.
  intros Hhist Hlen Hw.
  assert (Hlt : Nat.ltb (List.length (history_positions h)) (min_gesture_frames (self h)) = false)
    by (apply Nat.ltb_ge; exact Hlen).
  unfold detect_swipe, bind, gets, lift, truediv, ret.
  rewrite Hlt, Hhist, Hw. reflexivity.
Qed.

Lemma classify_displacement_spec (t dx dy : float) :
  classify_displacement t dx dy = Spec.swipe t dx dy.
Proof.
  unfold classify_displacement, Spec.swipe.
  destruct (t <? abs dx); simpl.
  - destruct (abs dy <? abs dx) eqn:Hx; simpl.
    + destruct (abs_ltb_sign _ _ Hx) as [[Hp Hn]|[Hn Hp]]; rewrite ?Hp, ?Hn;
        reflexivity.
    + destruct (t <? abs dy); simpl; [|reflexivity].
      destruct (abs dx <? abs dy) eqn:Hy; simpl; [|reflexivity].
      destruct (abs_ltb_sign _ _ Hy) as [[Hp Hn]|[Hn Hp]]; rewrite ?Hp, ?Hn;
        reflexivity.
  - destruct (t <? abs dy); simpl; [|reflexivity].
    destruct (abs dx <? abs dy) eqn:Hy; simpl; [|reflexivity].
    destruct (abs_ltb_sign _ _ Hy) as [[Hp Hn]|[Hn Hp]]; rewrite ?Hp, ?Hn;
      reflexivity.
Qed.

Lemma classify_displacement_tie (t dx dy : float) :
  (abs dx =? abs dy) = true -> classify_displacement t dx dy = None.
Proof.
  intros H. apply eqb_ltb in H. destruct H as [H1 H2].
  unfold classify_displacement. rewrite H1, H2, !andb_false_r. reflexivity.
Qed.

(** C7: with fewer samples in the history than [min_gesture_frames] (3 in
    every manager [__init__] builds), [detect_swipe] returns [None], whatever
    the current centre, the samples and the frame width, and touches
    nothing. *)
Theorem detect_swipe_needs_min_frames :
  (forall n, min_gesture_frames (Gesture.init n) = 3%nat)
  /\ (forall (n : nat) (hist : list position) (tr : list nat)
             (c : position) (w : float),
        (List.length hist < 3)%nat ->
        detect_swipe c w (mkHeap (Gesture.init n) hist tr)
        = (Ok None, mkHeap (Gesture.init n) hist tr)).
Proof.
  split; [reflexivity|].
  intros n hist tr c w H. apply detect_swipe_short. exact H.
Qed.

Lemma detect_swipe_needs_min_frames_witness :
  detect_swipe (1000, 0) 1
    (mkHeap (Gesture.init 5) [(0, 0); (0, 0)] [])
  = (Ok None, mkHeap (Gesture.init 5) [(0, 0); (0, 0)] []).
Proof.
  apply (proj2 detect_swipe_needs_min_frames 5%nat [(0, 0); (0, 0)] []).
  simpl. lia.
Defined.

(** C6: with at least three samples and a positive frame width,
    [detect_swipe] takes the displacement from the oldest sample
    [history_positions[0]] to the current centre, divides both components by
    the frame width and classifies them as section 4.3 says, with the
    threshold 0.1; when the two magnitudes are equal it returns [None]. *)
Theorem detect_swipe_classifies (n : nat) (oldest : position)
  (rest : list position) (tr : list nat) (c : position) (w : float) :
  (3 <= List.length (oldest :: rest))%nat ->
  (0 <? w) = true ->
  let h := mkHeap (Gesture.init n) (oldest :: rest) tr in
  let dx := (fst c - fst oldest) / w in
  let dy := (snd c - snd oldest) / w in
  detect_swipe c w h = (Ok (Spec.swipe 0.1 dx dy), h)
  /\ ((abs dx =? abs dy) = true -> detect_swipe c w h = (Ok None, h)).
Proof.
  intros Hlen Hw h dx dy.
  assert (Hrun : detect_swipe c w h
                 = (Ok (classify_displacement 0.1 dx dy), h)).
  { apply (detect_swipe_long c w h oldest rest).
    - reflexivity.
    - exact Hlen.
    - apply ltb_zero_neq. exact Hw. }
  split.
  - rewrite Hrun, classify_displacement_spec. reflexivity.
  - intros Htie. rewrite Hrun, (classify_displacement_tie _ _ _ Htie).
    reflexivity.
Qed.

Lemma detect_swipe_classifies_witness :
  detect_swipe (0.2, 0.5) 1
    (mkHeap (Gesture.init 5) [(0.5, 0.5); (0.4, 0.5); (0.3, 0.5)] [])
  = (Ok (Some SWIPE_LEFT),
     mkHeap (Gesture.init 5) [(0.5, 0.5); (0.4, 0.5); (0.3, 0.5)] []).
Proof.
  refine (proj1 (detect_swipe_classifies 5 (0.5, 0.5) [(0.4, 0.5); (0.3, 0.5)]
                   [] (0.2, 0.5) 1 _ _)).
  - simpl. lia.
  - reflexivity.
Defined.

(** ** Calls of the gesture manager *)

Section Calls.

Variable P : GestureManager -> list position -> Prop.
Variable R : nat -> Prop.
Variable E : exn -> Prop.

Lemma triple_ret {A : Type} (a : A) (Q : A -> Prop) :
  Q a -> triple P R E (ret a) Q.
Proof.
  intros HQ h _. simpl. repeat split; try assumption.
  exists []. rewrite app_nil_r. auto.
Qed.

Lemma triple_bind {A B : Type} (m : G A) (f : A -> G B)
  (Q : A -> Prop) (Q' : B -> Prop) :
  triple P R E m Q -> (forall a, Q a -> triple P R E (f a) Q') -> triple P R E (bind m f) Q'.
Proof.
  intros Hm Hf h HI. unfold bind.
  destruct (Hm h HI) as (Hs & Hh & [tr [Hr Ht]] & HQ).
  destruct (m h) as [[a|e] h1]; simpl in *.
  - assert (HI1 : P (self h1) (history_positions h1)) by (rewrite Hs, Hh; exact HI).
    destruct (Hf a HQ h1 HI1) as (Hs' & Hh' & [tr' [Hr' Ht']] & HQ').
    repeat split.
    + congruence.
    + congruence.
    + exists (tr ++ tr'). split.
      * rewrite Hr', Hr, app_assoc. reflexivity.
      * apply Forall_app. auto.
    + exact HQ'.
  - repeat split; try assumption. exists tr. auto.
Qed.

Lemma triple_weaken {A : Type} (m : G A) (Q Q' : A -> Prop) :
  triple P R E m Q -> (forall a, Q a -> Q' a) -> triple P R E m Q'.
Proof.
  intros Hm HQ h HI. destruct (Hm h HI) as (Hs & Hh & Hr & Ho).
  repeat split; try assumption.
  destruct (fst (m h)); auto.
Qed.

Lemma triple_lift {A : Type} (o : outcome A) (Q : A -> Prop) :
  match o with Ok a => Q a | Raise e => E e end -> triple P R E (lift o) Q.
Proof.
  intros Ho h _. simpl. repeat split; try assumption.
  exists []. rewrite app_nil_r. auto.
Qed.

Lemma triple_gets {A : Type} (f : heap -> A) (Q : A -> Prop) :
  (forall h, P (self h) (history_positions h) -> Q (f h)) -> triple P R E (gets f) Q.
Proof.
  intros Hf h HI. simpl. repeat split; auto.
  exists []. rewrite app_nil_r. auto.
Qed.

Lemma triple_landmark (landmarks : list point) (i : nat) :
  R i ->
  match nth_error landmarks i with Some _ => True | None => E IndexError end ->
  triple P R E (landmark landmarks i) (fun p => nth_error landmarks i = Some p).
Proof.
  intros HR Hi h _. unfold landmark, getitem. simpl. repeat split.
  - exists [i]. auto.
  - destruct (nth_error landmarks i); auto.
Qed.

Lemma triple_andM (a b : G bool) :
  triple P R E a (fun _ => True) -> triple P R E b (fun _ => True) ->
  triple P R E (andM a b) (fun _ => True).
Proof.
  intros Ha Hb. unfold andM. apply (triple_bind a _ (fun _ => True)); [exact Ha|].
  intros [] _; [exact Hb | apply triple_ret; exact I].
Qed.

Lemma triple_notM (a : G bool) :
  triple P R E a (fun _ => True) -> triple P R E (notM a) (fun _ => True).
Proof.
  intros Ha. unfold notM. apply (triple_bind a _ (fun _ => True)); [exact Ha|].
  intros b _. apply triple_ret. exact I.
Qed.

Lemma triple_list_of (ms : list (G bool)) :
  Forall (fun m => triple P R E m (fun _ => True)) ms ->
  triple P R E (list_of ms) (fun _ => True).
Proof.
  induction 1 as [|m ms Hm _ IH]; simpl.
  - apply triple_ret. exact I.
  - apply (triple_bind m _ (fun _ => True)); [exact Hm|]. intros b _.
    apply (triple_bind (list_of ms) _ (fun _ => True)); [exact IH|]. intros bs _.
    apply triple_ret. exact I.
Qed.

End Calls.

(** ** The recognition cascade *)

Lemma recognize_gesture_cascade (landmarks : list point) (handedness : string)
  (hand_center : position) (frame_width : float) (h : heap) :
  recognize_gesture landmarks handedness hand_center frame_width h
  = recognize_by_precedence landmarks handedness hand_center frame_width h.
Proof.
  unfold recognize_gesture, recognize_by_precedence, cascade, first_match,
    distance_fallback, bind, ret.
  destruct (detect_thumbs_up landmarks h) as [[[]|] h1]; try reflexivity.
  destruct (detect_peace_sign landmarks handedness h1) as [[[]|] h2]; try reflexivity.
  destruct (detect_rock_gesture landmarks h2) as [[[]|] h3]; try reflexivity.
  destruct (detect_ok_sign landmarks h3) as [[[]|] h4]; try reflexivity.
  destruct (detect_pointing landmarks h4) as [[[]|] h5]; try reflexivity.
  destruct (detect_palm_open landmarks h5) as [[[]|] h6]; try reflexivity.
  destruct (detect_fist landmarks h6) as [[[]|] h7]; try reflexivity.
  destruct (detect_swipe hand_center frame_width h7) as [[[]|] h8]; try reflexivity.
  destruct (landmark landmarks 4 h8) as [[p4|] h9]; try reflexivity.
  destruct (landmark landmarks 8 h9) as [[p8|] h10]; try reflexivity.
  unfold lift.
  destruct (calculate_distance p4 p8) as [d|]; try reflexivity.
  destruct (d <? 0.05); try reflexivity.
  destruct (0.15 <? d); reflexivity.
Qed.

Section Recognition.

Variable landmarks : list point.
Variable handedness : string.
Variable hand_center : position.
Variable frame_width : float.
Variable P : GestureManager -> list position -> Prop.
Variable R : nat -> Prop.
Variable E : exn -> Prop.

Hypothesis readable : forall i, In i pose_indices ->
  R i /\ match nth_error landmarks i with Some _ => True | None => E IndexError end.

Hypothesis measurable : forall p q,
  nth_error landmarks 4 = Some p ->
  nth_error landmarks 3 = Some q \/ nth_error landmarks 8 = Some q ->
  match calculate_distance p q with Ok _ => True | Raise e => E e end.

Hypothesis swipe_call :
  triple P R E (detect_swipe hand_center frame_width) (fun _ => True).

Ltac member := unfold pose_indices; simpl; tauto.

Ltac each := repeat apply Forall_cons; try apply Forall_nil.

Lemma landmark_call (i : nat) :
  In i pose_indices ->
  triple P R E (landmark landmarks i) (fun p => nth_error landmarks i = Some p).
Proof.
  intros Hi. destruct (readable i Hi) as [HR Hn].
  apply triple_landmark; assumption.
Qed.

Lemma raised_call (tip pip : nat) :
  In tip pose_indices -> In pip pose_indices ->
  triple P R E (raised landmarks tip pip) (fun _ => True).
Proof.
  intros Ht Hp. unfold raised.
  eapply triple_bind; [apply (landmark_call tip Ht)|]. intros t _.
  eapply triple_bind; [apply (landmark_call pip Hp)|]. intros p _.
  apply triple_ret. exact I.
Qed.

Ltac calls :=
  repeat first
    [ apply triple_andM
    | apply triple_notM
    | apply raised_call; member
    | apply triple_ret; exact I ].

Lemma detect_thumbs_up_call :
  triple P R E (detect_thumbs_up landmarks) (fun _ => True).
Proof.
  unfold detect_thumbs_up.
  eapply triple_bind; [apply (landmark_call 4); member|]. intros tip Htip.
  eapply triple_bind; [apply (landmark_call 3); member|]. intros pip Hpip.
  eapply triple_bind; [apply (landmark_call 9); member|]. intros mcp _.
  destruct (y tip <? y pip); [|calls].
  destruct (y tip <? y mcp); [|calls].
  eapply triple_bind with (Q := fun _ => True).
  - apply triple_lift. pose proof (measurable tip pip Htip (or_introl Hpip)) as H.
    destruct (calculate_distance tip pip); exact H.
  - intros d _. calls.
Qed.

Lemma detect_peace_sign_call :
  triple P R E (detect_peace_sign landmarks handedness) (fun _ => True).
Proof. unfold detect_peace_sign. calls. Qed.

Lemma detect_rock_gesture_call :
  triple P R E (detect_rock_gesture landmarks) (fun _ => True).
Proof. unfold detect_rock_gesture. calls. Qed.

Lemma detect_pointing_call :
  triple P R E (detect_pointing landmarks) (fun _ => True).
Proof. unfold detect_pointing. calls. Qed.

Lemma thumb_above_pip_call :
  triple P R E (thumb_above_pip landmarks) (fun _ => True).
Proof.
  unfold thumb_above_pip.
  eapply triple_bind; [apply (landmark_call 4); member|]. intros p4 _.
  eapply triple_bind; [apply (landmark_call 3); member|]. intros p3 _.
  calls.
Qed.

Lemma fingers_call (ms : list (G bool)) :
  Forall (fun m => triple P R E m (fun _ => True)) ms ->
  forall (k : list bool -> G bool),
    (forall bs, triple P R E (k bs) (fun _ => True)) ->
    triple P R E (bind (list_of ms) k) (fun _ => True).
Proof.
  intros Hms k Hk.
  eapply triple_bind; [apply triple_list_of; exact Hms|]. intros bs _. apply Hk.
Qed.

Lemma detect_ok_sign_call :
  triple P R E (detect_ok_sign landmarks) (fun _ => True).
Proof.
  unfold detect_ok_sign.
  eapply triple_bind; [apply (landmark_call 4); member|]. intros p4 H4.
  eapply triple_bind; [apply (landmark_call 8); member|]. intros p8 H8.
  eapply triple_bind with (Q := fun _ => True).
  - apply triple_lift. pose proof (measurable p4 p8 H4 (or_intror H8)) as H.
    destruct (calculate_distance p4 p8); exact H.
  - intros d _. apply fingers_call.
    + each; apply raised_call; member.
    + intros bs. calls.
Qed.

Lemma detect_palm_open_call :
  triple P R E (detect_palm_open landmarks) (fun _ => True).
Proof.
  unfold detect_palm_open. apply fingers_call.
  - each; first [apply thumb_above_pip_call | apply raised_call; member].
  - intros bs. calls.
Qed.

Lemma detect_fist_call :
  triple P R E (detect_fist landmarks) (fun _ => True).
Proof.
  unfold detect_fist. apply fingers_call.
  - each; apply raised_call; member.
  - intros bs. calls.
Qed.

Lemma first_match_call (rules : list (G bool * GestureType)) :
  Forall (fun rule => triple P R E (fst rule) (fun _ => True)) rules ->
  triple P R E (first_match rules) (fun _ => True).
Proof.
  induction 1 as [|[predicate label] rules Hp _ IH]; simpl.
  - apply triple_ret. exact I.
  - eapply triple_bind; [exact Hp|]. intros [] _; [apply triple_ret; exact I | exact IH].
Qed.

Lemma cascade_call :
  triple P R E (first_match (cascade landmarks handedness)) (fun _ => True).
Proof.
  apply first_match_call. unfold cascade.
  each; simpl.
  - apply detect_thumbs_up_call.
  - apply detect_peace_sign_call.
  - apply detect_rock_gesture_call.
  - apply detect_ok_sign_call.
  - apply detect_pointing_call.
  - apply detect_palm_open_call.
  - apply detect_fist_call.
Qed.

Lemma distance_fallback_call :
  triple P R E (distance_fallback landmarks) (fun _ => True).
Proof.
  unfold distance_fallback.
  eapply triple_bind; [apply (landmark_call 4); member|]. intros p4 H4.
  eapply triple_bind; [apply (landmark_call 8); member|]. intros p8 H8.
  eapply triple_bind with (Q := fun _ => True).
  - apply triple_lift. pose proof (measurable p4 p8 H4 (or_intror H8)) as H.
    destruct (calculate_distance p4 p8); exact H.
  - intros d _. calls.
Qed.

Lemma recognize_gesture_call :
  triple P R E
    (recognize_gesture landmarks handedness hand_center frame_width)
    (fun _ => True).
Proof.
  assert (H : triple P R E
                (recognize_by_precedence landmarks handedness hand_center frame_width)
                (fun _ => True)).
  { unfold recognize_by_precedence.
    eapply triple_bind; [apply cascade_call|]. intros [g|] _; [calls|].
    eapply triple_bind; [apply swipe_call|]. intros [g|] _; [calls|].
    apply distance_fallback_call. }
  intros h Hh. rewrite recognize_gesture_cascade. exact (H h Hh).
Qed.

End Recognition.

Lemma detect_swipe_run (c : position) (w : float) (h : heap) :
  detect_swipe c w h = (swipe_outcome (self h) (history_positions h) c w, h).
Proof.
  unfold detect_swipe, swipe_outcome, bind, gets, lift, ret.
  destruct (Nat.ltb _ _); [reflexivity|].
  destruct (getitem (history_positions h) 0) as [oldest|e]; [|reflexivity].
  destruct (truediv (fst c - fst oldest) w) as [dx|e]; [|reflexivity].
  destruct (truediv (snd c - snd oldest) w) as [dy|e]; reflexivity.
Qed.

Lemma detect_swipe_call (P : GestureManager -> list position -> Prop)
  (R : nat -> Prop) (E : exn -> Prop) (c : position) (w : float) :
  (forall g hist, P g hist ->
     match swipe_outcome g hist c w with Ok _ => True | Raise e => E e end) ->
  triple P R E (detect_swipe c w) (fun _ => True).
Proof.
  intros H h Hh. rewrite detect_swipe_run. simpl. repeat split.
  - exists []. rewrite app_nil_r. auto.
  - exact (H _ _ Hh).
Qed.

Lemma swipe_outcome_init (n : nat) (hist : list position) (c : position)
  (w : float) :
  (w =? 0) = false -> exists r, swipe_outcome (Gesture.init n) hist c w = Ok r.
Proof.
  intros Hw. unfold swipe_outcome, truediv. rewrite Hw. simpl.
  destruct hist as [|p0 [|p1 [|p2 rest]]]; simpl; eauto.
Qed.

Lemma pow2_raises (v : float) (e : exn) : pow2 v = Raise e -> e = OverflowError.
Proof.
  unfold pow2. destruct (is_inf (v * v) && negb (is_inf v)); congruence.
Qed.

Lemma calculate_distance_raises (p q : point) (e : exn) :
  calculate_distance p q = Raise e -> e = OverflowError.
Proof.
  unfold calculate_distance.
  destruct (pow2 (x p - x q)) eqn:Hx; [|intros H; inversion H; subst; eauto using pow2_raises].
  destruct (pow2 (y p - y q)) eqn:Hy; [discriminate|].
  intros H; inversion H; subst; eauto using pow2_raises.
Qed.

Lemma nth_error_within {A : Type} (l : list A) (i : nat) :
  (i < List.length l)%nat -> exists a, nth_error l i = Some a.
Proof.
  intros H. destruct (nth_error l i) eqn:E; [eauto|].
  apply nth_error_None in E. lia.
Qed.

(** Every call of [recognize_gesture] leaves manager and history alone. *)
Lemma recognize_gesture_frame (landmarks : list point) (handedness : string)
  (c : position) (w : float) :
  triple (fun _ _ => True) (fun _ => True) (fun _ => True)
    (recognize_gesture landmarks handedness c w) (fun _ => True).
Proof.
  apply recognize_gesture_call.
  - intros i _. split; [exact I|]. destruct (nth_error landmarks i); exact I.
  - intros p q _ _. destruct (calculate_distance p q); exact I.
  - apply detect_swipe_call. intros g hist _.
    destruct (swipe_outcome g hist c w); exact I.
Qed.

Lemma cascade_frame (landmarks : list point) (handedness : string) (h : heap) :
  self (snd (first_match (cascade landmarks handedness) h)) = self h
  /\ history_positions (snd (first_match (cascade landmarks handedness) h))
     = history_positions h.
Proof.
  destruct (cascade_call landmarks handedness
              (fun _ _ => True) (fun _ => True) (fun _ => True)) with (h := h)
    as (Hs & Hh & _); auto.
  - intros i _. split; [exact I|]. destruct (nth_error landmarks i); exact I.
  - intros p q _ _. destruct (calculate_distance p q); exact I.
Qed.

(** With 21 landmarks, a manager from [__init__] and a non-zero frame
    width, the only exceptions are among [E] when the two distances are. *)
Lemma recognize_gesture_21 (E : exn -> Prop) (n : nat) (landmarks : list point)
  (handedness : string) (c : position) (w : float) :
  List.length landmarks = 21%nat ->
  (w =? 0) = false ->
  (forall p q, nth_error landmarks 4 = Some p ->
     nth_error landmarks 3 = Some q \/ nth_error landmarks 8 = Some q ->
     match calculate_distance p q with Ok _ => True | Raise e => E e end) ->
  triple (fun g _ => g = Gesture.init n) (fun i => (i <= 20)%nat) E
    (recognize_gesture landmarks handedness c w) (fun _ => True).
Proof.
  intros Hlen Hw Hdist. apply recognize_gesture_call.
  - intros i Hi. split.
    + unfold pose_indices in Hi. simpl in Hi.
      repeat (destruct Hi as [<-|Hi]; [lia|]). contradiction.
    + destruct (nth_error_within landmarks i) as [p Hp].
      * unfold pose_indices in Hi. simpl in Hi.
        repeat (destruct Hi as [<-|Hi]; [lia|]). contradiction.
      * rewrite Hp. exact I.
  - exact Hdist.
  - apply detect_swipe_call. intros g hist ->.
    destruct (swipe_outcome_init n hist c w Hw) as [r Hr]. rewrite Hr. exact I.
Qed.

Lemma detect_thumbs_up_true (landmarks : list point) (h : heap)
  (tip pip mcp : point) (d : float) :
  nth_error landmarks 4 = Some tip ->
  nth_error landmarks 3 = Some pip ->
  nth_error landmarks 9 = Some mcp ->
  (y tip <? y pip) = true ->
  (y tip <? y mcp) = true ->
  calculate_distance tip pip = Ok d ->
  (0.05 <? d) = true ->
  fst (detect_thumbs_up landmarks h) = Ok true.
Proof.
  intros H4 H3 H9 Hpip Hmcp Hd Hfar.
  unfold detect_thumbs_up, bind, landmark, getitem, lift, ret.
  rewrite H4, H3, H9, Hpip, Hmcp, Hd, Hfar. reflexivity.
Qed.

(** C2: [recognize_gesture] is the first-match evaluation of the rules in
    the order thumbs-up, peace, rock, OK sign, pointing, palm, fist, then the
    swipe check, then the thumb-index distance; and an observation whose
    thumb tip is above its pip joint and above the middle-finger base, at a
    distance above 0.05 from the pip joint, is a thumbs-up whatever the
    history, the centre, the frame width and the other landmarks. *)
Theorem recognize_gesture_precedence :
  (forall landmarks handedness hand_center frame_width h,
      recognize_gesture landmarks handedness hand_center frame_width h
      = recognize_by_precedence landmarks handedness hand_center frame_width h)
  /\ (forall landmarks handedness hand_center frame_width h tip pip mcp d,
        List.length landmarks = 21%nat ->
        nth_error landmarks 4 = Some tip ->
        nth_error landmarks 3 = Some pip ->
        nth_error landmarks 9 = Some mcp ->
        (y tip <? y pip) = true ->
        (y tip <? y mcp) = true ->
        calculate_distance tip pip = Ok d ->
        (0.05 <? d) = true ->
        fst (recognize_gesture landmarks handedness hand_center frame_width h)
        = Ok THUMBS_UP).
Proof.
  split; [exact recognize_gesture_cascade|].
  intros landmarks handedness c w h tip pip mcp d _ H4 H3 H9 Hpip Hmcp Hd Hfar.
  pose proof (detect_thumbs_up_true landmarks h tip pip mcp d
                H4 H3 H9 Hpip Hmcp Hd Hfar) as Hup.
  unfold recognize_gesture, bind.
  destruct (detect_thumbs_up landmarks h) as [[b|e] h1]; simpl in Hup;
    inversion Hup; subst. reflexivity.
Qed.

Lemma recognize_gesture_precedence_witness :
  fst (recognize_gesture thumbs_up_hand "Left" (0.9, 0.1) 0
         (mkHeap (Gesture.init 5) [(0.1, 0.1); (0.2, 0.1); (0.3, 0.1)] []))
  = Ok THUMBS_UP.
Proof.
  refine (proj2 recognize_gesture_precedence thumbs_up_hand "Left"%string
            (0.9, 0.1) 0 _ (mkPoint 0.5 0.2) (mkPoint 0.5 0.4) (mkPoint 0.5 0.5)
            (sqrt (0 * 0 + (0.2 - 0.4) * (0.2 - 0.4)))
            _ _ _ _ _ _ _ _); reflexivity.
Defined.

(** C3 (as the code has it): a call of [recognize_gesture] never updates a
    position history.  The list passed as [history_positions] and the
    manager, with its [hand_positions] deque, are after the call what they
    were before it, whichever branch produced the label and also when the
    call raises: the hand centre is not appended. *)
Theorem recognize_gesture_keeps_history (landmarks : list point)
  (handedness : string) (hand_center : position) (frame_width : float)
  (h : heap) :
  history_positions
    (snd (recognize_gesture landmarks handedness hand_center frame_width h))
  = history_positions h
  /\ hand_positions
       (self (snd (recognize_gesture landmarks handedness hand_center frame_width h)))
     = hand_positions (self h).
Proof.
  destruct (recognize_gesture_frame landmarks handedness hand_center frame_width
              h I) as (Hs & Hh & _).
  split; [exact Hh | rewrite Hs; reflexivity].
Qed.

(** C3, as stated, fails: after a call on an empty history of capacity 5 the
    histories are still empty, not the one-sample history the claim asks
    for. *)
Lemma recognize_gesture_appends_nothing :
  fst (recognize_gesture thumbs_up_hand "Right" (0.5, 0.5) 640 fresh_heap)
  = Ok THUMBS_UP
  /\ history_positions
       (snd (recognize_gesture thumbs_up_hand "Right" (0.5, 0.5) 640 fresh_heap))
     = []
  /\ items (hand_positions
       (self (snd (recognize_gesture thumbs_up_hand "Right" (0.5, 0.5) 640
                     fresh_heap))))
     = []
  /\ items (deque_append (hand_positions (self fresh_heap)) (0.5, 0.5))
     = [(0.5, 0.5)].
Proof. repeat split; reflexivity. Qed.

(** C9 (as the code has it): on 21 landmarks, with a manager from
    [__init__], any handedness, centre and history and a positive frame
    width, [recognize_gesture] reads only landmark indices up to 20 and
    either returns one gesture or raises [OverflowError] (from the squares in
    [calculate_distance]); it returns a gesture whenever the two distances it
    may measure, thumb tip to thumb pip and thumb tip to index tip, can be
    computed; and it returns [UNKNOWN] when no pose rule holds, no swipe is
    found and the thumb-index distance is neither below 0.05 nor above
    0.15. *)
Theorem recognize_gesture_total (n : nat) (landmarks : list point)
  (handedness : string) (hand_center : position) (frame_width : float)
  (history : list position) (tr : list nat) :
  List.length landmarks = 21%nat ->
  (0 <? frame_width) = true ->
  let h := mkHeap (Gesture.init n) history tr in
  let call := recognize_gesture landmarks handedness hand_center frame_width h in
  (exists tr', reads (snd call) = tr ++ tr' /\ Forall (fun i => (i <= 20)%nat) tr')
  /\ ((exists g, fst call = Ok g) \/ fst call = Raise OverflowError)
  /\ (forall p3 p4 p8 d d',
        nth_error landmarks 3 = Some p3 ->
        nth_error landmarks 4 = Some p4 ->
        nth_error landmarks 8 = Some p8 ->
        calculate_distance p4 p3 = Ok d ->
        calculate_distance p4 p8 = Ok d' ->
        (exists g, fst call = Ok g)
        /\ (fst (first_match (cascade landmarks handedness) h) = Ok None ->
            fst (detect_swipe hand_center frame_width h) = Ok None ->
            (d' <? 0.05) = false ->
            (0.15 <? d') = false ->
            fst call = Ok UNKNOWN)).
Proof.
  intros Hlen Hw h call.
  assert (Hw0 : (frame_width =? 0) = false) by (apply ltb_zero_neq; exact Hw).
  split; [|split].
  - destruct (recognize_gesture_21 (fun _ => True) n landmarks handedness
                hand_center frame_width Hlen Hw0) with (h := h)
      as (_ & _ & Hr & _).
    + intros p q _ _. destruct (calculate_distance p q); exact I.
    + reflexivity.
    + exact Hr.
  - destruct (recognize_gesture_21 (fun e => e = OverflowError) n landmarks
                handedness hand_center frame_width Hlen Hw0) with (h := h)
      as (_ & _ & _ & Ho).
    + intros p q _ _. destruct (calculate_distance p q) eqn:Hd; [exact I|].
      eapply calculate_distance_raises. exact Hd.
    + reflexivity.
    + fold call in Ho. destruct (fst call) as [g|e]; [left; eauto | right; congruence].
  - intros p3 p4 p8 d d' H3 H4 H8 Hd Hd'. split.
    + destruct (recognize_gesture_21 (fun _ => False) n landmarks
                  handedness hand_center frame_width Hlen Hw0) with (h := h)
        as (_ & _ & _ & Ho).
      * intros p q Hp [Hq|Hq]; rewrite H4 in Hp; inversion Hp; subst p.
        -- rewrite H3 in Hq. inversion Hq; subst q. rewrite Hd. exact I.
        -- rewrite H8 in Hq. inversion Hq; subst q. rewrite Hd'. exact I.
      * reflexivity.
      * fold call in Ho. destruct (fst call) as [g|e]; [eauto | contradiction].
    + intros Hpose Hswipe Hnear Hfar. unfold call.
      rewrite recognize_gesture_cascade. unfold recognize_by_precedence, bind.
      destruct (cascade_frame landmarks handedness h) as [Hs Hh].
      destruct (first_match (cascade landmarks handedness) h) as [r h1].
      simpl in Hpose, Hs, Hh. subst r.
      rewrite detect_swipe_run in *. simpl in Hswipe.
      rewrite Hs, Hh, Hswipe.
      unfold distance_fallback, bind, landmark, getitem, lift, ret.
      rewrite H4, H8, Hd', Hnear, Hfar. reflexivity.
Qed.

Lemma recognize_gesture_total_witness :
  exists g,
    fst (recognize_gesture thumbs_up_hand "Right" (0.5, 0.5) 640 fresh_heap)
    = Ok g.
Proof.
  refine (proj1 (proj2 (proj2 (recognize_gesture_total 5 thumbs_up_hand
            "Right"%string (0.5, 0.5) 640 [] [] _ _))
            (mkPoint 0.5 0.4) (mkPoint 0.5 0.2) (mkPoint 0.5 0.5)
            (sqrt (0 * 0 + (0.2 - 0.4) * (0.2 - 0.4)))
            (sqrt (0 * 0 + (0.2 - 0.5) * (0.2 - 0.5)))
            _ _ _ _ _)); reflexivity.
Defined.

(** C9, as stated, fails: 21 landmarks with finite coordinates, the thumb
    tip at x = 2^600 above its pip joint and the middle-finger base, make
    [calculate_distance] square 2^600, which raises [OverflowError]. *)
Lemma recognize_gesture_overflow :
  List.length far_thumb_hand = 21%nat
  /\ forallb (fun p => finite (x p) && finite (y p)) far_thumb_hand = true
  /\ (0 <? 640) = true
  /\ fst (recognize_gesture far_thumb_hand "Right" (0.5, 0.5) 640 fresh_heap)
     = Raise OverflowError.
Proof. repeat split; reflexivity. Qed.

(** ** The thumb *)

Ltac twenty_one landmarks H :=
  do 21 (destruct landmarks as [|? landmarks]; [discriminate H|]);
  destruct landmarks; [clear H | discriminate H].

Lemma count_fingers_run (landmarks : list point) (handedness : string)
  (c : Volume.HandGestureVolumeController) :
  List.length landmarks = 21%nat ->
  Volume.count_fingers landmarks handedness c
  = (Ok (Nat.b2n (Spec.thumb_by_x handedness landmarks)
         + Spec.four_fingers landmarks)%nat, c).
Proof.
  intros H. twenty_one landmarks H.
  unfold Volume.count_fingers, Spec.thumb_by_x, Spec.four_fingers, Spec.up,
    Spec.landmark_of, sum_bools, bind, lift, ret, getitem.
  simpl.
  destruct (String.eqb handedness "Right");
    repeat match goal with
           | |- context [if ?a <? ?b then _ else _] => destruct (a <? b)
           end; reflexivity.
Qed.

Lemma count_raised_fingers_run (landmarks : list point) (handedness : string)
  (h : heap) :
  List.length landmarks = 21%nat ->
  fst (count_raised_fingers landmarks handedness h)
  = Ok (Nat.b2n (Spec.thumb_by_y landmarks) + Spec.four_fingers landmarks)%nat.
Proof.
  intros H. twenty_one landmarks H.
  unfold count_raised_fingers, raised, is_finger_raised, Spec.thumb_by_y,
    Spec.four_fingers, Spec.up, Spec.landmark_of, sum_bools, bind, landmark,
    ret, getitem.
  simpl.
  repeat match goal with
         | |- context [if ?a <? ?b then _ else _] => destruct (a <? b)
         end; reflexivity.
Qed.

Lemma detect_palm_open_run (landmarks : list point) (h : heap) :
  List.length landmarks = 21%nat ->
  fst (detect_palm_open landmarks h)
  = Ok (Nat.leb 4 (Spec.four_fingers landmarks
                   + Nat.b2n (Spec.thumb_by_y landmarks))).
Proof.
  intros H. twenty_one landmarks H.
  unfold detect_palm_open, thumb_above_pip, raised, is_finger_raised,
    Spec.thumb_by_y, Spec.four_fingers, Spec.up, Spec.landmark_of, sum_bools,
    list_of, bind, landmark, ret, getitem.
  simpl.
  repeat match goal with
         | |- context [if ?a <? ?b then _ else _] => destruct (a <? b)
         end; reflexivity.
Qed.

Lemma landmark_of_mirror (landmarks : list point) (i : nat) :
  (i < List.length landmarks)%nat ->
  Spec.landmark_of (Spec.mirror landmarks) i
  = mkPoint (- x (Spec.landmark_of landmarks i)) (y (Spec.landmark_of landmarks i)).
Proof.
  intros H. unfold Spec.landmark_of, Spec.mirror.
  rewrite (nth_indep _ _ (mkPoint (- x (mkPoint 0 0)) (y (mkPoint 0 0))))
    by (rewrite length_map; exact H).
  apply (map_nth (fun p => mkPoint (- x p) (y p))).
Qed.

Lemma thumb_by_x_mirror (landmarks : list point) (handedness : string) :
  List.length landmarks = 21%nat ->
  Spec.thumb_by_x (Spec.other_hand handedness) (Spec.mirror landmarks)
  = Spec.thumb_by_x handedness landmarks.
Proof.
  intros H. unfold Spec.thumb_by_x, Spec.other_hand.
  rewrite !landmark_of_mirror by lia.
  destruct (String.eqb handedness "Right"); simpl; apply ltb_opp.
Qed.

Lemma four_fingers_mirror (landmarks : list point) :
  List.length landmarks = 21%nat ->
  Spec.four_fingers (Spec.mirror landmarks) = Spec.four_fingers landmarks.
Proof.
  intros H. unfold Spec.four_fingers, Spec.up.
  rewrite !landmark_of_mirror by lia. reflexivity.
Qed.

(** C5 (as the code has it): on 21 landmarks, [count_fingers] of the volume
    controller tests the thumb by [x]: tip left of the pip joint for the
    label "Right", right of it for any other label, so that its count is the
    same for an observation and its mirror image.  The manager's
    [detect_palm_open] tests the thumb by [y], tip above the pip joint, like
    the other four fingers, and has no handedness to look at. *)
Theorem thumb_tests (landmarks : list point) (handedness : string)
  (c : Volume.HandGestureVolumeController) (h : heap) :
  List.length landmarks = 21%nat ->
  Volume.count_fingers landmarks handedness c
  = (Ok (Nat.b2n (Spec.thumb_by_x handedness landmarks)
         + Spec.four_fingers landmarks)%nat, c)
  /\ Volume.count_fingers (Spec.mirror landmarks) (Spec.other_hand handedness) c
     = Volume.count_fingers landmarks handedness c
  /\ fst (detect_palm_open landmarks h)
     = Ok (Nat.leb 4 (Spec.four_fingers landmarks
                      + Nat.b2n (Spec.thumb_by_y landmarks))).
Proof.
  intros H. repeat split.
  - apply count_fingers_run. exact H.
  - rewrite !count_fingers_run; [| exact H | unfold Spec.mirror; rewrite length_map; exact H].
    rewrite thumb_by_x_mirror, four_fingers_mirror by exact H. reflexivity.
  - apply detect_palm_open_run. exact H.
Qed.

Lemma thumb_tests_witness :
  Volume.count_fingers three_fingers_hand "Right" (Volume.init 5)
  = (Ok 3%nat, Volume.init 5)
  /\ fst (detect_palm_open three_fingers_hand fresh_heap) = Ok true.
Proof.
  destruct (thumb_tests three_fingers_hand "Right" (Volume.init 5) fresh_heap
              eq_refl) as (Hc & _ & Hp).
  split; [exact Hc | exact Hp].
Defined.

(** C5, as stated, fails: on this hand the thumb tip is neither left nor
    right of its pip joint, so a test by [x] finds three digits raised for
    either label, but the manager counts four and sees an open palm. *)
Lemma manager_thumb_not_by_x :
  Spec.thumb_by_x "Right" three_fingers_hand = false
  /\ Spec.thumb_by_x "Left" three_fingers_hand = false
  /\ Spec.four_fingers three_fingers_hand = 3%nat
  /\ fst (count_raised_fingers three_fingers_hand "Right" fresh_heap) = Ok 4%nat
  /\ fst (count_raised_fingers three_fingers_hand "Left" fresh_heap) = Ok 4%nat
  /\ fst (detect_palm_open three_fingers_hand fresh_heap) = Ok true.
Proof. repeat split; reflexivity. Qed.

(** ** The volume update *)

Import Volume.

Lemma getitem_landmark_of (landmarks : list point) (i : nat) :
  (i < List.length landmarks)%nat ->
  getitem landmarks i = Ok (Spec.landmark_of landmarks i).
Proof.
  intros H. unfold getitem, Spec.landmark_of.
  destruct (nth_error_within landmarks i H) as [p Hp]. rewrite Hp.
  rewrite (nth_error_nth _ _ _ Hp). reflexivity.
Qed.

Lemma deque_append_items {A : Type} (d : deque A) (v : A) :
  (1 <= maxlen d)%nat ->
  items (deque_append d v)
  = (if Nat.ltb (deque_len d) (maxlen d) then items d else List.tl (items d)) ++ [v].
Proof.
  intros H. unfold deque_append.
  destruct (maxlen d) as [|m] eqn:Hm; [lia|].
  destruct (Nat.ltb (deque_len d) (S m)); reflexivity.
Qed.

Lemma smooth_append (d : deque float) (v : float) :
  (1 <= maxlen d)%nat ->
  smooth (deque_append d v)
  = Ok (sum (items (deque_append d v)) / of_nat (deque_len (deque_append d v))).
Proof.
  intros H. unfold smooth, deque_len.
  rewrite (deque_append_items d v H), length_app. simpl.
  rewrite Nat.add_1_r. reflexivity.
Qed.

Lemma count_fingers_state (landmarks : list point) (handedness : string)
  (c : HandGestureVolumeController) :
  snd (count_fingers landmarks handedness c) = c.
Proof.
  unfold count_fingers, bind, lift, ret. simpl.
  repeat match goal with
         | |- context [getitem ?l ?i] => destruct (getitem l i)
         end; reflexivity.
Qed.

(** What [update_volume] can do to the controller and return. *)
Lemma update_volume_shape (landmarks : list point) (info : list string)
  (c : HandGestureVolumeController) :
  set_volume_calls (snd (update_volume landmarks info c)) = set_volume_calls c
  /\ match fst (update_volume landmarks info c) with
     | Ok (_, _, _, v) => exists s, v = map_distance_to_volume s
     | Raise _ => True
     end.
Proof.
  unfold update_volume, bind, lift, modify, gets, ret.
  destruct (getitem landmarks 4) as [p4|]; [|simpl; auto].
  destruct (getitem landmarks 8) as [p8|]; [|simpl; auto].
  destruct (calculate_distance p4 p8) as [d|]; [|simpl; auto].
  destruct (smooth _) as [s|]; [|simpl; auto].
  destruct (getitem info 0) as [label|]; [|simpl; auto].
  match goal with
  | |- context [count_fingers landmarks label ?c1] =>
      pose proof (count_fingers_state landmarks label c1) as Hc;
      destruct (count_fingers landmarks label c1) as [[k|] c2]
  end; simpl in Hc; subst; simpl; eauto.
Qed.

Lemma update_volume_run (landmarks : list point) (label : string)
  (more : list string) (c : HandGestureVolumeController) (d : float) :
  List.length landmarks = 21%nat ->
  calculate_distance (Spec.landmark_of landmarks 4) (Spec.landmark_of landmarks 8)
  = Ok d ->
  (1 <= maxlen (distance_history c))%nat ->
  let window := deque_append (distance_history c) d in
  let fingers := (Nat.b2n (Spec.thumb_by_x label landmarks)
                  + Spec.four_fingers landmarks)%nat in
  update_volume landmarks (label :: more) c
  = (Ok (Spec.landmark_of landmarks 4, Spec.landmark_of landmarks 8, fingers,
         map_distance_to_volume
           (sum (items window) / of_nat (List.length (items window)))),
     {| distance_history := window;
        fingers_history := deque_append (fingers_history c) fingers;
        set_volume_calls := set_volume_calls c |}).
Proof.
  intros Hlen Hd Hmax window fingers.
  unfold update_volume, bind, lift, modify, gets, ret.
  rewrite !getitem_landmark_of by lia. rewrite Hd. cbv beta iota.
  cbn [distance_history fingers_history set_volume_calls].
  fold window. unfold window at 1. rewrite (smooth_append _ _ Hmax). fold window.
  cbn [getitem nth_error].
  rewrite (count_fingers_run _ _ _ Hlen). reflexivity.
Qed.

Lemma map_distance_to_volume_range (s : float) : in_range (map_distance_to_volume s).
Proof. unfold in_range, map_distance_to_volume. apply clamp_range. Qed.

Lemma map_distance_to_volume_cases (s : float) :
  let scaled := (s - 0.02) / (0.3 - 0.02) * 100 in
  map_distance_to_volume s
  = if scaled <? 100 then (if 0 <? scaled then scaled else 0) else 100.
Proof.
  intros scaled. unfold map_distance_to_volume, Py.max, Py.min. fold scaled.
  destruct (scaled <? 100); reflexivity.
Qed.

(** The levels a call of the loop body passes to the mixer. *)
Lemma process_hand_calls (frame_height frame_width : nat)
  (landmarks : list point) (info : list string)
  (c : HandGestureVolumeController) :
  exists levels,
    set_volume_calls (snd (process_hand frame_height frame_width landmarks info c))
    = set_volume_calls c ++ levels
    /\ Forall in_range levels.
Proof.
  unfold process_hand, bind.
  destruct (update_volume_shape landmarks info c) as [Hcalls Hlevel].
  destruct (update_volume landmarks info c) as [[[[[p4 p8] k] v]|e] c1];
    simpl in Hcalls, Hlevel.
  - unfold lift.
    destruct (annotate frame_height frame_width p4 p8 v).
    + exists [v]. simpl. rewrite Hcalls. split; [reflexivity|].
      destruct Hlevel as [s ->]. constructor; [|constructor].
      apply map_distance_to_volume_range.
    + exists []. simpl. rewrite app_nil_r. auto.
  - exists []. simpl. rewrite app_nil_r. auto.
Qed.

Lemma process_hands_calls (frame_height frame_width : nat)
  (hands : list (list point * list string)) (level : option float)
  (c : HandGestureVolumeController) :
  exists levels,
    set_volume_calls
      (snd (for_each hands
              (fun (volume_level : option float) hand =>
                 v <- process_hand frame_height frame_width (fst hand) (snd hand) ;;
                 ret (Some v))
              level c))
    = set_volume_calls c ++ levels
    /\ Forall in_range levels.
Proof.
  revert level c. induction hands as [|[landmarks info] hands IH]; intros level c.
  - exists []. simpl. rewrite app_nil_r. auto.
  - simpl. unfold bind at 1 2.
    destruct (process_hand_calls frame_height frame_width landmarks info c)
      as [l1 [H1 F1]].
    destruct (process_hand frame_height frame_width landmarks info c)
      as [[v|e] c1]; simpl in H1.
    + simpl. destruct (IH (Some v) c1) as [l2 [H2 F2]].
      exists (l1 ++ l2). rewrite H2, H1, app_assoc. split; [reflexivity|].
      apply Forall_app. auto.
    + exists l1. simpl. auto.
Qed.

Lemma process_frame_calls (frame_height frame_width : nat) (detected : results)
  (c : HandGestureVolumeController) :
  exists levels,
    set_volume_calls (snd (process_frame frame_height frame_width detected c))
    = set_volume_calls c ++ levels
    /\ Forall in_range levels.
Proof.
  unfold process_frame.
  destruct (multi_hand_landmarks detected) as [|l ls] eqn:Hl.
  - exists []. simpl. rewrite app_nil_r. auto.
  - destruct (multi_handedness detected) as [|info infos] eqn:Hi.
    + exists []. simpl. rewrite app_nil_r. auto.
    + apply process_hands_calls.
Qed.

(** C8 (as the code has it): on 21 landmarks whose thumb-index distance
    can be computed, and with a window of capacity at least 1, the update
    appends the distance to the distance history (dropping the oldest sample
    of a full window), divides the sum of the window by its length, maps the
    mean affinely from 0.02..0.3 to 0..100 and clamps it.  Every level so
    computed, and every level a frame passes to the mixer, lies between 0
    and 100.  A window of one to seventeen samples 0.02 gives exactly 0, and
    one of one to nine samples 0.3 exactly 100; the default window holds
    five.  Larger windows need not: the sum of the samples is rounded. *)
Theorem update_volume_maps (landmarks : list point) (label : string)
  (more : list string) (c : HandGestureVolumeController) (d : float) :
  List.length landmarks = 21%nat ->
  Volume.calculate_distance (Spec.landmark_of landmarks 4)
    (Spec.landmark_of landmarks 8) = Ok d ->
  (1 <= maxlen (distance_history c))%nat ->
  let window := deque_append (distance_history c) d in
  let mean := sum (items window) / of_nat (List.length (items window)) in
  let scaled := (mean - 0.02) / (0.3 - 0.02) * 100 in
  let level := map_distance_to_volume mean in
  items window
  = (if Nat.ltb (deque_len (distance_history c)) (maxlen (distance_history c))
     then items (distance_history c)
     else List.tl (items (distance_history c))) ++ [d]
  /\ (exists fingers,
        update_volume landmarks (label :: more) c
        = (Ok (Spec.landmark_of landmarks 4, Spec.landmark_of landmarks 8,
               fingers, level),
           {| distance_history := window;
              fingers_history := deque_append (fingers_history c) fingers;
              set_volume_calls := set_volume_calls c |}))
  /\ level = (if scaled <? 100 then (if 0 <? scaled then scaled else 0) else 100)
  /\ in_range level
  /\ (forall frame_height frame_width detected c0,
        exists levels,
          set_volume_calls
            (snd (process_frame frame_height frame_width detected c0))
          = set_volume_calls c0 ++ levels
          /\ Forall in_range levels)
  /\ (forall k m, (1 <= k <= 17)%nat ->
        exists s, smooth (mkDeque (repeat 0.02 k) m) = Ok s
                  /\ map_distance_to_volume s = 0)
  /\ (forall k m, (1 <= k <= 9)%nat ->
        exists s, smooth (mkDeque (repeat 0.3 k) m) = Ok s
                  /\ map_distance_to_volume s = 100).
Proof.
  intros Hlen Hd Hmax window mean scaled level.
  split; [apply deque_append_items; exact Hmax|].
  split; [eexists; apply update_volume_run; assumption|].
  split; [apply map_distance_to_volume_cases|].
  split; [apply map_distance_to_volume_range|].
  split; [intros; apply process_frame_calls|].
  split; intros k m Hk.
  - do 18 (destruct k as [|k];
           [first [lia | eexists; split; [reflexivity | vm_compute; reflexivity]]|]).
    lia.
  - do 10 (destruct k as [|k];
           [first [lia | eexists; split; [reflexivity | vm_compute; reflexivity]]|]).
    lia.
Qed.

Lemma update_volume_maps_witness :
  in_range
    (map_distance_to_volume
       (sum (items (deque_append (distance_history (Volume.init 5))
                      (sqrt ((0.5 - (0.5 + 0.1)) * (0.5 - (0.5 + 0.1)) + 0 * 0))))
        / of_nat (List.length
                    (items (deque_append (distance_history (Volume.init 5))
                       (sqrt ((0.5 - (0.5 + 0.1)) * (0.5 - (0.5 + 0.1)) + 0 * 0))))))).
Proof.
  refine (proj1 (proj2 (proj2 (proj2
            (update_volume_maps (pinch_hand 0.1) "Right"%string []
               (Volume.init 5)
               (sqrt ((0.5 - (0.5 + 0.1)) * (0.5 - (0.5 + 0.1)) + 0 * 0))
               _ _ _))))).
  - reflexivity.
  - reflexivity.
  - simpl. lia.
Defined.

(** C8, as stated, fails: a window filled with a constant need not map to
    an end point.  In a full window of 57 samples 0.02 a further sample 0.02
    leaves 57 samples 0.02, and the level is above 0; in a full window of 218
    samples 0.3 the level is below 100.  Both hold whichever of the two
    summations [sum] is.  Adding from left to right, 18 samples 0.02 and 10
    samples 0.3 are enough; with the compensated summation, 57 and 109. *)
Lemma constant_window_misses_end_points :
  (exists thumb_tip index_tip fingers level c',
     update_volume (span_hand 0.02) ["Right"%string] (constant_window 57 0.02)
     = (Ok (thumb_tip, index_tip, fingers, level), c')
     /\ items (distance_history c') = repeat 0.02 57
     /\ (0 <? level) = true)
  /\ (exists thumb_tip index_tip fingers level c',
        update_volume (span_hand 0.3) ["Right"%string] (constant_window 218 0.3)
        = (Ok (thumb_tip, index_tip, fingers, level), c')
        /\ items (distance_history c') = repeat 0.3 218
        /\ (level <? 100) = true)
  /\ (0 <? map_distance_to_volume
             (fold_left PrimFloat.add (repeat 0.02 18) 0 / of_nat 18)) = true
  /\ (map_distance_to_volume
        (fold_left PrimFloat.add (repeat 0.3 10) 0 / of_nat 10) <? 100) = true
  /\ (0 <? map_distance_to_volume
             (sum_compensated (repeat 0.02 57) / of_nat 57)) = true
  /\ (map_distance_to_volume
        (sum_compensated (repeat 0.3 109) / of_nat 109) <? 100) = true.
Proof.
  split; [|split; [|repeat split; vm_compute; reflexivity]].
  - do 5 eexists. split; [vm_compute; reflexivity|].
    split; vm_compute; reflexivity.
  - do 5 eexists. split; [vm_compute; reflexivity|].
    split; vm_compute; reflexivity.
Qed.

(** ** No gate on small changes *)

Lemma process_hand_run (frame_height frame_width : nat)
  (landmarks : list point) (info : list string)
  (c c1 : HandGestureVolumeController) (thumb_tip index_tip : point)
  (fingers : nat) (level : float) :
  update_volume landmarks info c = (Ok (thumb_tip, index_tip, fingers, level), c1) ->
  annotate frame_height frame_width thumb_tip index_tip level = Ok tt ->
  process_hand frame_height frame_width landmarks info c
  = (Ok level,
     {| distance_history := distance_history c1;
        fingers_history := fingers_history c1;
        set_volume_calls := set_volume_calls c ++ [level] |}).
Proof.
  intros Hu Ha.
  pose proof (update_volume_shape landmarks info c) as [Hcalls _].
  unfold process_hand, bind, lift. rewrite Hu in *. simpl in Hcalls.
  rewrite Ha. simpl. rewrite Hcalls. reflexivity.
Qed.

(** C1 (as the code has it): the volume update has no gate.  Whenever the
    update of a frame with one hand computes a level and the annotation of
    the frame succeeds, [process_frame] returns that level and passes it to
    the mixer, whatever levels were emitted before; the default
    [min_change_threshold] of the configuration is 2.0, and [process_frame]
    does not read it. *)
Theorem process_frame_emits_every_level (frame_height frame_width : nat)
  (landmarks : list point) (info : list string)
  (c c1 : HandGestureVolumeController) (thumb_tip index_tip : point)
  (fingers : nat) (level : float) :
  update_volume landmarks info c = (Ok (thumb_tip, index_tip, fingers, level), c1) ->
  annotate frame_height frame_width thumb_tip index_tip level = Ok tt ->
  process_frame frame_height frame_width (mkResults [landmarks] [info]) c
  = (Ok (Some level),
     {| distance_history := distance_history c1;
        fingers_history := fingers_history c1;
        set_volume_calls := set_volume_calls c ++ [level] |})
  /\ (exists cfg, Config.VolumeConfig_new [] = Ok cfg
                  /\ Config.min_change_threshold cfg = Config.Float 2.0).
Proof.
  intros Hu Ha. split.
  - unfold process_frame. simpl. unfold bind at 1 2.
    rewrite (process_hand_run _ _ _ _ _ _ _ _ _ _ Hu Ha). reflexivity.
  - eexists. split; reflexivity.
Qed.

Lemma process_frame_emits_every_level_witness :
  exists level c',
    process_frame 480 640 (mkResults [pinch_hand 0.1] [["Right"%string]])
      (Volume.init 5)
    = (Ok (Some level), c')
    /\ set_volume_calls c' = [level].
Proof.
  eexists. eexists. split.
  - refine (proj1 (process_frame_emits_every_level 480 640 (pinch_hand 0.1)
                     ["Right"%string] (Volume.init 5) _ _ _ _ _ _ _)).
    + vm_compute. reflexivity.
    + vm_compute. reflexivity.
  - reflexivity.
Defined.

(** C1, as stated, fails: two frames in a row whose levels differ by less
    than 2.0 are both emitted, and the mixer is called twice. *)
Lemma min_change_gate_absent :
  exists v1 v2 c1 c2,
    process_frame 480 640 (mkResults [pinch_hand 0.1] [["Right"%string]])
      (Volume.init 5)
    = (Ok (Some v1), c1)
    /\ process_frame 480 640 (mkResults [pinch_hand 0.102] [["Right"%string]]) c1
       = (Ok (Some v2), c2)
    /\ (abs (v2 - v1) <? 2.0) = true
    /\ set_volume_calls c2 = [v1; v2].
Proof.
  do 4 eexists. split; [vm_compute; reflexivity|].
  split; [vm_compute; reflexivity|].
  split; reflexivity.
Qed.

(** ** Configuration *)

(** C4 (as the code has it): the configuration dataclasses check no bounds.
    Building [VolumeConfig] or [GestureConfig] from keyword values succeeds
    whenever every keyword names a field, and stores each value as given,
    the defaults for the others, whether or not the values are in bounds;
    [_update_config_from_dict] then installs both sections.  The only error
    is [TypeError], for a keyword that names no field. *)
Theorem config_construction_unchecked :
  (forall kw,
      Config.known Config.VolumeConfig_fields kw = true ->
      exists cfg,
        Config.VolumeConfig_new kw = Ok cfg
        /\ Config.min_distance cfg = Config.get "min_distance" (Config.Float 0.02) kw
        /\ Config.max_distance cfg = Config.get "max_distance" (Config.Float 0.3) kw
        /\ Config.smoothing_window cfg = Config.get "smoothing_window" (Config.Int 5) kw)
  /\ (forall kw,
        Config.known Config.GestureConfig_fields kw = true ->
        exists cfg,
          Config.GestureConfig_new kw = Ok cfg
          /\ Config.history_length cfg = Config.get "history_length" (Config.Int 5) kw)
  /\ (forall kwv kwg c,
        Config.known Config.VolumeConfig_fields kwv = true ->
        Config.known Config.GestureConfig_fields kwg = true ->
        exists v g,
          Config.VolumeConfig_new kwv = Ok v
          /\ Config.GestureConfig_new kwg = Ok g
          /\ Config.update_config_from_dict
               (Config.mkConfigDict (Some kwv) (Some kwg)) c
             = (Ok tt, Config.mkApplicationConfig v g))
  /\ (forall kw e, Config.VolumeConfig_new kw = Raise e -> e = TypeError)
  /\ (forall kw e, Config.GestureConfig_new kw = Raise e -> e = TypeError).
Proof.
  split; [|split; [|split; [|split]]].
  - intros kw H. unfold Config.VolumeConfig_new. rewrite H.
    eexists. split; [reflexivity|]. repeat split; reflexivity.
  - intros kw H. unfold Config.GestureConfig_new. rewrite H.
    eexists. split; reflexivity.
  - intros kwv kwg c Hv Hg.
    unfold Config.update_config_from_dict, Config.VolumeConfig_new,
      Config.GestureConfig_new, bind, lift, modify.
    simpl. rewrite Hv, Hg. simpl. eexists. eexists.
    split; [reflexivity|]. split; reflexivity.
  - intros kw e. unfold Config.VolumeConfig_new.
    destruct (Config.known _ kw); congruence.
  - intros kw e. unfold Config.GestureConfig_new.
    destruct (Config.known _ kw); congruence.
Qed.

Lemma config_construction_unchecked_witness :
  exists cfg,
    Config.VolumeConfig_new
      [("min_distance"%string, Config.Float 0.05);
       ("smoothing_window"%string, Config.Int 8)]
    = Ok cfg
    /\ Config.min_distance cfg = Config.Float 0.05
    /\ Config.max_distance cfg = Config.Float 0.3
    /\ Config.smoothing_window cfg = Config.Int 8.
Proof.
  exact (proj1 config_construction_unchecked
           [("min_distance"%string, Config.Float 0.05);
            ("smoothing_window"%string, Config.Int 8)]
           eq_refl).
Defined.

(** C4, as stated, fails: a negative distance, a largest distance below the
    smallest, a window of size 0 and a history of length 0 are all
    constructed without an error. *)
Lemma config_out_of_bounds_constructed :
  (exists cfg,
      Config.VolumeConfig_new [("min_distance"%string, Config.Float (-1))] = Ok cfg
      /\ Config.min_distance cfg = Config.Float (-1)
      /\ Config.volume_in_bounds cfg = false)
  /\ (exists cfg,
        Config.VolumeConfig_new [("max_distance"%string, Config.Float 0.01)] = Ok cfg
        /\ Config.max_distance cfg = Config.Float 0.01
        /\ Config.volume_in_bounds cfg = false)
  /\ (exists cfg,
        Config.VolumeConfig_new [("smoothing_window"%string, Config.Int 0)] = Ok cfg
        /\ Config.smoothing_window cfg = Config.Int 0
        /\ Config.volume_in_bounds cfg = false)
  /\ (exists cfg,
        Config.GestureConfig_new [("history_length"%string, Config.Int 0)] = Ok cfg
        /\ Config.history_length cfg = Config.Int 0
        /\ Config.gesture_in_bounds cfg = false)
  /\ (exists cfg,
        Config.VolumeConfig_new [] = Ok cfg /\ Config.volume_in_bounds cfg = true).
Proof.
  repeat split; eexists; repeat split; reflexivity.
Qed.

(** ** The angle at a vertex *)

Lemma leb_ltb (a b : float) : (a <=? b) = true -> (b <? a) = false.
Proof.
  rewrite FloatAxioms.leb_spec, FloatAxioms.ltb_spec. unfold SFleb, SFltb.
  rewrite (SFcompare_swap (Prim2SF a)).
  destruct (SFcompare (Prim2SF a) (Prim2SF b)) as [[]|]; simpl; congruence.
Qed.

Lemma clamp_unit (q : float) :
  (-1 <=? Py.max (-1) (Py.min 1 q)) = true
  /\ (Py.max (-1) (Py.min 1 q) <=? 1) = true.
Proof.
  unfold Py.max, Py.min.
  destruct (q <? 1) eqn:Hhi.
  - destruct (-1 <? q) eqn:Hlo.
    + split; apply ltb_leb; assumption.
    + split; reflexivity.
  - split; reflexivity.
Qed.

Lemma math_acos_clamped (acos : float -> float) (q : float) :
  math_acos acos (Py.max (-1) (Py.min 1 q))
  = Ok (acos (Py.max (-1) (Py.min 1 q))).
Proof.
  destruct (clamp_unit q) as [Hlo Hhi]. unfold math_acos.
  rewrite (leb_ltb _ _ Hlo), (leb_ltb _ _ Hhi). reflexivity.
Qed.

(** [calculate_angle], whatever the C library's arc cosine is: when the
    three distances can be computed it returns 0 if one of the sides at the
    vertex has length 0; otherwise, when the squares and the quotient can be
    computed, the value it passes to [math.acos] lies between -1 and 1, so
    that [math.acos] does not raise. *)
Theorem calculate_angle_guards (acos degrees : float -> float)
  (p1 p2 p3 : point) (a b c : float) :
  Gesture.calculate_distance p1 p2 = Ok a ->
  Gesture.calculate_distance p2 p3 = Ok b ->
  Gesture.calculate_distance p1 p3 = Ok c ->
  ((a =? 0) = true \/ (b =? 0) = true ->
   calculate_angle acos degrees p1 p2 p3 = Ok 0)
  /\ (forall a2 b2 c2 q,
        (a =? 0) = false -> (b =? 0) = false ->
        pow2 a = Ok a2 -> pow2 b = Ok b2 -> pow2 c = Ok c2 ->
        truediv (a2 + b2 - c2) (2 * a * b) = Ok q ->
        let v := Py.max (-1) (Py.min 1 q) in
        (-1 <=? v) = true /\ (v <=? 1) = true
        /\ calculate_angle acos degrees p1 p2 p3 = Ok (degrees (acos v))).
Proof.
  intros Ha Hb Hc. unfold calculate_angle. rewrite Ha, Hb, Hc. split.
  - intros [H|H]; rewrite H; [reflexivity | rewrite orb_true_r; reflexivity].
  - intros a2 b2 c2 q Ha0 Hb0 Ha2 Hb2 Hc2 Hq.
    rewrite Ha0, Hb0, Ha2, Hb2, Hc2, Hq. simpl.
    rewrite math_acos_clamped.
    destruct (clamp_unit q) as [Hlo Hhi]. auto.
Qed.

Lemma calculate_angle_guards_witness :
  calculate_angle (fun v => v) (fun v => v)
    (mkPoint 0.5 0.5) (mkPoint 0.5 0.5) (mkPoint 0.25 0.75)
  = Ok 0.
Proof.
  refine (proj1 (calculate_angle_guards (fun v => v) (fun v => v)
                   (mkPoint 0.5 0.5) (mkPoint 0.5 0.5) (mkPoint 0.25 0.75)
                   _ _ _ _ _ _) _).
  - vm_compute. reflexivity.
  - vm_compute. reflexivity.
  - vm_compute. reflexivity.
  - left. reflexivity.
Defined.






(** The mean of up to five equal samples 0.02 or 0.3 does not depend on
    which of the two summations [sum] is. *)
Lemma sum_compensated_equal_samples (k : nat) :
  (1 <= k <= 5)%nat ->
  sum_compensated (repeat 0.02 k) / of_nat k = sum (repeat 0.02 k) / of_nat k
  /\ sum_compensated (repeat 0.3 k) / of_nat k = sum (repeat 0.3 k) / of_nat k.
Proof.
  intros Hk.
  assert (Hcases : (k = 1 \/ k = 2 \/ k = 3 \/ k = 4 \/ k = 5)%nat) by lia.
  destruct Hcases as [->|[->|[->|[->| ->]]]]; split; vm_compute; reflexivity.
Qed.

(** The levels of these windows are the same with the compensated
    summation. *)
Lemma constant_window_levels_compensated (k : nat) :
  ((1 <= k <= 17)%nat ->
   map_distance_to_volume (sum_compensated (repeat 0.02 k) / of_nat k) = 0)
  /\ ((1 <= k <= 9)%nat ->
      map_distance_to_volume (sum_compensated (repeat 0.3 k) / of_nat k) = 100).
Proof.
  split; intros Hk.
  - do 18 (destruct k as [|k]; [first [lia | vm_compute; reflexivity]|]). lia.
  - do 10 (destruct k as [|k]; [first [lia | vm_compute; reflexivity]|]). lia.
Qed.

(** ** Windows *)

Lemma lastn_all {A : Type} (n : nat) (l : list A) :
  (List.length l <= n)%nat -> lastn n l = l.
Proof.
  intros H. unfold lastn. replace (List.length l - n)%nat with 0%nat by lia.
  reflexivity.
Qed.

Lemma lastn_length {A : Type} (n : nat) (l : list A) :
  List.length (lastn n l) = Nat.min n (List.length l).
Proof. unfold lastn. rewrite length_skipn. lia. Qed.

Lemma tl_skipn {A : Type} (k : nat) (l : list A) :
  List.tl (skipn k l) = skipn (S k) l.
Proof.
  revert l. induction k as [|k IH]; intros [|a l]; simpl; try reflexivity.
  - apply IH.
Qed.

Lemma lastn_snoc {A : Type} (n : nat) (l : list A) (v : A) :
  (1 <= n)%nat ->
  lastn n (l ++ [v])
  = (if Nat.ltb (List.length (lastn n l)) n then lastn n l else List.tl (lastn n l))
    ++ [v].
Proof.
  intros Hn. rewrite lastn_length. unfold lastn. rewrite length_app. simpl.
  destruct (Nat.ltb (Nat.min n (List.length l)) n) eqn:Hlt.
  - apply Nat.ltb_lt in Hlt.
    replace (List.length l + 1 - n)%nat with 0%nat by lia.
    replace (List.length l - n)%nat with 0%nat by lia. reflexivity.
  - apply Nat.ltb_ge in Hlt. rewrite tl_skipn.
    replace (List.length l + 1 - n)%nat with (S (List.length l - n)) by lia.
    rewrite skipn_app.
    replace (S (List.length l - n) - List.length l)%nat with 0%nat by lia.
    reflexivity.
Qed.

(** A deque that holds the last [maxlen] items of a list holds, after
    [append], the last [maxlen] items of the list with the new item. *)
Lemma deque_append_lastn {A : Type} (d : deque A) (l : list A) (v : A) :
  items d = lastn (maxlen d) l ->
  items (deque_append d v) = lastn (maxlen d) (l ++ [v])
  /\ maxlen (deque_append d v) = maxlen d.
Proof.
  intros H. unfold deque_append, deque_len.
  destruct (maxlen d) as [|n] eqn:Hn.
  - split; [|exact Hn]. rewrite H. unfold lastn.
    rewrite !Nat.sub_0_r, !skipn_all. reflexivity.
  - rewrite (lastn_snoc (S n) l v) by lia. rewrite <- H.
    destruct (Nat.ltb (List.length (items d)) (S n)); split; reflexivity.
Qed.

(** ** The performance monitor *)

Lemma set_locked_free (m : Monitor.PerformanceMonitor) :
  Monitor.locked m = false ->
  Monitor.set_locked false (Monitor.set_locked true m) = m.
Proof. intros H. destruct m. simpl in *. subst. reflexivity. Qed.

Lemma average_nonempty (times : deque float) (v : float) (rest : list float) :
  items times = v :: rest ->
  Monitor.average times = Ok (sum (items times) / of_nat (deque_len times)).
Proof.
  intros H. unfold Monitor.average, deque_len. rewrite H. reflexivity.
Qed.

Lemma get_fps_run (m : Monitor.PerformanceMonitor) :
  Monitor.locked m = false ->
  Monitor.get_fps m = (Monitor.Done (fps_of (Monitor.frame_times m)), m).
Proof.
  intros H. unfold Monitor.get_fps, Monitor.with_lock, fps_of. rewrite H. simpl.
  destruct (items (Monitor.frame_times m)) as [|v rest] eqn:Hi.
  - unfold Monitor.pure. rewrite (set_locked_free m H). reflexivity.
  - unfold Monitor.then_, Monitor.of_outcome.
    rewrite (average_nonempty _ v rest Hi), Hi.
    destruct (0 <? _) eqn:Hpos.
    + unfold truediv. rewrite (ltb_zero_neq _ Hpos).
      rewrite (set_locked_free m H). reflexivity.
    + unfold Monitor.pure. rewrite (set_locked_free m H). reflexivity.
Qed.

Lemma average_or_zero_run (times : deque float) (m : Monitor.PerformanceMonitor) :
  Monitor.average_or_zero times m = (Monitor.Done (average_of times), m).
Proof.
  unfold Monitor.average_or_zero, average_of.
  destruct (items times) as [|v rest] eqn:Hi; [reflexivity|].
  unfold Monitor.of_outcome. rewrite (average_nonempty _ v rest Hi), Hi.
  reflexivity.
Qed.

Lemma get_avg_run (m : Monitor.PerformanceMonitor) :
  Monitor.locked m = false ->
  Monitor.get_avg_frame_time m
  = (Monitor.Done (average_of (Monitor.frame_times m)), m)
  /\ Monitor.get_avg_gesture_time m
     = (Monitor.Done (average_of (Monitor.gesture_times m)), m)
  /\ Monitor.get_avg_volume_time m
     = (Monitor.Done (average_of (Monitor.volume_times m)), m).
Proof.
  intros H.
  unfold Monitor.get_avg_frame_time, Monitor.get_avg_gesture_time,
    Monitor.get_avg_volume_time, Monitor.with_lock.
  rewrite H, !average_or_zero_run. simpl.
  rewrite (set_locked_free m H). repeat split.
Qed.

(** The reading calls never raise and never change the monitor: with the
    lock free, [get_fps] returns 0 on an empty window and when the average
    frame time is not positive, the inverse of the average otherwise, and
    the three averages return 0 on an empty window and sum over length
    otherwise; no division by zero can occur. *)
Theorem monitor_reads (m : Monitor.PerformanceMonitor) :
  Monitor.locked m = false ->
  Monitor.get_fps m = (Monitor.Done (fps_of (Monitor.frame_times m)), m)
  /\ Monitor.get_avg_frame_time m
     = (Monitor.Done (average_of (Monitor.frame_times m)), m)
  /\ Monitor.get_avg_gesture_time m
     = (Monitor.Done (average_of (Monitor.gesture_times m)), m)
  /\ Monitor.get_avg_volume_time m
     = (Monitor.Done (average_of (Monitor.volume_times m)), m).
Proof.
  intros H. split; [apply get_fps_run; exact H | apply get_avg_run; exact H].
Qed.

Lemma monitor_reads_witness :
  fst (Monitor.get_fps
         (snd (Monitor.record_frame 0.25 (Monitor.init 30 1000))))
  = Monitor.Done 4.
Proof.
  rewrite (proj1 (monitor_reads
                    (snd (Monitor.record_frame 0.25 (Monitor.init 30 1000)))
                    eq_refl)).
  reflexivity.
Defined.

Lemma frame_durations_app (cs cs' : list Monitor.call) :
  Monitor.frame_durations (cs ++ cs')
  = Monitor.frame_durations cs ++ Monitor.frame_durations cs'.
Proof.
  induction cs as [|c cs IH]; simpl; [reflexivity|].
  destruct c; simpl; rewrite IH; reflexivity.
Qed.

Lemma perform_step (w : nat) (cs : list Monitor.call) (c : Monitor.call)
  (m : Monitor.PerformanceMonitor) :
  monitor_after w cs m ->
  exists m', Monitor.perform c m = (Monitor.Done tt, m')
             /\ monitor_after w (cs ++ [c]) m'.
Proof.
  intros (Hl & Hw & Hmax & Hitems & Hcount).
  assert (Hsame : forall d, Monitor.frame_durations [d] = [] ->
                            monitor_after w (cs ++ [d]) m).
  { intros d Hd. unfold monitor_after.
    rewrite frame_durations_app, Hd, app_nil_r. auto. }
  destruct c as [d|d|d| | | |]; simpl.
  - unfold Monitor.record_frame, Monitor.with_lock. rewrite Hl. simpl.
    eexists. split; [reflexivity|]. unfold monitor_after. simpl.
    rewrite frame_durations_app. simpl.
    rewrite <- Hmax in Hitems.
    destruct (deque_append_lastn (Monitor.frame_times m) _ d Hitems) as [Hi Hm].
    rewrite Hm, Hmax in *. rewrite Hi, length_app, Hcount. simpl.
    repeat split; auto. lia.
  - unfold Monitor.record_gesture, Monitor.with_lock. rewrite Hl. simpl.
    eexists. split; [reflexivity|].
    destruct (Hsame (Monitor.RecordGesture d) eq_refl) as (_ & H2 & H3 & H4 & H5).
    unfold monitor_after. simpl. auto.
  - unfold Monitor.record_volume_control, Monitor.with_lock. rewrite Hl. simpl.
    eexists. split; [reflexivity|].
    destruct (Hsame (Monitor.RecordVolumeControl d) eq_refl) as (_ & H2 & H3 & H4 & H5).
    unfold monitor_after. simpl. auto.
  - unfold Monitor.then_. rewrite (get_fps_run m Hl).
    exists m. split; [reflexivity | apply Hsame; reflexivity].
  - unfold Monitor.then_. rewrite (proj1 (get_avg_run m Hl)).
    exists m. split; [reflexivity | apply Hsame; reflexivity].
  - unfold Monitor.then_. rewrite (proj1 (proj2 (get_avg_run m Hl))).
    exists m. split; [reflexivity | apply Hsame; reflexivity].
  - unfold Monitor.then_. rewrite (proj2 (proj2 (get_avg_run m Hl))).
    exists m. split; [reflexivity | apply Hsame; reflexivity].
Qed.

Lemma perform_all_from (w : nat) (cs : list Monitor.call) :
  forall (done : list Monitor.call) (m : Monitor.PerformanceMonitor),
    monitor_after w done m ->
    exists m', Monitor.perform_all cs m = (Monitor.Done tt, m')
               /\ monitor_after w (done ++ cs) m'.
Proof.
  induction cs as [|c cs IH]; intros done m Hm; simpl.
  - exists m. rewrite app_nil_r. auto.
  - destruct (perform_step w done c m Hm) as [m1 [H1 Hm1]].
    unfold Monitor.then_. rewrite H1.
    destruct (IH (done ++ [c]) m1 Hm1) as [m2 [H2 Hm2]].
    exists m2. rewrite <- app_assoc in Hm2. auto.
Qed.

(** Any sequence of recording and reading calls on a new monitor returns,
    with the lock free again; the frame window then holds the last
    [window_size] recorded frame durations, oldest first, and [frame_count]
    is the number of frames recorded. *)
Theorem monitor_records (w : nat) (now : float) (cs : list Monitor.call) :
  exists m,
    Monitor.perform_all cs (Monitor.init w now) = (Monitor.Done tt, m)
    /\ Monitor.locked m = false
    /\ items (Monitor.frame_times m) = lastn w (Monitor.frame_durations cs)
    /\ (List.length (items (Monitor.frame_times m)) <= w)%nat
    /\ Monitor.frame_count m = List.length (Monitor.frame_durations cs).
Proof.
  destruct (perform_all_from w cs [] (Monitor.init w now)) as [m [H Hm]].
  - unfold monitor_after. simpl. repeat split.
  - simpl in Hm. destruct Hm as (Hl & _ & _ & Hi & Hc).
    exists m. repeat split; auto.
    rewrite Hi, lastn_length. lia.
Qed.

(** [get_performance_summary] never returns: it takes the lock and then
    calls [get_fps], which waits for the same lock.  This holds in every
    state; the lock stays held, so that every later call of the monitor
    waits as well.  [print_performance_stats] calls it first and prints
    nothing. *)
Theorem monitor_summary_blocks (now : float) (m : Monitor.PerformanceMonitor) :
  fst (Monitor.get_performance_summary now m) = Monitor.Blocked
  /\ fst (Monitor.print_performance_stats now m) = Monitor.Blocked
  /\ Monitor.locked (snd (Monitor.get_performance_summary now m)) = true
  /\ (forall c,
        fst (Monitor.perform c (snd (Monitor.get_performance_summary now m)))
        = Monitor.Blocked).
Proof.
  assert (H : Monitor.get_performance_summary now m
              = (Monitor.Blocked, Monitor.set_locked true m)).
  { unfold Monitor.get_performance_summary, Monitor.with_lock.
    destruct (Monitor.locked m) eqn:Hl.
    - destruct m. simpl in *. subst. reflexivity.
    - reflexivity. }
  split; [rewrite H; reflexivity|].
  split; [unfold Monitor.print_performance_stats, Monitor.then_; rewrite H; reflexivity|].
  split; [rewrite H; reflexivity|].
  intros c. rewrite H. simpl. destruct c; reflexivity.
Qed.

(** ** The windows of the volume controller *)

Lemma deque_append_bounded {A : Type} (d : deque A) (v : A) :
  maxlen (deque_append d v) = maxlen d
  /\ ((deque_len d <= maxlen d)%nat ->
      (deque_len (deque_append d v) <= maxlen (deque_append d v))%nat).
Proof.
  unfold deque_append, deque_len.
  destruct (maxlen d) as [|n] eqn:Hn; [rewrite Hn; auto|].
  destruct (Nat.ltb (List.length (items d)) (S n)) eqn:Hlt; simpl.
  - apply Nat.ltb_lt in Hlt. split; [reflexivity|].
    intros _. rewrite length_app. simpl. lia.
  - split; [reflexivity|]. intros H. rewrite length_app. simpl.
    destruct (items d); simpl in *; lia.
Qed.

Lemma windows_kept_refl (c : HandGestureVolumeController) : windows_kept c c.
Proof. unfold windows_kept. auto. Qed.

Lemma windows_kept_trans (c1 c2 c3 : HandGestureVolumeController) :
  windows_kept c1 c2 -> windows_kept c2 c3 -> windows_kept c1 c3.
Proof.
  unfold windows_kept. intros (A1 & A2 & A3 & A4) (B1 & B2 & B3 & B4).
  repeat split; try congruence; auto.
Qed.

Lemma update_volume_windows (landmarks : list point) (info : list string)
  (c : HandGestureVolumeController) :
  windows_kept c (snd (update_volume landmarks info c)).
Proof.
  unfold update_volume, bind, lift, modify, gets, ret.
  destruct (getitem landmarks 4) as [p4|]; [|apply windows_kept_refl].
  destruct (getitem landmarks 8) as [p8|]; [|apply windows_kept_refl].
  destruct (Volume.calculate_distance p4 p8) as [d|]; [|apply windows_kept_refl].
  assert (H1 : windows_kept c
                 {| distance_history := deque_append (distance_history c) d;
                    fingers_history := fingers_history c;
                    set_volume_calls := set_volume_calls c |}).
  { unfold windows_kept. simpl.
    destruct (deque_append_bounded (distance_history c) d) as [Hm Hb]. auto. }
  simpl.
  destruct (smooth _) as [s|]; [|exact H1].
  destruct (getitem info 0) as [label|]; [|exact H1].
  match goal with
  | |- context [count_fingers landmarks label ?c1] =>
      pose proof (count_fingers_state landmarks label c1) as Hc;
      destruct (count_fingers landmarks label c1) as [[k|] c2]
  end; simpl in Hc; subst; simpl; [|exact H1].
  eapply windows_kept_trans; [exact H1|].
  unfold windows_kept. simpl.
  destruct (deque_append_bounded (fingers_history c) k) as [Hm Hb]. auto.
Qed.

Lemma process_hand_windows (frame_height frame_width : nat)
  (landmarks : list point) (info : list string)
  (c : HandGestureVolumeController) :
  windows_kept c (snd (process_hand frame_height frame_width landmarks info c)).
Proof.
  pose proof (update_volume_windows landmarks info c) as H.
  unfold process_hand, bind, lift.
  destruct (update_volume landmarks info c) as [[[[[p4 p8] k] v]|e] c1];
    simpl in *; [|exact H].
  destruct (annotate frame_height frame_width p4 p8 v); simpl; exact H.
Qed.

Lemma process_hands_windows (frame_height frame_width : nat)
  (hands : list (list point * list string)) (level : option float)
  (c : HandGestureVolumeController) :
  windows_kept c
    (snd (for_each hands
            (fun (volume_level : option float) hand =>
               v <- process_hand frame_height frame_width (fst hand) (snd hand) ;;
               ret (Some v))
            level c)).
Proof.
  revert level c. induction hands as [|[landmarks info] hands IH]; intros level c.
  - apply windows_kept_refl.
  - simpl. unfold bind at 1 2.
    pose proof (process_hand_windows frame_height frame_width landmarks info c) as H.
    destruct (process_hand frame_height frame_width landmarks info c)
      as [[v|e] c1]; simpl in *; [|exact H].
    eapply windows_kept_trans; [exact H | apply IH].
Qed.

(** Whatever a frame holds, and also when processing it raises,
    [process_frame] leaves the capacities of the distance and finger
    windows as they are, and a window that was within its capacity is
    within it afterwards. *)
Theorem process_frame_windows (frame_height frame_width : nat)
  (detected : results) (c : HandGestureVolumeController) :
  windows_kept c (snd (process_frame frame_height frame_width detected c)).
Proof.
  unfold process_frame.
  destruct (multi_hand_landmarks detected) as [|l ls]; [apply windows_kept_refl|].
  destruct (multi_handedness detected) as [|info infos]; [apply windows_kept_refl|].
  apply process_hands_windows.
Qed.

(** A distance window that holds the last N distances of a list holds,
    after an update that computed a level, the last N of the list with the
    new thumb-index distance. *)
Theorem distance_window_recent (landmarks : list point) (label : string)
  (more : list string) (c : HandGestureVolumeController) (d : float)
  (distances : list float) :
  List.length landmarks = 21%nat ->
  Volume.calculate_distance (Spec.landmark_of landmarks 4)
    (Spec.landmark_of landmarks 8) = Ok d ->
  (1 <= maxlen (distance_history c))%nat ->
  items (distance_history c) = lastn (maxlen (distance_history c)) distances ->
  let c' := snd (update_volume landmarks (label :: more) c) in
  items (distance_history c')
  = lastn (maxlen (distance_history c')) (distances ++ [d])
  /\ (deque_len (distance_history c') <= maxlen (distance_history c))%nat.
Proof.
  intros Hlen Hd Hmax Hitems c'. unfold c'.
  rewrite (update_volume_run landmarks label more c d Hlen Hd Hmax). simpl.
  destruct (deque_append_lastn (distance_history c) distances d Hitems)
    as [Hi Hm].
  rewrite Hm. split; [exact Hi|].
  unfold deque_len. rewrite Hi, lastn_length. lia.
Qed.

Lemma distance_window_recent_witness :
  items (distance_history
           (snd (update_volume (pinch_hand 0.1) ["Right"%string] (Volume.init 2))))
  = lastn 2 ([] ++ [sqrt ((0.5 - (0.5 + 0.1)) * (0.5 - (0.5 + 0.1)) + 0 * 0)]).
Proof.
  refine (proj1 (distance_window_recent (pinch_hand 0.1) "Right"%string []
                   (Volume.init 2)
                   (sqrt ((0.5 - (0.5 + 0.1)) * (0.5 - (0.5 + 0.1)) + 0 * 0))
                   [] _ _ _ _)).
  - reflexivity.
  - reflexivity.
  - simpl. lia.
  - reflexivity.
Defined.

(** ** The pose rules on 21 landmarks *)

Ltac comparisons :=
  repeat match goal with
         | |- context [?a <? ?b] => destruct (a <? b); simpl
         end.

Lemma detect_peace_sign_run (landmarks : list point) (handedness : string)
  (h : heap) :
  List.length landmarks = 21%nat ->
  fst (detect_peace_sign landmarks handedness h) = Ok (Rules.peace landmarks).
Proof.
  intros H. twenty_one landmarks H.
  unfold detect_peace_sign, andM, notM, raised, is_finger_raised, Rules.peace,
    Rules.index, Rules.middle, Rules.ring, Rules.pinky, Spec.up,
    Spec.landmark_of, bind, landmark, ret, getitem.
  simpl. comparisons; reflexivity.
Qed.

Lemma detect_rock_gesture_run (landmarks : list point) (h : heap) :
  List.length landmarks = 21%nat ->
  fst (detect_rock_gesture landmarks h) = Ok (Rules.rock landmarks).
Proof.
  intros H. twenty_one landmarks H.
  unfold detect_rock_gesture, andM, notM, raised, is_finger_raised, Rules.rock,
    Rules.index, Rules.middle, Rules.ring, Rules.pinky, Spec.up,
    Spec.landmark_of, bind, landmark, ret, getitem.
  simpl. comparisons; reflexivity.
Qed.

Lemma detect_pointing_run (landmarks : list point) (h : heap) :
  List.length landmarks = 21%nat ->
  fst (detect_pointing landmarks h) = Ok (Rules.pointing landmarks).
Proof.
  intros H. twenty_one landmarks H.
  unfold detect_pointing, andM, notM, raised, is_finger_raised, Rules.pointing,
    Rules.index, Rules.middle, Rules.ring, Rules.pinky, Spec.up,
    Spec.landmark_of, bind, landmark, ret, getitem.
  simpl. comparisons; reflexivity.
Qed.

Lemma detect_fist_run (landmarks : list point) (h : heap) :
  List.length landmarks = 21%nat ->
  fst (detect_fist landmarks h) = Ok (Rules.fist landmarks).
Proof.
  intros H. twenty_one landmarks H.
  unfold detect_fist, list_of, raised, is_finger_raised, Rules.fist,
    Rules.index, Rules.middle, Rules.ring, Rules.pinky, Spec.up,
    Spec.landmark_of, sum_bools, bind, landmark, ret, getitem.
  simpl. comparisons; reflexivity.
Qed.

Lemma detect_palm_open_rule (landmarks : list point) (h : heap) :
  List.length landmarks = 21%nat ->
  fst (detect_palm_open landmarks h) = Ok (Rules.palm_open landmarks).
Proof.
  intros H. twenty_one landmarks H.
  unfold detect_palm_open, thumb_above_pip, list_of, raised, is_finger_raised,
    Rules.palm_open, Rules.index, Rules.middle, Rules.ring, Rules.pinky,
    Spec.up, Spec.landmark_of, sum_bools, bind, landmark, ret, getitem.
  simpl. comparisons; reflexivity.
Qed.

Lemma detect_thumbs_up_run (landmarks : list point) (h : heap) :
  List.length landmarks = 21%nat ->
  fst (detect_thumbs_up landmarks h) = Rules.thumbs_up landmarks.
Proof.
  intros H. twenty_one landmarks H.
  unfold detect_thumbs_up, Rules.thumbs_up, Spec.up, Spec.landmark_of, bind,
    landmark, lift, ret, getitem.
  simpl. comparisons; simpl; try reflexivity.
  destruct (Gesture.calculate_distance _ _); reflexivity.
Qed.

Lemma detect_ok_sign_run (landmarks : list point) (h : heap) :
  List.length landmarks = 21%nat ->
  fst (detect_ok_sign landmarks h) = Rules.ok_sign landmarks.
Proof.
  intros H. twenty_one landmarks H.
  unfold detect_ok_sign, list_of, raised, is_finger_raised, Rules.ok_sign,
    Rules.middle, Rules.ring, Rules.pinky, Spec.up, Spec.landmark_of,
    sum_bools, bind, landmark, lift, ret, getitem.
  simpl.
  destruct (Gesture.calculate_distance _ _); simpl; [|reflexivity].
  comparisons; reflexivity.
Qed.

Lemma first_match_value (landmarks : list point) (handedness : string)
  (h : heap) :
  List.length landmarks = 21%nat ->
  fst (first_match (cascade landmarks handedness) h) = Rules.pose landmarks.
Proof.
  intros H. unfold cascade, first_match, Rules.pose, bind, ret.
  pose proof (detect_thumbs_up_run landmarks h H) as E.
  destruct (detect_thumbs_up landmarks h) as [o h1]. simpl in E. subst o.
  destruct (Rules.thumbs_up landmarks) as [[|]|e]; try reflexivity.
  pose proof (detect_peace_sign_run landmarks handedness h1 H) as E.
  destruct (detect_peace_sign landmarks handedness h1) as [o h2]. simpl in E. subst o.
  destruct (Rules.peace landmarks); try reflexivity.
  pose proof (detect_rock_gesture_run landmarks h2 H) as E.
  destruct (detect_rock_gesture landmarks h2) as [o h3]. simpl in E. subst o.
  destruct (Rules.rock landmarks); try reflexivity.
  pose proof (detect_ok_sign_run landmarks h3 H) as E.
  destruct (detect_ok_sign landmarks h3) as [o h4]. simpl in E. subst o.
  destruct (Rules.ok_sign landmarks) as [[|]|e]; try reflexivity.
  pose proof (detect_pointing_run landmarks h4 H) as E.
  destruct (detect_pointing landmarks h4) as [o h5]. simpl in E. subst o.
  destruct (Rules.pointing landmarks); try reflexivity.
  pose proof (detect_palm_open_rule landmarks h5 H) as E.
  destruct (detect_palm_open landmarks h5) as [o h6]. simpl in E. subst o.
  destruct (Rules.palm_open landmarks); try reflexivity.
  pose proof (detect_fist_run landmarks h6 H) as E.
  destruct (detect_fist landmarks h6) as [o h7]. simpl in E. subst o.
  destruct (Rules.fist landmarks); reflexivity.
Qed.

Lemma distance_fallback_value (landmarks : list point) (h : heap) :
  List.length landmarks = 21%nat ->
  fst (distance_fallback landmarks h) = Rules.fallback landmarks.
Proof.
  intros H. unfold distance_fallback, Rules.fallback, bind, landmark, lift, ret.
  rewrite !getitem_landmark_of by lia.
  destruct (Gesture.calculate_distance _ _); reflexivity.
Qed.

(** The gesture as a function of the observation and of the swipe check. *)
Lemma recognize_gesture_value (landmarks : list point) (handedness : string)
  (c : position) (w : float) (h : heap) :
  List.length landmarks = 21%nat ->
  fst (recognize_gesture landmarks handedness c w h)
  = Rules.classify landmarks
      (swipe_outcome (self h) (history_positions h) c w).
Proof.
  intros H. rewrite recognize_gesture_cascade.
  unfold recognize_by_precedence, Rules.classify, bind, ret.
  pose proof (first_match_value landmarks handedness h H) as E.
  destruct (cascade_frame landmarks handedness h) as [Hs Hh].
  destruct (first_match (cascade landmarks handedness) h) as [o h1].
  simpl in E, Hs, Hh. subst o.
  destruct (Rules.pose landmarks) as [[g|]|e]; try reflexivity.
  rewrite detect_swipe_run, Hs, Hh.
  destruct (swipe_outcome (self h) (history_positions h) c w) as [[g|]|e];
    try reflexivity.
  apply distance_fallback_value. exact H.
Qed.

(** On 21 landmarks the rules for the peace sign, the rock gesture, the
    pointing finger and the fist never raise, and at most one of them
    holds. *)
Theorem finger_rules_exclusive (landmarks : list point) (handedness : string)
  (h : heap) :
  List.length landmarks = 21%nat ->
  exists peace rock pointing fist,
    fst (detect_peace_sign landmarks handedness h) = Ok peace
    /\ fst (detect_rock_gesture landmarks h) = Ok rock
    /\ fst (detect_pointing landmarks h) = Ok pointing
    /\ fst (detect_fist landmarks h) = Ok fist
    /\ (sum_bools [peace; rock; pointing; fist] <= 1)%nat.
Proof.
  intros H.
  exists (Rules.peace landmarks), (Rules.rock landmarks),
    (Rules.pointing landmarks), (Rules.fist landmarks).
  split; [apply detect_peace_sign_run; exact H|].
  split; [apply detect_rock_gesture_run; exact H|].
  split; [apply detect_pointing_run; exact H|].
  split; [apply detect_fist_run; exact H|].
  unfold Rules.peace, Rules.rock, Rules.pointing, Rules.fist, sum_bools.
  destruct (Rules.index landmarks), (Rules.middle landmarks),
    (Rules.ring landmarks), (Rules.pinky landmarks); simpl; lia.
Qed.

Lemma finger_rules_exclusive_witness :
  exists peace rock pointing fist,
    fst (detect_peace_sign three_fingers_hand "Left" fresh_heap) = Ok peace
    /\ fst (detect_rock_gesture three_fingers_hand fresh_heap) = Ok rock
    /\ fst (detect_pointing three_fingers_hand fresh_heap) = Ok pointing
    /\ fst (detect_fist three_fingers_hand fresh_heap) = Ok fist
    /\ (sum_bools [peace; rock; pointing; fist] <= 1)%nat.
Proof.
  exact (finger_rules_exclusive three_fingers_hand "Left" fresh_heap eq_refl).
Defined.

Lemma classify_displacement_swipes (t dx dy : float) (g : GestureType) :
  classify_displacement t dx dy = Some g ->
  g = SWIPE_LEFT \/ g = SWIPE_RIGHT \/ g = SWIPE_UP \/ g = SWIPE_DOWN.
Proof.
  unfold classify_displacement.
  destruct (_ && _); [destruct (0 <? dx); intros E; inversion E; auto|].
  destruct (_ && _); [destruct (dy <? 0); intros E; inversion E; auto|].
  discriminate.
Qed.

Lemma swipe_outcome_swipes (manager : GestureManager) (history : list position)
  (c : position) (w : float) (g : GestureType) :
  swipe_outcome manager history c w = Ok (Some g) ->
  g = SWIPE_LEFT \/ g = SWIPE_RIGHT \/ g = SWIPE_UP \/ g = SWIPE_DOWN.
Proof.
  unfold swipe_outcome.
  destruct (Nat.ltb _ _); [discriminate|].
  destruct (getitem history 0) as [oldest|]; [|discriminate].
  destruct (truediv _ w) as [dx|]; [|discriminate].
  destruct (truediv _ w) as [dy|]; [|discriminate].
  intros E. inversion E as [E']. eapply classify_displacement_swipes. exact E'.
Qed.

(** [recognize_gesture] returns [PINCH] only when thumb and index tips are
    less than 0.05 apart and exactly one of the middle, ring and little
    fingers is raised: with two or three of them raised the OK sign comes
    first, with none of them the fist, the pointing finger or the thumbs-up
    does. *)
Theorem pinch_needs_one_raised_finger (landmarks : list point)
  (handedness : string) (c : position) (w : float) (h : heap) :
  List.length landmarks = 21%nat ->
  fst (recognize_gesture landmarks handedness c w h) = Ok PINCH ->
  sum_bools [Spec.up landmarks 12 10; Spec.up landmarks 16 14;
             Spec.up landmarks 20 18] = 1%nat
  /\ exists d,
       Gesture.calculate_distance (Spec.landmark_of landmarks 4)
         (Spec.landmark_of landmarks 8) = Ok d
       /\ (d <? 0.05) = true.
Proof.
  intros H. rewrite (recognize_gesture_value landmarks handedness c w h H).
  unfold Rules.classify, Rules.pose.
  destruct (Rules.thumbs_up landmarks) as [[|]|]; try discriminate.
  destruct (Rules.peace landmarks) eqn:Hpeace; try discriminate.
  destruct (Rules.rock landmarks) eqn:Hrock; try discriminate.
  destruct (Rules.ok_sign landmarks) as [[|]|] eqn:Hok; try discriminate.
  destruct (Rules.pointing landmarks) eqn:Hpoint; try discriminate.
  destruct (Rules.palm_open landmarks); try discriminate.
  destruct (Rules.fist landmarks) eqn:Hfist; try discriminate.
  destruct (swipe_outcome _ _ c w) as [[g|]|] eqn:Hswipe; try discriminate.
  - intros E. inversion E; subst g.
    destruct (swipe_outcome_swipes _ _ _ _ _ Hswipe) as [F|[F|[F|F]]];
      discriminate F.
  - unfold Rules.fallback, Rules.ok_sign in *.
    destruct (Gesture.calculate_distance _ _) as [d|]; [|discriminate].
    destruct (d <? 0.05) eqn:Hd;
      [|destruct (0.15 <? d); discriminate].
    intros _. split; [|eauto].
    unfold Rules.peace, Rules.rock, Rules.pointing, Rules.fist, Rules.index,
      Rules.middle, Rules.ring, Rules.pinky, sum_bools in *.
    inversion Hok as [Hcount]. clear Hok.
    destruct (Spec.up landmarks 8 6), (Spec.up landmarks 12 10),
      (Spec.up landmarks 16 14), (Spec.up landmarks 20 18);
      simpl in *; try discriminate; reflexivity.
Qed.

Lemma pinch_needs_one_raised_finger_witness :
  sum_bools [Spec.up ring_pinch_hand 12 10; Spec.up ring_pinch_hand 16 14;
             Spec.up ring_pinch_hand 20 18] = 1%nat.
Proof.
  exact (proj1 (pinch_needs_one_raised_finger ring_pinch_hand "Right"%string
                  (0.5, 0.5) 640 fresh_heap eq_refl eq_refl)).
Defined.

(** With none of the four fingers raised, [recognize_gesture] returns
    [THUMBS_UP] or [FIST], unless a distance overflows: a closed hand gives
    no swipe and no pinch, whatever it does. *)
Theorem closed_hand_is_fist_or_thumbs_up (landmarks : list point)
  (handedness : string) (c : position) (w : float) (h : heap) :
  List.length landmarks = 21%nat ->
  Spec.four_fingers landmarks = 0%nat ->
  fst (recognize_gesture landmarks handedness c w h) = Ok THUMBS_UP
  \/ fst (recognize_gesture landmarks handedness c w h) = Ok FIST
  \/ fst (recognize_gesture landmarks handedness c w h) = Raise OverflowError.
Proof.
  intros H Hnone. rewrite (recognize_gesture_value landmarks handedness c w h H).
  unfold Rules.classify, Rules.pose, Rules.thumbs_up, Rules.ok_sign,
    Rules.peace, Rules.rock, Rules.pointing, Rules.palm_open, Rules.fist,
    Rules.index, Rules.middle, Rules.ring, Rules.pinky.
  unfold Spec.four_fingers in Hnone. unfold sum_bools in *.
  destruct (Spec.up landmarks 8 6), (Spec.up landmarks 12 10),
    (Spec.up landmarks 16 14), (Spec.up landmarks 20 18);
    simpl in Hnone; try discriminate Hnone. simpl.
  destruct (Spec.up landmarks 4 3 && Spec.up landmarks 4 9).
  - destruct (Gesture.calculate_distance _ (Spec.landmark_of landmarks 3))
      as [d|e] eqn:Hd.
    + destruct (0.05 <? d); [auto|].
      destruct (Gesture.calculate_distance _ (Spec.landmark_of landmarks 8))
        as [d'|e'] eqn:Hd'.
      * rewrite andb_false_r. destruct (Spec.up landmarks 4 3); simpl; auto.
      * right. right. f_equal. eapply calculate_distance_raises. exact Hd'.
    + right. right. f_equal. eapply calculate_distance_raises. exact Hd.
  - destruct (Gesture.calculate_distance _ (Spec.landmark_of landmarks 8))
      as [d'|e'] eqn:Hd'.
    + rewrite andb_false_r. destruct (Spec.up landmarks 4 3); simpl; auto.
    + right. right. f_equal. eapply calculate_distance_raises. exact Hd'.
Qed.

Lemma closed_hand_is_fist_or_thumbs_up_witness :
  let h := mkHeap (Gesture.init 5) [(0.9, 0.5); (0.8, 0.5); (0.7, 0.5)] [] in
  fst (recognize_gesture closed_hand "Right" (0.1, 0.5) 1 h) = Ok THUMBS_UP
  \/ fst (recognize_gesture closed_hand "Right" (0.1, 0.5) 1 h) = Ok FIST
  \/ fst (recognize_gesture closed_hand "Right" (0.1, 0.5) 1 h)
     = Raise OverflowError.
Proof.
  exact (closed_hand_is_fist_or_thumbs_up closed_hand "Right"%string
           (0.1, 0.5) 1
           (mkHeap (Gesture.init 5) [(0.9, 0.5); (0.8, 0.5); (0.7, 0.5)] [])
           eq_refl eq_refl).
Defined.

(** ** Clamping *)

Lemma leb_refl_of_ltb (a b : float) :
  (a <? b) = true -> (a <=? a) = true /\ (b <=? b) = true.
Proof.
  rewrite FloatAxioms.ltb_spec, !FloatAxioms.leb_spec. unfold SFltb, SFleb.
  destruct (Prim2SF a) as [sa|sa| |sa ma ea], (Prim2SF b) as [sb|sb| |sb mb eb];
    try discriminate; intros _; split;
    match goal with
    | |- match SFcompare ?v ?v with _ => _ end = true =>
        destruct (SFcompare_refl v) as [E|E]; [rewrite E; reflexivity|];
        try discriminate E
    end;
    simpl in E; destruct (_ ?= _)%Z; try discriminate E;
    repeat match type of E with
           | context [if ?s then _ else _] => destruct s
           end; discriminate E.
Qed.

(** [max(lo, min(hi, v))] lies between [lo] and [hi], whatever [v] is. *)
Lemma clamp_between (lo hi v : float) :
  (lo <? hi) = true ->
  (lo <=? Py.max lo (Py.min hi v)) = true
  /\ (Py.max lo (Py.min hi v) <=? hi) = true.
Proof.
  intros H. destruct (leb_refl_of_ltb lo hi H) as [Hlo Hhi].
  unfold Py.max, Py.min.
  destruct (v <? hi) eqn:Hv.
  - destruct (lo <? v) eqn:Hl.
    + split; apply ltb_leb; assumption.
    + split; [exact Hlo | apply ltb_leb; exact H].
  - rewrite H. split; [apply ltb_leb; exact H | exact Hhi].
Qed.

(** A value strictly inside the bounds is kept. *)
Lemma clamp_inside (lo hi v : float) :
  (lo <? v) = true -> (v <? hi) = true -> Py.max lo (Py.min hi v) = v.
Proof.
  intros Hl Hh. unfold Py.max, Py.min. rewrite Hh, Hl. reflexivity.
Qed.

(** Clamping twice is clamping once. *)
Lemma clamp_idempotent (lo hi v : float) :
  (lo <? hi) = true ->
  Py.max lo (Py.min hi (Py.max lo (Py.min hi v))) = Py.max lo (Py.min hi v).
Proof.
  intros H. unfold Py.max, Py.min.
  destruct (v <? hi) eqn:Hv.
  - destruct (lo <? v) eqn:Hl.
    + rewrite Hv, Hl. reflexivity.
    + rewrite H, (ltb_irrefl lo). reflexivity.
  - rewrite H, (ltb_irrefl hi), H. reflexivity.
Qed.

(** ** The setters of the configuration *)

(** X10. [update_volume_sensitivity] stores a float between 0.1 and 2.0
    whatever it is given (a NaN gives 2.0), keeps a value strictly inside
    these bounds, and leaves every other setting alone. *)
Theorem update_volume_sensitivity_clamps (s : float) (c : Config.ApplicationConfig) :
  exists v : float,
    ConfigUpdate.update_volume_sensitivity s c
    = (Ok tt,
       Config.mkApplicationConfig
         (Config.mkVolumeConfig
            (Config.min_distance (Config.volume c))
            (Config.max_distance (Config.volume c))
            (Config.smoothing_window (Config.volume c))
            (Config.Float v)
            (Config.min_change_threshold (Config.volume c)))
         (Config.gesture c))
    /\ (0.1 <=? v) = true /\ (v <=? 2.0) = true
    /\ (is_nan s = true -> v = 2.0)
    /\ ((0.1 <? s) = true -> (s <? 2.0) = true -> v = s).
Proof.
  exists (Py.max 0.1 (Py.min 2.0 s)).
  destruct (clamp_between 0.1 2.0 s eq_refl) as [Hlo Hhi].
  repeat split; try assumption.
  - unfold is_nan. intros Hn. apply Bool.negb_true_iff in Hn.
    unfold Py.max, Py.min.
    assert (Hs : (s <? 2.0) = false).
    { destruct (s <? 2.0) eqn:E; [|reflexivity].
      destruct (leb_refl_of_ltb _ _ E) as [E' _].
      rewrite FloatAxioms.leb_spec in E'. rewrite FloatAxioms.eqb_spec in Hn.
      unfold SFleb in E'. unfold SFeqb in Hn.
      destruct (SFcompare_refl (Prim2SF s)) as [R|R]; rewrite R in *;
        discriminate. }
    rewrite Hs. reflexivity.
  - intros Hl Hh. apply clamp_inside; assumption.
Qed.

(** X11. [update_gesture_confidence] stores a float between 0 and 1 whatever
    it is given, keeps a value strictly inside, and leaves every other
    setting alone; setting the stored value again changes nothing. *)
Theorem update_gesture_confidence_clamps (t : float) (c : Config.ApplicationConfig) :
  exists v : float,
    ConfigUpdate.update_gesture_confidence t c
    = (Ok tt,
       Config.mkApplicationConfig
         (Config.volume c)
         (Config.mkGestureConfig
            (Config.enabled_gestures (Config.gesture c))
            (Config.Float v)
            (Config.history_length (Config.gesture c))
            (Config.swipe_threshold (Config.gesture c))))
    /\ (0 <=? v) = true /\ (v <=? 1) = true
    /\ ((0 <? t) = true -> (t <? 1) = true -> v = t)
    /\ (forall c', ConfigUpdate.update_gesture_confidence t c = (Ok tt, c') ->
        ConfigUpdate.update_gesture_confidence v c' = (Ok tt, c')).
Proof.
  exists (Py.max 0 (Py.min 1 t)).
  destruct (clamp_between 0 1 t eq_refl) as [Hlo Hhi].
  repeat split; try assumption.
  - intros Hl Hh. apply clamp_inside; assumption.
  - intros c' H. unfold ConfigUpdate.update_gesture_confidence, modify in *.
    injection H as <-. simpl.
    change 0.0 with 0. change 1.0 with 1.
    rewrite (clamp_idempotent 0 1 t eq_refl). reflexivity.
Qed.

(** ** The mixers *)

Lemma leb_not_ltb_eqb (a b : float) :
  (a <=? b) = true -> (a <? b) = false -> (a =? b) = true.
Proof.
  rewrite FloatAxioms.leb_spec, FloatAxioms.ltb_spec, FloatAxioms.eqb_spec.
  unfold SFleb, SFltb, SFeqb.
  destruct (SFcompare (Prim2SF a) (Prim2SF b)) as [[]|]; congruence.
Qed.

Lemma eqb_sym (a b : float) : (a =? b) = (b =? a).
Proof.
  rewrite !FloatAxioms.eqb_spec. unfold SFeqb.
  rewrite (SFcompare_swap (Prim2SF a)).
  destruct (SFcompare (Prim2SF a) (Prim2SF b)) as [[]|]; reflexivity.
Qed.

Lemma mixer_clamp_cases (v : float) :
  Mixer.clamp v
  = if v <? 100
    then (if 0 <? v then Num.Float v else Num.Int 0)
    else Num.Int 100.
Proof.
  unfold Mixer.clamp, Num.max, Num.min, Num.lt.
  change (Num.to_float (Num.Float v)) with v.
  change (Num.to_float (Num.Int 100)) with 100.
  destruct (v <? 100); [|reflexivity].
  change (Num.to_float (Num.Int 0)) with 0.
  change (Num.to_float (Num.Float v)) with v.
  reflexivity.
Qed.

Lemma setup_audio_control_cases (os_type : string) (pycaw : bool) (v : float) :
  Mixer.setup_audio_control os_type pycaw v = Mixer.Osascript (Mixer.clamp v)
  \/ Mixer.setup_audio_control os_type pycaw v = Mixer.Amixer (Mixer.clamp v)
  \/ (os_type = "Windows"%string
      /\ Mixer.setup_audio_control os_type pycaw v
         = if pycaw then Mixer.Endpoint (Num.to_float (Mixer.clamp v) / 100)
           else Mixer.PycawWarning).
Proof.
  unfold Mixer.setup_audio_control.
  destruct (String.eqb os_type "Darwin") eqn:D; [left; reflexivity|].
  destruct (String.eqb os_type "Windows") eqn:W; [|right; left; reflexivity].
  right; right. apply String.eqb_eq in W. split; [exact W|].
  unfold Mixer.set_volume_windows. destruct pycaw; reflexivity.
Qed.

(** X12. Whatever float a mixer is called with, the level written into the
    [osascript] or [amixer] command line lies between 0 and 100: it is the
    argument itself when that is strictly between 0 and 100, the integer 0 or
    the integer 100 otherwise, a NaN setting the level to 100.  Only on
    Windows is no command line written. *)
Theorem mixer_level_bounded (os_type : string) (pycaw : bool) (v : float) :
  match Mixer.level_of (Mixer.setup_audio_control os_type pycaw v) with
  | Some n =>
      (0 <=? Num.to_float n) = true /\ (Num.to_float n <=? 100) = true
      /\ (n = Num.Float v /\ (0 <? v) = true /\ (v <? 100) = true
          \/ n = Num.Int 0 /\ (0 <? v) = false
          \/ n = Num.Int 100 /\ (v <? 100) = false)
      /\ (if is_nan v then n = Num.Int 100 else True)
  | None => os_type = "Windows"%string
  end.
Proof.
  assert (Hn : is_nan v = true -> (v <? 100) = false).
  { unfold is_nan. intros Hn. apply Bool.negb_true_iff in Hn.
    destruct (v <? 100) eqn:E; [|reflexivity].
    destruct (leb_refl_of_ltb _ _ E) as [E' _].
    rewrite FloatAxioms.leb_spec in E'. rewrite FloatAxioms.eqb_spec in Hn.
    unfold SFleb in E'. unfold SFeqb in Hn.
    destruct (SFcompare_refl (Prim2SF v)) as [R|R]; rewrite R in *;
      discriminate. }
  assert (H : forall n, n = Mixer.clamp v ->
      (0 <=? Num.to_float n) = true /\ (Num.to_float n <=? 100) = true
      /\ (n = Num.Float v /\ (0 <? v) = true /\ (v <? 100) = true
          \/ n = Num.Int 0 /\ (0 <? v) = false
          \/ n = Num.Int 100 /\ (v <? 100) = false)
      /\ (if is_nan v then n = Num.Int 100 else True)).
  { intros n ->. rewrite mixer_clamp_cases.
    destruct (v <? 100) eqn:Hhi.
    - assert (is_nan v = false) as ->
        by (destruct (is_nan v); [specialize (Hn eq_refl); discriminate|reflexivity]).
      destruct (0 <? v) eqn:Hlo.
      + simpl. repeat split; try (apply ltb_leb; assumption). auto.
      + repeat split; auto.
    - repeat split; auto. destruct (is_nan v); auto. }
  destruct (setup_audio_control_cases os_type pycaw v) as [E|[E|[W E]]];
    rewrite E; simpl; try (apply H; reflexivity).
  destruct pycaw; exact W.
Qed.

(** X13. The levels a frame passes to the mixer go through unchanged: the
    command line carries a number equal to the level (the level itself, or
    the integer 0 or 100 for a level 0.0 or 100.0), and the Windows endpoint
    is given that number divided by 100. *)
Theorem mixer_keeps_frame_levels (frame_height frame_width : nat)
  (detected : results) (c : HandGestureVolumeController)
  (os_type : string) (pycaw : bool) :
  exists levels,
    set_volume_calls (snd (process_frame frame_height frame_width detected c))
    = set_volume_calls c ++ levels
    /\ Forall (fun v =>
         exists n, (Num.to_float n =? v) = true
           /\ (n = Num.Float v \/ n = Num.Int 0 \/ n = Num.Int 100)
           /\ (Mixer.setup_audio_control os_type pycaw v = Mixer.Osascript n
               \/ Mixer.setup_audio_control os_type pycaw v = Mixer.Amixer n
               \/ Mixer.setup_audio_control os_type pycaw v
                  = (if pycaw then Mixer.Endpoint (Num.to_float n / 100)
                     else Mixer.PycawWarning))) levels.
Proof.
  destruct (process_frame_calls frame_height frame_width detected c)
    as [levels [Hc Hr]].
  exists levels. split; [exact Hc|].
  eapply Forall_impl; [|exact Hr].
  intros v [H0 H100]. exists (Mixer.clamp v).
  split; [|split].
  - rewrite mixer_clamp_cases.
    destruct (v <? 100) eqn:Hhi.
    + destruct (0 <? v) eqn:Hlo.
      * simpl. apply leb_not_ltb_eqb; [|apply ltb_irrefl].
        apply ltb_leb in Hlo. destruct (leb_refl_of_ltb _ _ Hhi) as [R _].
        exact R.
      * change (Num.to_float (Num.Int 0)) with 0.
        apply leb_not_ltb_eqb; assumption.
    + change (Num.to_float (Num.Int 100)) with 100.
      rewrite eqb_sym. apply leb_not_ltb_eqb; assumption.
  - rewrite mixer_clamp_cases.
    destruct (v <? 100); [destruct (0 <? v)|]; auto.
  - destruct (setup_audio_control_cases os_type pycaw v) as [E|[E|[W E]]]; auto.
Qed.

(** ** The frame rate shown by [run] *)

Lemma count_frame_run (s : Run.counters) :
  let d := if Nat.eqb (S (Run.frame_count s) mod 30) 0
           then deque_append (Run.fps_counter s) 30%Z
           else Run.fps_counter s in
  Run.count_frame s = (Run.fps d, Run.mkCounters d (S (Run.frame_count s))).
Proof.
  unfold Run.count_frame, bind, modify, gets, lift, ret.
  cbn [Run.frame_count Run.fps_counter].
  destruct (Nat.eqb (S (Run.frame_count s) mod 30) 0); reflexivity.
Qed.

Lemma deque_append_thirties (k : nat) :
  (k <= 30)%nat ->
  deque_append (mkDeque (repeat 30%Z k) 30) 30%Z
  = mkDeque (repeat 30%Z (Nat.min (S k) 30)) 30.
Proof.
  intros Hk. unfold deque_append, deque_len. cbn [maxlen items].
  rewrite repeat_length.
  destruct (Nat.ltb k 30) eqn:E.
  - apply Nat.ltb_lt in E. rewrite Nat.min_l by lia.
    rewrite <- repeat_cons. reflexivity.
  - apply Nat.ltb_ge in E. assert (k = 30%nat) as -> by lia. reflexivity.
Qed.

Lemma thirties_counted (n : nat) :
  (if Nat.eqb (S n mod 30) 0
   then deque_append (mkDeque (repeat 30%Z (Nat.min (n / 30) 30)) 30) 30%Z
   else mkDeque (repeat 30%Z (Nat.min (n / 30) 30)) 30)
  = mkDeque (repeat 30%Z (Nat.min (S n / 30) 30)) 30.
Proof.
  pose proof (Nat.div_mod_eq n 30) as Hn.
  pose proof (Nat.mod_upper_bound n 30 ltac:(lia)) as Hr.
  pose proof (Nat.div_mod_eq (S n) 30) as Hn'.
  pose proof (Nat.mod_upper_bound (S n) 30 ltac:(lia)) as Hr'.
  destruct (Nat.eqb (S n mod 30) 0) eqn:E.
  - apply Nat.eqb_eq in E.
    rewrite deque_append_thirties by lia.
    replace (S n / 30)%nat with (S (n / 30)) by lia.
    f_equal. f_equal. lia.
  - apply Nat.eqb_neq in E.
    replace (S n / 30)%nat with (n / 30)%nat by lia. reflexivity.
Qed.

Lemma after_counters (n : nat) :
  Run.after n = Run.mkCounters (mkDeque (repeat 30%Z (Nat.min (n / 30) 30)) 30) n.
Proof.
  induction n as [|n IH].
  - reflexivity.
  - cbn [Run.after]. rewrite count_frame_run, IH.
    cbn [snd Run.frame_count Run.fps_counter].
    rewrite thirties_counted. reflexivity.
Qed.

Lemma fps_thirties (k : nat) :
  (1 <= k <= 30)%nat ->
  Run.fps (mkDeque (repeat 30%Z k) 30) = Ok (Num.Float 30).
Proof.
  intros [H1 H30].
  do 31 (destruct k as [|k]; [first [lia | vm_compute; reflexivity]|]).
  lia.
Qed.

(** X14. The frame rate [run] draws is not measured: on each of the first
    29 frames it is the integer 0, and on every later frame the float 30.0,
    however long the frames took. *)
Theorem run_shows_constant_fps (n : nat) :
  fst (Run.count_frame (Run.after n))
  = Ok (if Nat.ltb (S n) 30 then Num.Int 0 else Num.Float 30).
Proof.
  rewrite count_frame_run, after_counters.
  cbn [fst Run.frame_count Run.fps_counter].
  rewrite thirties_counted.
  pose proof (Nat.div_mod_eq (S n) 30) as Hn.
  pose proof (Nat.mod_upper_bound (S n) 30 ltac:(lia)) as Hr.
  destruct (Nat.ltb (S n) 30) eqn:E.
  - apply Nat.ltb_lt in E.
    replace (S n / 30)%nat with 0%nat by lia. reflexivity.
  - apply Nat.ltb_ge in E. apply fps_thirties. lia.
Qed.

(** ** The performance metrics of the logging handler *)

Lemma names_of_snoc (cs : list Logging.line) (c : Logging.line) :
  names_of (cs ++ [c])
  = if existsb (String.eqb (Logging.metric_name c)) (names_of cs)
    then names_of cs
    else names_of cs ++ [Logging.metric_name c].
Proof. unfold names_of. rewrite fold_left_app. reflexivity. Qed.

Lemma values_of_snoc (n : string) (cs : list Logging.line) (c : Logging.line) :
  values_of n (cs ++ [c])
  = if String.eqb (Logging.metric_name c) n
    then values_of n cs ++ [Logging.value c]
    else values_of n cs.
Proof.
  unfold values_of. rewrite filter_app, map_app. simpl.
  destruct (String.eqb (Logging.metric_name c) n); simpl.
  - reflexivity.
  - apply app_nil_r.
Qed.

Lemma existsb_eqb_in (n : string) (names : list string) :
  existsb (String.eqb n) names = true <-> In n names.
Proof.
  rewrite existsb_exists. split.
  - intros [x [Hx E]]. apply String.eqb_eq in E. subst. exact Hx.
  - intros H. exists n. split; [exact H | apply String.eqb_refl].
Qed.

Lemma existsb_eqb_out (n : string) (names : list string) :
  existsb (String.eqb n) names = false <-> ~ In n names.
Proof.
  rewrite <- existsb_eqb_in. destruct (existsb (String.eqb n) names); split;
    congruence.
Qed.

Lemma names_of_nodup (cs : list Logging.line) : NoDup (names_of cs).
Proof.
  induction cs as [|c cs IH] using rev_ind.
  - constructor.
  - rewrite names_of_snoc.
    destruct (existsb _ (names_of cs)) eqn:E; [exact IH|].
    apply existsb_eqb_out in E.
    apply NoDup_rev in IH. rewrite <- (rev_involutive (_ ++ _)).
    apply NoDup_rev. rewrite rev_app_distr. simpl. constructor; [|exact IH].
    rewrite <- in_rev. exact E.
Qed.

(** A name that was not logged has no values, a logged one has some. *)
Lemma values_of_names (n : string) (cs : list Logging.line) :
  (In n (names_of cs) -> values_of n cs <> [])
  /\ (~ In n (names_of cs) -> values_of n cs = []).
Proof.
  induction cs as [|c cs [IH1 IH2]] using rev_ind.
  - split; [intros []|reflexivity].
  - rewrite names_of_snoc, values_of_snoc.
    destruct (String.eqb (Logging.metric_name c) n) eqn:En.
    + split.
      * intros _ H. apply app_eq_nil in H. destruct H as [_ H]. discriminate H.
      * intros H. exfalso. apply H. apply String.eqb_eq in En. subst n.
        destruct (existsb _ (names_of cs)) eqn:E.
        -- apply existsb_eqb_in. exact E.
        -- apply in_or_app. right. left. reflexivity.
    + assert (Hn : In n (if existsb (String.eqb (Logging.metric_name c)) (names_of cs)
                         then names_of cs
                         else names_of cs ++ [Logging.metric_name c])
                   <-> In n (names_of cs)).
      { destruct (existsb _ (names_of cs)); [reflexivity|].
        rewrite in_app_iff. simpl. split; [|auto].
        intros [H|[H|[]]]; [exact H|].
        subst n. rewrite String.eqb_refl in En. discriminate En. }
      rewrite Hn. split; assumption.
Qed.

Lemma dict_set_fresh (V : Type) (key : string) (v : V)
  (d : Logging.dict V) :
  ~ In key (map fst d) -> Logging.dict_set key v d = d ++ [(key, v)].
Proof.
  induction d as [|[k v'] d IH]; intros H; [reflexivity|].
  simpl in *. destruct (String.eqb k key) eqn:E.
  - apply String.eqb_eq in E. tauto.
  - rewrite IH by tauto. reflexivity.
Qed.

Section Dictionaries.

Variable V : Type.
Variable g : string -> V.

Lemma dict_get_tabulate (key : string) (names : list string) :
  Logging.dict_get key (tabulate V g names)
  = if existsb (String.eqb key) names then Some (g key) else None.
Proof.
  induction names as [|n names IH]; [reflexivity|].
  simpl. rewrite (String.eqb_sym key n).
  destruct (String.eqb n key) eqn:E.
  - apply String.eqb_eq in E. subst. reflexivity.
  - exact IH.
Qed.

Lemma dict_mem_tabulate (key : string) (names : list string) :
  Logging.dict_mem key (tabulate V g names) = existsb (String.eqb key) names.
Proof.
  unfold Logging.dict_mem. rewrite dict_get_tabulate.
  destruct (existsb (String.eqb key) names); reflexivity.
Qed.

Lemma tabulate_keys (names : list string) : map fst (tabulate V g names) = names.
Proof.
  unfold tabulate. rewrite map_map. simpl. apply map_id.
Qed.

End Dictionaries.

Lemma dict_append_tabulate (V : Type) (g : string -> list V) (key : string)
  (x : V) (names : list string) :
  NoDup names ->
  Logging.dict_append key x (tabulate (list V) g names)
  = tabulate (list V)
      (fun n => if String.eqb key n then g n ++ [x] else g n) names.
Proof.
  induction names as [|n names IH]; intros H; [reflexivity|].
  inversion H as [|? ? Hn Hnames]; subst.
  simpl. rewrite (String.eqb_sym key n).
  destruct (String.eqb n key) eqn:E.
  - apply String.eqb_eq in E. subst n. f_equal.
    apply map_ext_in. intros a Ha.
    destruct (String.eqb key a) eqn:Ea; [|reflexivity].
    apply String.eqb_eq in Ea. subst a. contradiction.
  - f_equal. apply IH. exact Hnames.
Qed.

Lemma data_of_snoc (cs : list Logging.line) (c : Logging.line) :
  Logging.dict_append (Logging.metric_name c) (Logging.value c)
    (if negb (Logging.dict_mem (Logging.metric_name c) (data_of cs))
     then Logging.dict_set (Logging.metric_name c) [] (data_of cs)
     else data_of cs)
  = data_of (cs ++ [c]).
Proof.
  unfold data_of at 1. rewrite dict_mem_tabulate. fold (data_of cs).
  assert (E : (if negb (existsb (String.eqb (Logging.metric_name c)) (names_of cs))
               then Logging.dict_set (Logging.metric_name c) [] (data_of cs)
               else data_of cs)
              = tabulate (list float) (fun n => values_of n cs)
                  (names_of (cs ++ [c]))).
  { rewrite names_of_snoc.
    destruct (existsb _ (names_of cs)) eqn:Em; simpl; [reflexivity|].
    apply existsb_eqb_out in Em. unfold data_of.
    rewrite dict_set_fresh by (rewrite tabulate_keys; exact Em).
    unfold tabulate. rewrite map_app. simpl.
    destruct (values_of_names (Logging.metric_name c) cs) as [_ ->];
      [reflexivity | exact Em]. }
  rewrite E, dict_append_tabulate by apply names_of_nodup.
  unfold data_of, tabulate. apply map_ext. intros n.
  rewrite values_of_snoc. reflexivity.
Qed.

Lemma log_performance_metric_run (cs : list Logging.line) (c : Logging.line)
  (mode : bool) (lines : list Logging.line) :
  Logging.log_performance_metric c (Logging.mkHandler mode (data_of cs) lines)
  = (Ok tt,
     Logging.mkHandler mode (data_of (cs ++ [c]))
       (lines ++ (if mode then [c] else []))).
Proof.
  unfold Logging.log_performance_metric, Logging.set_performance_data,
    Logging.debug, bind, gets, modify, ret.
  cbn [Logging.performance_data Logging.debug_mode Logging.debug_lines].
  rewrite <- data_of_snoc.
  destruct (negb (Logging.dict_mem (Logging.metric_name c) (data_of cs)));
    cbn [Logging.performance_data Logging.debug_mode Logging.debug_lines];
    destruct mode;
    cbn [Logging.performance_data Logging.debug_mode Logging.debug_lines];
    rewrite ?app_nil_r; reflexivity.
Qed.

Lemma log_all_run (cs more : list Logging.line) (mode : bool)
  (lines : list Logging.line) :
  Logging.log_all more (Logging.mkHandler mode (data_of cs) lines)
  = (Ok tt,
     Logging.mkHandler mode (data_of (cs ++ more))
       (lines ++ (if mode then more else []))).
Proof.
  revert cs lines. induction more as [|c more IH]; intros cs lines.
  - unfold Logging.log_all. simpl. unfold ret.
    rewrite !app_nil_r. destruct mode; rewrite ?app_nil_r; reflexivity.
  - unfold Logging.log_all in *. cbn [for_each]. unfold bind at 1.
    rewrite log_performance_metric_run, IH.
    rewrite <- !app_assoc. simpl. destruct mode; rewrite <- ?app_assoc; reflexivity.
Qed.

Lemma last_of_last (values : list float) :
  values <> [] -> Logging.last_of values = Ok (List.last values 0).
Proof.
  intros H. destruct (exists_last H) as [l [a ->]].
  unfold Logging.last_of. rewrite rev_app_distr, last_last. reflexivity.
Qed.

Lemma summary_run (cs : list Logging.line) (names : list string)
  (summary : Logging.dict Logging.stats) (h : Logging.LoggingHandler) :
  NoDup names ->
  (forall n, In n names -> values_of n cs <> []) ->
  (forall n, In n names -> ~ In n (map fst summary)) ->
  for_each (tabulate (list float) (fun n => values_of n cs) names)
    (fun summary item =>
       let '(metric, values) := item in
       match values with
       | [] => ret summary
       | _ :: _ =>
           a <- lift (Logging.average values) ;;
           lo <- lift (Logging.min_of values) ;;
           hi <- lift (Logging.max_of values) ;;
           l <- lift (Logging.last_of values) ;;
           ret (Logging.dict_set metric
                  {| Logging.avg := a; Logging.min := lo; Logging.max := hi;
                     Logging.latest := l |} summary)
       end)
    summary h
  = (Ok (summary
         ++ tabulate Logging.stats (fun n => entry_of (values_of n cs)) names),
     h).
Proof.
  revert summary. induction names as [|n names IH]; intros summary Hd Hv Hs.
  - simpl. unfold ret. rewrite app_nil_r. reflexivity.
  - inversion Hd as [|? ? Hn Hnames]; subst.
    cbn [tabulate map for_each]. unfold bind at 1.
    pose proof (Hv n (or_introl eq_refl)) as Hne.
    pose proof (last_of_last _ Hne) as Hl.
    destruct (values_of n cs) as [|v rest] eqn:Ev; [congruence|].
    unfold bind, lift, ret. rewrite Hl.
    cbn [Logging.average Logging.min_of Logging.max_of].
    rewrite dict_set_fresh by (apply Hs; left; reflexivity).
    fold (tabulate (list float) (fun n => values_of n cs) names).
    rewrite IH.
    + rewrite <- app_assoc. reflexivity.
    + exact Hnames.
    + intros m Hm. apply Hv. right. exact Hm.
    + intros m Hm. rewrite map_app, in_app_iff. simpl.
      intros [H|[H|[]]].
      * apply (Hs m); [right; exact Hm | exact H].
      * subst m. contradiction.
Qed.

Lemma get_performance_summary_run (cs : list Logging.line) (mode : bool)
  (lines : list Logging.line) :
  Logging.get_performance_summary (Logging.mkHandler mode (data_of cs) lines)
  = (Ok (tabulate Logging.stats (fun n => entry_of (values_of n cs)) (names_of cs)),
     Logging.mkHandler mode (data_of cs) lines).
Proof.
  unfold Logging.get_performance_summary, bind at 1, gets.
  cbn [Logging.performance_data]. unfold data_of.
  rewrite summary_run.
  - reflexivity.
  - apply names_of_nodup.
  - intros n Hn. apply values_of_names. exact Hn.
  - intros n _ [].
Qed.

(** X15. After any calls of [log_performance_metric] on a new handler,
    [get_performance_summary] returns without raising and without changing
    the handler: one entry for each name logged, in the order of the first
    call of each name, computed from the values logged under that name in
    the order of the calls.  The calls themselves return; in debug mode each
    writes one debug line, otherwise none. *)
Theorem performance_summary_of_calls (mode : bool) (cs : list Logging.line) :
  let h := Logging.mkHandler mode
             (map (fun n => (n, values_of n cs)) (names_of cs))
             (if mode then cs else []) in
  Logging.log_all cs (Logging.init mode) = (Ok tt, h)
  /\ Logging.get_performance_summary h
     = (Ok (map (fun n => (n, entry_of (values_of n cs))) (names_of cs)), h).
Proof.
  split.
  - apply (log_all_run [] cs mode []).
  - apply (get_performance_summary_run cs mode).
Qed.

Lemma fold_min_in (rest : list float) (v : float) :
  In (fold_left Py.min rest v) (v :: rest).
Proof.
  revert v. induction rest as [|a rest IH]; intros v; [left; reflexivity|].
  simpl. specialize (IH (Py.min v a)). unfold Py.min in *.
  destruct (a <? v); destruct IH as [H|H]; auto.
Qed.

Lemma fold_max_in (rest : list float) (v : float) :
  In (fold_left Py.max rest v) (v :: rest).
Proof.
  revert v. induction rest as [|a rest IH]; intros v; [left; reflexivity|].
  simpl. specialize (IH (Py.max v a)). unfold Py.max in *.
  destruct (v <? a); destruct IH as [H|H]; auto.
Qed.

(** X16. A value logged under a name, with no later call under that name,
    is the [latest] of that name's entry in the summary, whatever was logged
    before and after; the entry's [min] and [max] are values that were
    logged under the name. *)
Theorem logged_value_is_latest (mode : bool) (before after : list Logging.line)
  (c : Logging.line) :
  forallb (fun m => negb (String.eqb (Logging.metric_name m) (Logging.metric_name c)))
    after = true ->
  let cs := before ++ c :: after in
  exists summary e,
    fst (Logging.get_performance_summary
           (snd (Logging.log_all cs (Logging.init mode)))) = Ok summary
    /\ Logging.dict_get (Logging.metric_name c) summary = Some e
    /\ Logging.latest e = Logging.value c
    /\ In (Logging.min e) (values_of (Logging.metric_name c) cs)
    /\ In (Logging.max e) (values_of (Logging.metric_name c) cs).
Proof.
  intros Hafter cs.
  pose proof (log_all_run [] cs mode []) as Hlog. simpl in Hlog.
  change (Logging.mkHandler mode (data_of []) []) with (Logging.init mode) in Hlog.
  rewrite Hlog. cbn [snd]. rewrite get_performance_summary_run. cbn [fst].
  eexists. eexists. split; [reflexivity|].
  assert (Hv : values_of (Logging.metric_name c) cs
               = values_of (Logging.metric_name c) before ++ [Logging.value c]).
  { unfold cs, values_of. rewrite filter_app. simpl.
    rewrite String.eqb_refl.
    assert (Hf : filter (fun m => String.eqb (Logging.metric_name m)
                                    (Logging.metric_name c)) after = []).
    { clear - Hafter. induction after as [|a after IH]; [reflexivity|].
      simpl in *. apply Bool.andb_true_iff in Hafter. destruct Hafter as [Ha Hr].
      apply Bool.negb_true_iff in Ha. rewrite Ha. apply IH. exact Hr. }
    rewrite Hf, map_app. reflexivity. }
  assert (Hin : In (Logging.metric_name c) (names_of cs)).
  { destruct (existsb (String.eqb (Logging.metric_name c)) (names_of cs)) eqn:E.
    - apply existsb_eqb_in. exact E.
    - apply existsb_eqb_out in E.
      destruct (values_of_names (Logging.metric_name c) cs) as [_ H].
      specialize (H E). rewrite Hv in H. apply app_eq_nil in H.
      destruct H as [_ H]. discriminate H. }
  rewrite dict_get_tabulate.
  apply existsb_eqb_in in Hin. rewrite Hin.
  split; [reflexivity|]. rewrite Hv.
  unfold entry_of. cbn [Logging.latest Logging.min Logging.max].
  split; [apply last_last|].
  destruct (values_of (Logging.metric_name c) before ++ [Logging.value c])
    as [|v rest] eqn:E.
  - apply app_eq_nil in E. destruct E as [_ E]. discriminate E.
  - cbn [List.hd List.tl]. split; [apply fold_min_in | apply fold_max_in].
Qed.

Lemma logged_value_is_latest_witness :
  exists summary e,
    fst (Logging.get_performance_summary
           (snd (Logging.log_all
                   [Logging.mkLine "fps" 30 EmptyString; Logging.mkLine "latency" 12 "ms";
                    Logging.mkLine "fps" 24 EmptyString; Logging.mkLine "latency" 15 "ms"]
                   (Logging.init false)))) = Ok summary
    /\ Logging.dict_get "fps" summary = Some e
    /\ Logging.latest e = 24
    /\ In (Logging.min e)
         (values_of "fps"
            [Logging.mkLine "fps" 30 EmptyString; Logging.mkLine "latency" 12 "ms";
             Logging.mkLine "fps" 24 EmptyString; Logging.mkLine "latency" 15 "ms"])
    /\ In (Logging.max e)
         (values_of "fps"
            [Logging.mkLine "fps" 30 EmptyString; Logging.mkLine "latency" 12 "ms";
             Logging.mkLine "fps" 24 EmptyString; Logging.mkLine "latency" 15 "ms"]).
Proof.
  exact (logged_value_is_latest false
           [Logging.mkLine "fps" 30 EmptyString; Logging.mkLine "latency" 12 "ms"]
           [Logging.mkLine "latency" 15 "ms"]
           (Logging.mkLine "fps" 24 EmptyString) eq_refl).
Defined.

(** ** Saving and loading the configuration *)

(** X17. The dictionary [save_config] builds from a configuration, given
    to [_update_config_from_dict], is accepted by the constructors of both
    sections and restores that configuration, whatever the manager held
    before and whatever values the fields hold. *)
Theorem saved_config_restored (c held : Config.ApplicationConfig) :
  Config.update_config_from_dict (ConfigUpdate.saved c) held = (Ok tt, c).
Proof.
  destruct c as [[d0 d1 w s m] [g t l sw]].
  reflexivity.
Qed.

(** ** The two finger counts *)

Lemma four_fingers_le (landmarks : list point) :
  (Spec.four_fingers landmarks <= 4)%nat.
Proof.
  unfold Spec.four_fingers, sum_bools.
  destruct (Spec.up landmarks 8 6), (Spec.up landmarks 12 10),
    (Spec.up landmarks 16 14), (Spec.up landmarks 20 18); simpl; lia.
Qed.

(** X18. On 21 landmarks [count_raised_fingers] returns a count of at most
    5 that does not depend on the handedness it is given; [detect_palm_open]
    holds exactly when that count is at least 4, and [detect_fist] only when
    it is at most 1.  The count of the volume controller, which tests the
    thumb sideways, is at most 5 as well and differs from it by at most
    one. *)
Theorem finger_counts_agree (landmarks : list point)
  (handedness handedness' : string) (h : heap)
  (c : Volume.HandGestureVolumeController) :
  List.length landmarks = 21%nat ->
  exists n k : nat,
    fst (count_raised_fingers landmarks handedness h) = Ok n
    /\ fst (count_raised_fingers landmarks handedness' h) = Ok n
    /\ (n <= 5)%nat
    /\ fst (detect_palm_open landmarks h) = Ok (Nat.leb 4 n)
    /\ (fst (detect_fist landmarks h) = Ok true -> (n <= 1)%nat)
    /\ Volume.count_fingers landmarks handedness c = (Ok k, c)
    /\ (k <= 5)%nat /\ (k <= n + 1)%nat /\ (n <= k + 1)%nat.
Proof.
  intros H.
  exists (Nat.b2n (Spec.thumb_by_y landmarks) + Spec.four_fingers landmarks)%nat.
  exists (Nat.b2n (Spec.thumb_by_x handedness landmarks)
          + Spec.four_fingers landmarks)%nat.
  pose proof (four_fingers_le landmarks) as H4.
  rewrite !(count_raised_fingers_run _ _ _ H), (detect_palm_open_run _ _ H),
    (detect_fist_run _ _ H), (count_fingers_run _ _ _ H).
  assert (Hy : (Nat.b2n (Spec.thumb_by_y landmarks) <= 1)%nat)
    by (destruct (Spec.thumb_by_y landmarks); simpl; lia).
  assert (Hx : (Nat.b2n (Spec.thumb_by_x handedness landmarks) <= 1)%nat)
    by (destruct (Spec.thumb_by_x handedness landmarks); simpl; lia).
  repeat split; try lia.
  - rewrite Nat.add_comm. reflexivity.
  - intros F. injection F as F. unfold Rules.fist in F.
    apply Nat.eqb_eq in F.
    unfold Spec.four_fingers, Rules.index, Rules.middle, Rules.ring,
      Rules.pinky in *. lia.
Qed.

Lemma finger_counts_agree_witness :
  exists n k : nat,
    fst (count_raised_fingers three_fingers_hand "Right" fresh_heap) = Ok n
    /\ fst (count_raised_fingers three_fingers_hand "Left" fresh_heap) = Ok n
    /\ (n <= 5)%nat
    /\ fst (detect_palm_open three_fingers_hand fresh_heap) = Ok (Nat.leb 4 n)
    /\ (fst (detect_fist three_fingers_hand fresh_heap) = Ok true -> (n <= 1)%nat)
    /\ Volume.count_fingers three_fingers_hand "Right" (Volume.init 5)
       = (Ok k, Volume.init 5)
    /\ (k <= 5)%nat /\ (k <= n + 1)%nat /\ (n <= k + 1)%nat.
Proof.
  exact (finger_counts_agree three_fingers_hand "Right" "Left" fresh_heap
           (Volume.init 5) eq_refl).
Defined.

(** ** Frames: an empty window, several hands *)

(** X19. A controller built with [smoothing_window = 0] cannot process a
    hand: its distance window stays empty, so that on a hand whose thumb and
    index tips are present and at a computable distance the mean divides by
    a length of 0; [process_frame] raises [ZeroDivisionError], the mixer is
    not called and the controller is left as it was. *)
Theorem zero_window_raises (frame_height frame_width : nat)
  (landmarks : list point) (info : list string)
  (hands : list (list point)) (infos : list (list string))
  (c : HandGestureVolumeController) (d : float) :
  maxlen (distance_history c) = 0%nat ->
  items (distance_history c) = [] ->
  (9 <= List.length landmarks)%nat ->
  Volume.calculate_distance (Spec.landmark_of landmarks 4)
    (Spec.landmark_of landmarks 8) = Ok d ->
  process_frame frame_height frame_width
    (mkResults (landmarks :: hands) (info :: infos)) c
  = (Raise ZeroDivisionError, c).
Proof.
  intros Hmax Hitems Hlen Hd.
  destruct c as [[dist dmax] fingers calls]. simpl in Hmax, Hitems. subst.
  unfold process_frame. cbn [multi_hand_landmarks multi_handedness combine for_each].
  unfold bind at 1 2. unfold process_hand, bind at 1.
  unfold update_volume, bind, lift, modify, gets, ret. cbn [fst snd].
  rewrite !getitem_landmark_of by lia. rewrite Hd. reflexivity.
Qed.

Lemma zero_window_raises_witness :
  process_frame 480 640 (mkResults [pinch_hand 0.1] [["Right"%string]])
    (Volume.init 0)
  = (Raise ZeroDivisionError, Volume.init 0).
Proof.
  refine (zero_window_raises 480 640 (pinch_hand 0.1) ["Right"%string] [] []
            (Volume.init 0) _ eq_refl eq_refl _ _).
  - simpl. lia.
  - vm_compute. reflexivity.
Defined.

Lemma last_cons {A : Type} (a : A) (l : list A) (d : A) :
  List.last (a :: l) d = List.last l a.
Proof.
  revert a d. induction l as [|b l IH]; intros a d; [reflexivity|].
  change (List.last (a :: b :: l) d) with (List.last (b :: l) d).
  rewrite !(IH b). reflexivity.
Qed.

Lemma process_hand_returns (frame_height frame_width : nat)
  (landmarks : list point) (info : list string)
  (c c1 : HandGestureVolumeController) (v : float) :
  process_hand frame_height frame_width landmarks info c = (Ok v, c1) ->
  set_volume_calls c1 = set_volume_calls c ++ [v].
Proof.
  unfold process_hand, bind.
  destruct (update_volume_shape landmarks info c) as [Hcalls _].
  destruct (update_volume landmarks info c) as [[[[[p4 p8] k] w]|e] c0];
    simpl in Hcalls; [|discriminate].
  unfold lift.
  destruct (annotate frame_height frame_width p4 p8 w); [|discriminate].
  simpl. intros H. injection H as <- <-. simpl. rewrite Hcalls. reflexivity.
Qed.

Lemma process_hands_return (frame_height frame_width : nat)
  (hands : list (list point * list string)) (level r : option float)
  (c c' : HandGestureVolumeController) :
  for_each hands
    (fun (volume_level : option float) hand =>
       v <- process_hand frame_height frame_width (fst hand) (snd hand) ;;
       ret (Some v))
    level c = (Ok r, c') ->
  exists levels,
    set_volume_calls c' = set_volume_calls c ++ levels
    /\ List.length levels = List.length hands
    /\ r = List.last (map Some levels) level.
Proof.
  revert level c. induction hands as [|[landmarks info] hands IH]; intros level c.
  - simpl. unfold ret. intros H. injection H as <- <-.
    exists []. rewrite app_nil_r. auto.
  - cbn [for_each fst snd]. unfold bind at 1 2.
    destruct (process_hand frame_height frame_width landmarks info c)
      as [[v|e] c1] eqn:Hp; [|discriminate].
    apply process_hand_returns in Hp.
    unfold ret at 1. intros H. destruct (IH _ _ H) as [levels [Hc [Hl Hr]]].
    exists (v :: levels).
    split; [rewrite Hc, Hp, <- app_assoc; reflexivity|].
    split; [cbn [List.length]; lia|].
    rewrite Hr. cbn [map]. rewrite last_cons. reflexivity.
Qed.

(** X20. When [process_frame] returns on a frame with several hands, it
    has called the mixer once for every hand that has both landmarks and a
    handedness entry, in the order of the hands, and the level it returns is
    the one of the last such hand; it returns [None] exactly when there was
    no such hand. *)
Theorem process_frame_returns_last_level (frame_height frame_width : nat)
  (detected : results) (c c' : HandGestureVolumeController)
  (r : option float) :
  process_frame frame_height frame_width detected c = (Ok r, c') ->
  exists levels,
    set_volume_calls c' = set_volume_calls c ++ levels
    /\ List.length levels
       = Nat.min (List.length (multi_hand_landmarks detected))
           (List.length (multi_handedness detected))
    /\ r = List.last (map Some levels) None.
Proof.
  unfold process_frame.
  destruct (multi_hand_landmarks detected) as [|l ls] eqn:Hl.
  - unfold ret. intros H. injection H as <- <-.
    exists []. rewrite app_nil_r. auto.
  - destruct (multi_handedness detected) as [|i infos] eqn:Hi.
    + unfold ret. intros H. injection H as <- <-.
      exists []. rewrite app_nil_r. auto.
    + intros H. apply process_hands_return in H.
      destruct H as [levels [Hc [Hn Hr]]].
      exists levels. rewrite length_combine in Hn. auto.
Qed.

Lemma process_frame_returns_last_level_witness :
  exists r c' levels,
    process_frame 480 640
      (mkResults [pinch_hand 0.1; pinch_hand 0.2]
         [["Right"%string]; ["Left"%string]])
      (Volume.init 5)
    = (Ok r, c')
    /\ set_volume_calls c' = set_volume_calls (Volume.init 5) ++ levels
    /\ List.length levels = 2%nat
    /\ r = List.last (map Some levels) None.
Proof.
  assert (E : exists r c',
             process_frame 480 640
               (mkResults [pinch_hand 0.1; pinch_hand 0.2]
                  [["Right"%string]; ["Left"%string]])
               (Volume.init 5)
             = (Ok r, c'))
    by (do 2 eexists; vm_compute; reflexivity).
  destruct E as [r [c' E]]. exists r, c'.
  destruct (process_frame_returns_last_level _ _ _ _ _ _ E) as [levels H].
  exists levels. split; [exact E | exact H].
Defined.

(** ** The distance of two landmarks *)

Lemma finite_spec (v : float) :
  finite v = match Prim2SF v with
             | S754_zero _ | S754_finite _ _ _ => true
             | _ => false
             end.
Proof.
  unfold finite, is_inf, is_nan.
  rewrite !FloatAxioms.eqb_spec, FloatAxioms.abs_spec.
  change (Prim2SF infinity) with (S754_infinity false). unfold SFeqb.
  destruct (Prim2SF v) as [s|s| |s m e].
  - destruct s; reflexivity.
  - destruct s; reflexivity.
  - reflexivity.
  - destruct (SFcompare_refl (S754_finite s m e)) as [R|R]; rewrite R.
    + reflexivity.
    + exfalso. simpl in R. rewrite Z.compare_refl in R.
      fold (Pos.compare m m) in R. rewrite Pos.compare_refl in R.
      destruct s; discriminate R.
Qed.

(** [v - v] is 0 for a finite [v], and NaN for an infinity or NaN. *)
Lemma sub_self (v : float) : v - v = if finite v then 0 else nan.
Proof.
  apply FloatAxioms.Prim2SF_inj. rewrite FloatAxioms.sub_spec, finite_spec.
  unfold FloatAxioms.SF64sub.
  destruct (Prim2SF v) as [s|s| |s m e].
  - destruct s; reflexivity.
  - destruct s; reflexivity.
  - reflexivity.
  - cbn [SFsub]. rewrite Z.min_id, Z.sub_diag. reflexivity.
Qed.

Lemma binary_round_aux_opp (m e : Z) (l : location) :
  binary_round_aux prec emax true m e l
  = SFopp (binary_round_aux prec emax false m e l).
Proof.
  unfold binary_round_aux.
  destruct (shr_fexp prec emax m e l) as [mrs' e'].
  destruct (shr_fexp prec emax _ e' loc_Exact) as [mrs'' e''].
  destruct (shr_m mrs''); [reflexivity| |reflexivity].
  destruct (e'' <=? emax - prec)%Z; reflexivity.
Qed.

Lemma binary_round_opp (m : positive) (e : Z) :
  binary_round prec emax true m e = SFopp (binary_round prec emax false m e).
Proof.
  unfold binary_round.
  destruct (shl_align m e _) as [mz ez]. apply binary_round_aux_opp.
Qed.

Lemma SFopp_involutive (a : spec_float) : SFopp (SFopp a) = a.
Proof. destruct a as [s|s| |s m e]; simpl; rewrite ?Bool.negb_involutive; reflexivity. Qed.

(** Swapping the operands of a subtraction negates the difference, or
    both differences are zeros. *)
Lemma sub_swap_cases (a b : float) :
  Prim2SF (b - a) = SFopp (Prim2SF (a - b))
  \/ (exists s s', Prim2SF (b - a) = S754_zero s /\ Prim2SF (a - b) = S754_zero s').
Proof.
  rewrite !FloatAxioms.sub_spec. unfold FloatAxioms.SF64sub.
  destruct (Prim2SF a) as [sa|sa| |sa ma ea], (Prim2SF b) as [sb|sb| |sb mb eb].
  - right. destruct sa, sb; simpl; eauto.
  - left. destruct sb; reflexivity.
  - left. reflexivity.
  - left. simpl. rewrite Bool.negb_involutive. reflexivity.
  - left. destruct sa; reflexivity.
  - left. destruct sa, sb; reflexivity.
  - left. reflexivity.
  - left. destruct sa; reflexivity.
  - left. reflexivity.
  - left. reflexivity.
  - left. reflexivity.
  - left. reflexivity.
  - left. reflexivity.
  - left. destruct sb; reflexivity.
  - left. reflexivity.
  - cbn [SFsub]. rewrite (Z.min_comm eb ea).
    set (ez := Z.min ea eb).
    set (A := cond_Zopp sa (Z.pos (fst (shl_align ma ea ez)))).
    set (B := cond_Zopp sb (Z.pos (fst (shl_align mb eb ez)))).
    replace (B - A)%Z with (- (A - B))%Z by lia.
    destruct (A - B)%Z as [|p|p]; cbn [Z.opp binary_normalize].
    + right. eauto.
    + left. apply binary_round_opp.
    + left. rewrite binary_round_opp, SFopp_involutive. reflexivity.
Qed.

Lemma mul_opp_opp (v : float) : (- v) * (- v) = v * v.
Proof.
  apply FloatAxioms.Prim2SF_inj.
  rewrite !FloatAxioms.mul_spec, FloatAxioms.opp_spec.
  unfold FloatAxioms.SF64mul.
  destruct (Prim2SF v) as [s|s| |s m e]; cbn [SFopp SFmul];
    try reflexivity; destruct s; reflexivity.
Qed.

Lemma is_inf_opp (v : float) : is_inf (- v) = is_inf v.
Proof.
  unfold is_inf. f_equal. apply FloatAxioms.Prim2SF_inj.
  rewrite !FloatAxioms.abs_spec, FloatAxioms.opp_spec.
  destruct (Prim2SF v) as [s|s| |s m e]; reflexivity.
Qed.

Lemma pow2_opp (v : float) : pow2 (- v) = pow2 v.
Proof. unfold pow2. rewrite mul_opp_opp, is_inf_opp. reflexivity. Qed.

Lemma pow2_zero (v : float) (s : bool) :
  Prim2SF v = S754_zero s -> pow2 v = Ok 0.
Proof.
  intros H. unfold pow2.
  assert (E : v * v = 0).
  { apply FloatAxioms.Prim2SF_inj. rewrite FloatAxioms.mul_spec, H.
    destruct s; reflexivity. }
  rewrite E. reflexivity.
Qed.

(** The square of a difference does not depend on the order of the
    operands, and neither does its overflow. *)
Lemma pow2_sub_swap (a b : float) : pow2 (b - a) = pow2 (a - b).
Proof.
  destruct (sub_swap_cases a b) as [H|[s [s' [H1 H2]]]].
  - rewrite <- FloatAxioms.opp_spec in H. apply FloatAxioms.Prim2SF_inj in H.
    rewrite H. apply pow2_opp.
  - rewrite (pow2_zero _ _ H1), (pow2_zero _ _ H2). reflexivity.
Qed.

(** X21. The distance of two landmarks, in the gesture manager and in the
    volume controller, does not depend on their order: the same float, or
    the same [OverflowError].  The distance of a landmark to itself is 0 when
    both coordinates are finite and NaN otherwise, and never raises. *)
Theorem calculate_distance_symmetric (p q : point) :
  Gesture.calculate_distance q p = Gesture.calculate_distance p q
  /\ Volume.calculate_distance q p = Volume.calculate_distance p q
  /\ Gesture.calculate_distance p p
     = Ok (if finite (x p) && finite (y p) then 0 else nan)
  /\ Volume.calculate_distance p p = Gesture.calculate_distance p p.
Proof.
  unfold Gesture.calculate_distance, Volume.calculate_distance.
  rewrite (pow2_sub_swap (x p) (x q)), (pow2_sub_swap (y p) (y q)).
  split; [reflexivity|]. split; [reflexivity|]. split; [|reflexivity].
  rewrite !sub_self.
  destruct (finite (x p)), (finite (y p)); reflexivity.
Qed.

(** ** A hand and its mirror image *)

Lemma pow2_opp_cases (u v : float) :
  Prim2SF u = SFopp (Prim2SF v)
  \/ (exists s s', Prim2SF u = S754_zero s /\ Prim2SF v = S754_zero s') ->
  pow2 u = pow2 v.
Proof.
  intros [H|[s [s' [H1 H2]]]].
  - rewrite <- FloatAxioms.opp_spec in H. apply FloatAxioms.Prim2SF_inj in H.
    rewrite H. apply pow2_opp.
  - rewrite (pow2_zero _ _ H1), (pow2_zero _ _ H2). reflexivity.
Qed.

(** Negating both operands of a subtraction negates the difference, or
    both differences are zeros. *)
Lemma sub_opp_cases (a b : float) :
  Prim2SF (- a - - b) = SFopp (Prim2SF (a - b))
  \/ (exists s s', Prim2SF (- a - - b) = S754_zero s
                   /\ Prim2SF (a - b) = S754_zero s').
Proof.
  rewrite !FloatAxioms.sub_spec, !FloatAxioms.opp_spec.
  unfold FloatAxioms.SF64sub.
  destruct (Prim2SF a) as [sa|sa| |sa ma ea], (Prim2SF b) as [sb|sb| |sb mb eb].
  - right. destruct sa, sb; simpl; eauto.
  - left. destruct sb; reflexivity.
  - left. reflexivity.
  - left. reflexivity.
  - left. destruct sa; reflexivity.
  - left. destruct sa, sb; reflexivity.
  - left. reflexivity.
  - left. destruct sa; reflexivity.
  - left. reflexivity.
  - left. reflexivity.
  - left. reflexivity.
  - left. reflexivity.
  - left. reflexivity.
  - left. destruct sb; reflexivity.
  - left. reflexivity.
  - cbn [SFsub SFopp].
    set (ez := Z.min ea eb).
    set (X := Z.pos (fst (shl_align ma ea ez))).
    set (Y := Z.pos (fst (shl_align mb eb ez))).
    replace (cond_Zopp (negb sa) X - cond_Zopp (negb sb) Y)%Z
      with (- (cond_Zopp sa X - cond_Zopp sb Y))%Z
      by (destruct sa, sb; unfold cond_Zopp; simpl negb; cbv iota; lia).
    destruct (cond_Zopp sa X - cond_Zopp sb Y)%Z as [|p|p];
      cbn [Z.opp binary_normalize].
    + right. eauto.
    + left. apply binary_round_opp.
    + left. rewrite binary_round_opp, SFopp_involutive. reflexivity.
Qed.

Lemma calculate_distance_mirror (p q : point) :
  Gesture.calculate_distance (mkPoint (- x p) (y p)) (mkPoint (- x q) (y q))
  = Gesture.calculate_distance p q.
Proof.
  unfold Gesture.calculate_distance. cbn [x y].
  rewrite (pow2_opp_cases _ _ (sub_opp_cases (x p) (x q))). reflexivity.
Qed.

Lemma up_mirror (landmarks : list point) (tip pip : nat) :
  (tip < List.length landmarks)%nat -> (pip < List.length landmarks)%nat ->
  Spec.up (Spec.mirror landmarks) tip pip = Spec.up landmarks tip pip.
Proof.
  intros Ht Hp. unfold Spec.up.
  rewrite !landmark_of_mirror by assumption. reflexivity.
Qed.

Lemma classify_mirror (landmarks : list point)
  (swipe : outcome (option GestureType)) :
  List.length landmarks = 21%nat ->
  Rules.classify (Spec.mirror landmarks) swipe = Rules.classify landmarks swipe.
Proof.
  intros H.
  unfold Rules.classify, Rules.pose, Rules.fallback, Rules.thumbs_up,
    Rules.peace, Rules.rock, Rules.ok_sign, Rules.pointing, Rules.palm_open,
    Rules.fist, Rules.index, Rules.middle, Rules.ring, Rules.pinky.
  rewrite !up_mirror by lia.
  rewrite !landmark_of_mirror by lia.
  rewrite !calculate_distance_mirror. reflexivity.
Qed.

(** X22. On 21 landmarks [recognize_gesture] does not tell a hand from its
    mirror image, nor one handedness label from another: with the same hand
    centre, history and frame width it returns the same gesture, or raises
    the same exception, on the hand with every [x] negated and any label.
    Only the swipe check, which reads the hand centre, tells left from
    right. *)
Theorem recognize_gesture_mirror (landmarks : list point)
  (handedness handedness' : string) (c : position) (w : float) (h : heap) :
  List.length landmarks = 21%nat ->
  fst (recognize_gesture (Spec.mirror landmarks) handedness' c w h)
  = fst (recognize_gesture landmarks handedness c w h).
Proof.
  intros H.
  rewrite !recognize_gesture_value
    by (unfold Spec.mirror; rewrite ?length_map; exact H).
  apply classify_mirror. exact H.
Qed.

Lemma recognize_gesture_mirror_witness :
  fst (recognize_gesture (Spec.mirror thumbs_up_hand) "Left" (0.1, 0.5) 1
         fresh_heap)
  = fst (recognize_gesture thumbs_up_hand "Right" (0.1, 0.5) 1 fresh_heap).
Proof.
  exact (recognize_gesture_mirror thumbs_up_hand "Right" "Left" (0.1, 0.5) 1
           fresh_heap eq_refl).
Defined.

(** ** A frame of width 0 *)

(** X23. With a frame width of 0 the swipe check cannot divide: once the
    history holds [min_gesture_frames] positions (and at least one),
    [detect_swipe] raises [ZeroDivisionError] whatever the positions are,
    and a shorter history still gives [None].  [recognize_gesture] on 21
    landmarks then returns the pose its rules find, and raises
    [ZeroDivisionError] exactly when they find none. *)
Theorem detect_swipe_zero_width (landmarks : list point) (handedness : string)
  (c : position) (w : float) (h : heap) :
  (w =? 0) = true ->
  (1 <= List.length (history_positions h))%nat ->
  List.length landmarks = 21%nat ->
  detect_swipe c w h
  = (if Nat.ltb (List.length (history_positions h)) (min_gesture_frames (self h))
     then Ok None else Raise ZeroDivisionError, h)
  /\ ((min_gesture_frames (self h) <= List.length (history_positions h))%nat ->
      fst (recognize_gesture landmarks handedness c w h)
      = match Rules.pose landmarks with
        | Ok (Some g) => Ok g
        | Ok None => Raise ZeroDivisionError
        | Raise e => Raise e
        end).
Proof.
  intros Hw Hh Hl.
  assert (E : swipe_outcome (self h) (history_positions h) c w
              = if Nat.ltb (List.length (history_positions h))
                     (min_gesture_frames (self h))
                then Ok None else Raise ZeroDivisionError).
  { unfold swipe_outcome, truediv. rewrite Hw.
    destruct (Nat.ltb _ _); [reflexivity|].
    destruct (history_positions h) as [|p rest]; [simpl in Hh; lia|reflexivity]. }
  split.
  - rewrite detect_swipe_run, E. reflexivity.
  - intros Hn. apply Nat.ltb_ge in Hn.
    rewrite (recognize_gesture_value landmarks handedness c w h Hl), E, Hn.
    unfold Rules.classify.
    destruct (Rules.pose landmarks) as [[g|]|e]; reflexivity.
Qed.

Lemma detect_swipe_zero_width_witness :
  detect_swipe (0.2, 0.5) 0
    (mkHeap (Gesture.init 5) [(0.5, 0.5); (0.4, 0.5); (0.3, 0.5)] [])
  = (Raise ZeroDivisionError,
     mkHeap (Gesture.init 5) [(0.5, 0.5); (0.4, 0.5); (0.3, 0.5)] []).
Proof.
  refine (proj1 (detect_swipe_zero_width thumbs_up_hand "Right" (0.2, 0.5) 0
                   (mkHeap (Gesture.init 5) [(0.5, 0.5); (0.4, 0.5); (0.3, 0.5)] [])
                   eq_refl _ eq_refl)).
  simpl. lia.
Defined.
